(** * cca_zoo: the iterative alternating-optimisation engine

    A shallow embedding of the inner loops of cca_zoo and of the helpers
    they call:

    - [cca_zoo/linear/_iterative/_altmaxvar.py]  (module [LinearAltMaxVar])
    - [cca_zoo/linear/_iterative/_scca_pmd.py]   (module [PMD])
    - [cca_zoo/models/_iterative/_altmaxvar.py]  (module [ModelsAltMaxVar])
    - [cca_zoo/models/_iterative/_elastic.py]    (module [Elastic])
    - [cca_zoo/models/cca_base.py] and [cca_zoo/models/_multiview/_mcca.py]
      (modules [Transform], [MCCA] and [GridSearch])

    The parameter checks and the initialisers of the loops are in the
    modules [PMDParams], [ModelsInitialize] and [ElasticConfig].

    NumPy arrays are lists of rows.  float64 is idealised: exact rationals
    [Q] where a run is evaluated, reals [R] where the code takes square
    roots and norms, and a rational-or-NaN type where the code tests
    [np.isnan].  Rounding is not modelled.  External collaborators (the
    SVD routine, the regression solvers, pyproximal's constructors, the
    random generator) are section variables.

    Part I holds the definitions, Part II the lemmas and theorems. *)

From Stdlib Require Import String Ascii.
From Stdlib Require Import List Bool Arith Lia ZArith.
From Stdlib Require Import QArith Qabs.
From Stdlib Require Import Reals Lra.
Import ListNotations.

Set Implicit Arguments.
Local Close Scope Q_scope.
Local Close Scope R_scope.
Local Open Scope nat_scope.

(* ================================================================== *)
(** * Part I: definitions *)

(** ** Python exceptions and fallible computations *)

Inductive exn : Type :=
| ValueError (msg : string)
| TypeError
| AttributeError
| IndexError
| KeyError
| LinAlgError
| NotFittedError
| DegenerateWeightsError.

Inductive result (A : Type) : Type :=
| Ok (a : A)
| Raise (e : exn).
Arguments Ok {A} a.
Arguments Raise {A} e.

Definition bind {A B} (r : result A) (k : A -> result B) : result B :=
  match r with
  | Ok a => k a
  | Raise e => Raise e
  end.

Notation "x <- c ;; k" := (bind c (fun x => k))
  (at level 61, c at next level, right associativity).

(** [l[i]] for a non-negative [i]; out of range raises [IndexError]. *)
Definition index {A} (l : list A) (i : nat) : result A :=
  match nth_error l i with
  | Some a => Ok a
  | None => Raise IndexError
  end.

(** [l[i]] for a Python integer: a negative [i] counts from the end. *)
Definition py_index {A} (l : list A) (i : Z) : result A :=
  if (i <? 0)%Z
  then (if (- i <=? Z.of_nat (length l))%Z
        then index l (Z.to_nat (Z.of_nat (length l) + i))
        else Raise IndexError)
  else index l (Z.to_nat i).

(** [l[i] = v] on a list that has index [i]. *)
Fixpoint set_nth {A} (l : list A) (i : nat) (v : A) : list A :=
  match l, i with
  | [], _ => []
  | _ :: t, O => v :: t
  | h :: t, S i' => h :: set_nth t i' v
  end.

(** [l] without its element of index [i] (a boolean mask [arange != i]). *)
Fixpoint drop_nth {A} (l : list A) (i : nat) : list A :=
  match l, i with
  | [], _ => []
  | _ :: t, O => t
  | h :: t, S i' => h :: drop_nth t i'
  end.

Fixpoint zip_with {A B C} (f : A -> B -> C) (l : list A) (l' : list B) : list C :=
  match l, l' with
  | a :: t, b :: t' => f a b :: zip_with f t t'
  | _, _ => []
  end.

(** A computation for each element in turn, stopping at the first raise. *)
Fixpoint map_result {A B} (f : A -> result B) (l : list A) : result (list B) :=
  match l with
  | [] => Ok []
  | a :: t => b <- f a ;; bs <- map_result f t ;; Ok (b :: bs)
  end.

(** ** Scalars *)

(** What the code asks of an array element. *)
Class Num (F : Type) : Type := {
  zero : F;
  one : F;
  add : F -> F -> F;
  sub : F -> F -> F;
  mul : F -> F -> F;
  abs : F -> F;
  leb : F -> F -> bool;
  is_nan : F -> bool
}.

(** Elements that can also be divided, for means and tolerances. *)
Class Frac (F : Type) : Type := {
  div : F -> F -> F;
  of_int : Z -> F
}.

#[export] Instance Num_Q : Num Q :=
  {| zero := 0%Q; one := 1%Q; add := Qplus; sub := Qminus; mul := Qmult;
     abs := Qabs; leb := Qle_bool; is_nan := fun _ => false |}.
#[export] Instance Frac_Q : Frac Q :=
  {| div := Qdiv; of_int := inject_Z |}.

Definition Rleb (x y : R) : bool := if Rle_dec x y then true else false.
Definition Rltb (x y : R) : bool := if Rlt_dec x y then true else false.
Definition Reqb (x y : R) : bool := if Req_dec_T x y then true else false.

#[export] Instance Num_R : Num R :=
  {| zero := 0%R; one := 1%R; add := Rplus; sub := Rminus; mul := Rmult;
     abs := Rabs; leb := Rleb; is_nan := fun _ => false |}.
#[export] Instance Frac_R : Frac R :=
  {| div := Rdiv; of_int := IZR |}.

(** A float that may be NaN. *)
Inductive npfloat : Type :=
| Val (q : Q)
| NaN.

Definition lift1 (f : Q -> Q) (x : npfloat) : npfloat :=
  match x with
  | Val a => Val (f a)
  | NaN => NaN
  end.

Definition lift2 (f : Q -> Q -> Q) (x y : npfloat) : npfloat :=
  match x, y with
  | Val a, Val b => Val (f a b)
  | _, _ => NaN
  end.

#[export] Instance Num_npfloat : Num npfloat :=
  {| zero := Val 0; one := Val 1;
     add := lift2 Qplus; sub := lift2 Qminus; mul := lift2 Qmult;
     abs := lift1 Qabs;
     leb := fun x y => match x, y with
                       | Val a, Val b => Qle_bool a b
                       | _, _ => false
                       end;
     is_nan := fun x => match x with NaN => true | Val _ => false end |}.

(** ** Arrays *)

Definition Vector (F : Type) : Type := list F.
Definition Matrix (F : Type) : Type := list (list F).

(** An array of any rank, for the shapes [np.array] and [np.stack] build. *)
#[warnings="-register-all"] Inductive ndarray (F : Type) : Type :=
| Scalar (x : F)
| Array (items : list (ndarray F)).
Arguments Scalar {F} x.
Arguments Array {F} items.

Fixpoint shape {F} (a : ndarray F) : list nat :=
  match a with
  | Scalar _ => []
  | Array items =>
      length items :: match items with
                      | [] => []
                      | x :: _ => shape x
                      end
  end.

Definition of_vector {F} (v : Vector F) : ndarray F := Array (map Scalar v).
Definition of_matrix {F} (A : Matrix F) : ndarray F := Array (map of_vector A).

Section Linalg.
Context {F : Type} `{NF : Num F}.

(** [A.shape[0]] and [A.shape[1]]. *)
Definition nrows (A : Matrix F) : nat := length A.
Definition ncols (A : Matrix F) : nat :=
  match A with [] => 0 | r :: _ => length r end.

Definition shape_is (m n : nat) (A : Matrix F) : Prop :=
  length A = m /\ Forall (fun r => length r = n) A.

Definition get (A : Matrix F) (i j : nat) : F := nth j (nth i A []) zero.

Definition tabulate (m n : nat) (f : nat -> nat -> F) : Matrix F :=
  map (fun i => map (f i) (seq 0 n)) (seq 0 m).

Fixpoint sumn (n : nat) (f : nat -> F) : F :=
  match n with
  | O => zero
  | S k => add (sumn k f) (f k)
  end.

(** [A @ B] *)
Definition matmul (A B : Matrix F) : Matrix F :=
  tabulate (nrows A) (ncols B)
    (fun i j => sumn (ncols A) (fun l => mul (get A i l) (get B l j))).

(** [A.T] *)
Definition transpose (A : Matrix F) : Matrix F :=
  tabulate (ncols A) (nrows A) (fun i j => get A j i).

(** [np.eye(n)], [np.zeros((m, n))] and [np.ones((m, n))]. *)
Definition identity (n : nat) : Matrix F :=
  tabulate n n (fun i j => if Nat.eqb i j then one else zero).
Definition zeros (m n : nat) : Matrix F := repeat (repeat zero n) m.
Definition ones (m n : nat) : Matrix F := repeat (repeat one n) m.

(** Element-wise [A + B], [A - B] and scalar [c * A] on equal shapes. *)
Definition madd (A B : Matrix F) : Matrix F := zip_with (zip_with add) A B.
Definition msub (A B : Matrix F) : Matrix F := zip_with (zip_with sub) A B.
Definition mscale (c : F) (A : Matrix F) : Matrix F := map (map (mul c)) A.

(** [S.sum(axis=0)] of a non-empty stack of equally shaped matrices. *)
Definition sum_axis0 (S : list (Matrix F)) : Matrix F :=
  match S with
  | [] => []
  | M :: rest => fold_left madd rest M
  end.

(** [np.isnan(S).sum()] over a stack of matrices. *)
Definition count_nan (S : list (Matrix F)) : nat :=
  length (filter is_nan (concat (concat S))).

(** [x . y] and [A @ v] for a one-dimensional [v]. *)
Fixpoint dot (x y : Vector F) : F :=
  match x, y with
  | a :: x', b :: y' => add (mul a b) (dot x' y')
  | _, _ => zero
  end.

Definition matvec (A : Matrix F) (v : Vector F) : Vector F :=
  map (fun row => dot row v) A.

End Linalg.

(** The outcome of [np.linalg.svd(R, full_matrices=False)]. *)
Definition svd_routine (F : Type) : Type :=
  Matrix F -> result (Matrix F * Vector F * Matrix F).

(** ** Orthonormal columns and the contract of the SVD routine *)

Definition kron (a b : nat) : R := if Nat.eqb a b then 1%R else 0%R.

(** [A] has orthonormal columns: [A.T @ A] is the identity. *)
Definition orthonormal_columns (k : nat) (A : Matrix R) : Prop :=
  matmul (transpose A) A = identity k.

(** [np.diag(S)] *)
Definition diag (S : Vector R) : Matrix R :=
  tabulate (length S) (length S)
    (fun i j => if Nat.eqb i j then nth i S 0%R else 0%R).

(** What [np.linalg.svd(M, full_matrices=False)] returns for an [n x k]
    matrix [M]: with [r = min n k], [U] is [n x r] with orthonormal
    columns, [S] holds [r] non-negative singular values, [Vt] is [r x k]
    with orthonormal rows (so unitary when it is square), and
    [M = U @ diag(S) @ Vt]. *)
Record thin_svd (n k : nat) (M U : Matrix R) (S : Vector R) (Vt : Matrix R)
  : Prop := {
  svd_M_shape : shape_is n k M;
  svd_U_shape : shape_is n (min n k) U;
  svd_S_length : length S = min n k;
  svd_S_nonneg : Forall (fun s => (0 <= s)%R) S;
  svd_Vt_shape : shape_is (min n k) k Vt;
  svd_U_columns : orthonormal_columns (min n k) U;
  svd_Vt_rows : matmul Vt (transpose Vt) = identity (min n k);
  svd_Vt_unitary : min n k = k -> orthonormal_columns k Vt;
  svd_factors : M = matmul (matmul U (diag S)) Vt
}.

(* ================================================================== *)
(** ** cca_zoo/linear/_iterative/_altmaxvar.py *)

Module LinearAltMaxVar.

Section Loop.
Context {F : Type} `{NF : Num F} `{FF : Frac F}.

(** A pyproximal operator object: calling it gives the penalty, [prox]
    the proximal map. *)
Record ProxOp : Type := {
  cost : Matrix F -> F;
  prox : Matrix F -> F -> Matrix F
}.

(** Array objects live in a heap; [self.weights] holds references.
    [a -= b] on an ndarray rewrites the object in place, so every name
    bound to it sees the change. *)
Definition loc : Type := nat.
Definition heap : Type := list (Matrix F).
Definition load (h : heap) (l : loc) : Matrix F := nth l h [].
Definition store (h : heap) (l : loc) (v : Matrix F) : heap := set_nth h l v.
Definition alloc (h : heap) (v : Matrix F) : heap * loc := (h ++ [v], length h).

Record AltMaxVarLoop : Type := {
  arrays : heap;
  weights : list loc;
  G : option (Matrix F);
  gamma : F;
  T : nat;
  learning_rate : F;
  proximal_operators : list (option ProxOp);
  tracking : bool;
  convergence_checking : bool
}.

Definition with_arrays (self : AltMaxVarLoop) (h : heap) (ws : list loc) : AltMaxVarLoop :=
  {| arrays := h; weights := ws; G := G self; gamma := gamma self;
     T := T self; learning_rate := learning_rate self;
     proximal_operators := proximal_operators self;
     tracking := tracking self;
     convergence_checking := convergence_checking self |}.

Definition with_G (self : AltMaxVarLoop) (g : Matrix F) : AltMaxVarLoop :=
  {| arrays := arrays self; weights := weights self; G := Some g;
     gamma := gamma self; T := T self; learning_rate := learning_rate self;
     proximal_operators := proximal_operators self;
     tracking := tracking self;
     convergence_checking := convergence_checking self |}.

(** The current value of every view's weights. *)
Definition weight_values (self : AltMaxVarLoop) : list (Matrix F) :=
  map (load (arrays self)) (weights self).

(** [forward]: [[view @ weight for view, weight in zip(views, self.weights)]] *)
Definition forward (self : AltMaxVarLoop) (views : list (Matrix F)) : list (Matrix F) :=
  zip_with matmul views (weight_values self).

(** [scores.mean(axis=0)] *)
Definition mean_axis0 (scores : list (Matrix F)) : Matrix F :=
  map (map (fun x => div x (of_int (Z.of_nat (length scores))))) (sum_axis0 scores).

(** The matrix [R] of [_get_target]; [hasattr(self, "G")] is [G] being
    [Some]. *)
Definition target_aggregate (self : AltMaxVarLoop) (scores : list (Matrix F))
  : Matrix F :=
  match G self with
  | Some g => madd (mscale (gamma self) (mean_axis0 scores))
                   (mscale (sub one (gamma self)) g)
  | None => mean_axis0 scores
  end.

Definition _get_target (svd : svd_routine F) (self : AltMaxVarLoop)
  (scores : list (Matrix F)) : result (Matrix F) :=
  let R := target_aggregate self scores in
  usv <- svd R ;;
  let '(U, _, Vt) := usv in
  Ok (matmul U Vt).

(** [np.allclose(a, b)] with its default [rtol=1e-05] and [atol=1e-08]. *)
Definition rtol : F := div one (of_int 100000).
Definition atol : F := div one (of_int 100000000).
Definition isclose (a b : F) : bool :=
  leb (abs (sub a b)) (add atol (mul rtol (abs b))).
Definition allclose (A B : Matrix F) : bool :=
  forallb (fun r => forallb (fun c => c) r) (zip_with (zip_with isclose) A B).

(** One gradient step on the array at [w], in place. *)
Definition gradient_step (lr : F) (view g : Matrix F) (h : heap) (w : loc) : heap :=
  store h w
    (msub (load h w)
          (mscale lr (matmul (transpose view) (msub (matmul view (load h w)) g)))).

(** The [while t < self.T and not converged] loop of view [i], entered
    with [converged = False]; [fuel] is [self.T - t].  The flag returned
    is the value of [converged] when the loop is left.  [-=] rewrites the
    array at [w]; [prox] returns a new array (pyproximal's operators do),
    which [self.weights[i]] and then [prev_weights] name. *)
Fixpoint sub_loop (fuel : nat) (i : nat) (view g : Matrix F)
  (self : AltMaxVarLoop) (prev_weights : option loc)
  : result (AltMaxVarLoop * bool) :=
  match fuel with
  | O => Ok (self, false)
  | S fuel' =>
      w <- index (weights self) i ;;
      let h1 := gradient_step (learning_rate self) view g (arrays self) w in
      op <- index (proximal_operators self) i ;;
      match op with
      | None => Raise AttributeError
      | Some op =>
          let '(h2, w') := alloc h1 (prox op (load h1 w) (learning_rate self)) in
          let self' := with_arrays self h2 (set_nth (weights self) i w') in
          let close := match prev_weights with
                       | Some p => allclose (load h2 w') (load h2 p)
                       | None => false
                       end in
          if close then Ok (self', true)
          else sub_loop fuel' i view g self' (Some w')
      end
  end.

(** The [for i, view in enumerate(batch["views"])] loop, from view [i] on;
    [converged] is the one flag declared before the loop. *)
Fixpoint sweep (views : list (Matrix F)) (i : nat) (g : Matrix F)
  (self : AltMaxVarLoop) (converged : bool) : result (AltMaxVarLoop * bool) :=
  match views with
  | [] => Ok (self, converged)
  | view :: rest =>
      r <- (if converged then Ok (self, true)
            else sub_loop (T self) i view g self None) ;;
      sweep rest (S i) g (fst r) (snd r)
  end.

(** [training_step].  [self.objective] takes [(views, scores, weights)]
    and is called with the views alone, which raises when tracking or
    convergence checking is on. *)
Definition training_step (svd : svd_routine F) (self : AltMaxVarLoop)
  (views : list (Matrix F)) : result AltMaxVarLoop :=
  scores <- match forward self views with
            | [] => Raise (ValueError "need at least one array to stack")
            | s => Ok s
            end ;;
  g <- _get_target svd self scores ;;
  r <- sweep views 0 g (with_G self g) false ;;
  if tracking self || convergence_checking self
  then Raise TypeError
  else Ok (fst r).

(** *** The proximal-operator registry *)

(** Keyword-argument values. *)
Inductive kwvalue : Type :=
| KFloat (x : F)
| KBool (b : bool)
| KInt (n : Z).

Definition kwargs : Type := list (string * kwvalue).

(** The keys of [PROXIMAL_OPERATORS]; the values are pyproximal classes. *)
Definition PROXIMAL_OPERATORS : list string :=
  ["L0"; "L0Ball"; "L1"; "L1Ball"; "L2"; "L21"; "L21_plus_L1"; "Nuclear";
   "NuclearBall"; "Log"; "Log1"; "Euclidean"; "EuclideanBall"]%string.

Definition PROXIMAL_PARAMS : list (string * list string) :=
  [("Dummy", []);
   ("L0", ["sigma"]);
   ("L0Ball", ["radius"]);
   ("L1", ["sigma"]);
   ("L1Ball", ["n"; "radius"]);
   ("L2", ["sigma"]);
   ("L21", ["ndim"; "sigma"]);
   ("L21_plus_L1", ["sigma"; "rho"]);
   ("TV", ["sigma"; "isotropic"; "dims"]);
   ("Nuclear", ["dim"; "sigma"]);
   ("NuclearBall", ["dims"; "radius"]);
   ("Log", ["sigma"; "gamma"]);
   ("Log1", ["sigma"; "delta"]);
   ("Euclidean", ["sigma"]);
   ("TVL1", ["sigma"; "shape"; "l1_ratio"])]%string.

Definition mem (s : string) (l : list string) : bool :=
  existsb (String.eqb s) l.

Fixpoint lookup {V} (s : string) (d : list (string * V)) : option V :=
  match d with
  | [] => None
  | (k, v) :: rest => if String.eqb s k then Some v else lookup s rest
  end.

(** The value given for [proximal]: a name, a callable, or another
    hashable object.  A callable is called with the keyword arguments and
    what it returns is passed on as it is, Python's [None] included. *)
Inductive proximal_arg : Type :=
| PName (s : string)
| PCallable (f : kwargs -> result (option ProxOp))
| POther.

(** [{k: params[k] for k in params if k in PROXIMAL_PARAMS[proximal]}]:
    the subscript is evaluated once per key of [params]. *)
Definition filter_kwargs (name : string) (params : kwargs) : result kwargs :=
  match params with
  | [] => Ok []
  | _ => match lookup name PROXIMAL_PARAMS with
         | None => Raise KeyError
         | Some allowed => Ok (filter (fun kv => mem (fst kv) allowed) params)
         end
  end.

(** [_proximal_operators]; [None] is Python's [None], what a function
    returns when no branch returns. *)
Definition _proximal_operators (construct : string -> kwargs -> result ProxOp)
  (proximal : proximal_arg) (filter_params : bool) (params : kwargs)
  : result (option ProxOp) :=
  match proximal with
  | PName s =>
      if mem s PROXIMAL_OPERATORS
      then params' <- (if filter_params then filter_kwargs s params
                       else Ok params) ;;
           op <- construct s params' ;;
           Ok (Some op)
      else Ok None
  | PCallable f => f params
  | POther => Ok None
  end.

(** The estimator's per-view settings, after [_process_parameter]. *)
Record AltMaxVar : Type := {
  proximal : list proximal_arg;
  positive : list bool;
  sigma : list F;
  proximal_params : option (list (option kwargs));
  n_views_ : nat
}.

Definition _get_proximal (construct : string -> kwargs -> result ProxOp)
  (self : AltMaxVar) (view : nat) : result (option ProxOp) :=
  p <- index (proximal self) view ;;
  params <- match p with
            | PCallable _ =>
                match proximal_params self with
                | None => Raise TypeError
                | Some pp => o <- index pp view ;;
                             Ok (match o with Some d => d | None => [] end)
                end
            | _ => s <- index (sigma self) view ;;
                   b <- index (positive self) view ;;
                   Ok [("sigma"%string, KFloat s); ("positive"%string, KBool b)]
            end ;;
  _proximal_operators construct p true params.

(** The [self.proximal_operators] that [_check_params] builds. *)
Definition _check_params (construct : string -> kwargs -> result ProxOp)
  (self : AltMaxVar) : result (list (option ProxOp)) :=
  map_result (_get_proximal construct self) (seq 0 (n_views_ self)).

End Loop.

(** pyproximal's [L1(sigma).prox(x, tau)]: soft thresholding at
    [tau * sigma]. *)
Definition soft_threshold (thresh x : Q) : Q :=
  ((if Qle_bool (Qabs x - thresh) 0 then 0 else Qabs x - thresh) *
   (if Qle_bool x 0 then (if Qle_bool 0 x then 0 else -1) else 1))%Q.

Definition L1 (sigma : Q) : ProxOp (F := Q) :=
  {| cost := fun w => (sigma * fold_right Qplus 0 (map Qabs (concat w)))%Q;
     prox := fun w tau => map (map (soft_threshold (tau * sigma)%Q)) w |}.

End LinearAltMaxVar.

(* ================================================================== *)
(** ** cca_zoo/linear/_iterative/_scca_pmd.py *)

Module PMD.

Section Update.
Local Open Scope R_scope.

(** The estimator after [_check_params] (every [tau] in [0, 1]); [t] is
    [None] until [_update_weights] first runs ([hasattr(self, "t")]). *)
Record SCCA_PMD : Type := {
  tau : list R;
  positive : list bool;
  weights : list (Matrix R);
  tol : R;
  t : option (list R)
}.

(** [self.transform(views)], inherited from the base estimator. *)
Variable transform : SCCA_PMD -> list (Matrix R) -> list (Matrix R).

(** [cca_zoo.linear._search._delta_search(w, c, tol=...)]: the bisection
    on the soft threshold, with the L1 bound [c]. *)
Variable _delta_search : Matrix R -> R -> R -> Matrix R.

(** [[max(1, x * y) for x, y in zip(self.tau, shape_sqrts)]] *)
Definition l1_bounds (taus : list R) (ws : list (Matrix R)) : list R :=
  zip_with (fun x y => Rmax 1 (x * y)) taus
           (map (fun w => sqrt (INR (nrows w))) ws).

Definition ensure_t (self : SCCA_PMD) : SCCA_PMD :=
  match t self with
  | Some _ => self
  | None => {| tau := tau self; positive := positive self;
               weights := weights self; tol := tol self;
               t := Some (l1_bounds (tau self) (weights self)) |}
  end.

(** [new_weights[new_weights < 0] = 0] *)
Definition clip_negative (A : Matrix R) : Matrix R :=
  map (map (fun x => if Rlt_dec x 0 then 0 else x)) A.

(** [np.sum(scores[mask], axis=0)] with [mask = arange(len(scores)) != i] *)
Definition others_sum (scores : list (Matrix R)) (i : nat) : Matrix R :=
  fold_left madd (drop_nth scores i)
            (zeros (nrows (hd [] scores)) (ncols (hd [] scores))).

(** The candidate handed to the delta search for view [i]. *)
Definition candidate (self : SCCA_PMD) (views : list (Matrix R)) (i : nat)
  : result (Matrix R) :=
  let target := others_sum (transform self views) i in
  view <- index views i ;;
  pos <- index (positive self) i ;;
  let new_weights := matmul (transpose view) target in
  Ok (if pos then clip_negative new_weights else new_weights).

(** The L1 bound used for view [i]: [self.t[i]]. *)
Definition bound (self : SCCA_PMD) (i : nat) : result R :=
  match t (ensure_t self) with
  | Some ts => index ts i
  | None => Raise AttributeError
  end.

(** [_update_weights]: the new weights of view [i] and the estimator,
    which now carries [t]. *)
Definition _update_weights (self : SCCA_PMD) (views : list (Matrix R)) (i : nat)
  : result (Matrix R * SCCA_PMD) :=
  let self := ensure_t self in
  new_weights <- candidate self views i ;;
  c <- bound self i ;;
  Ok (_delta_search new_weights c (tol self), self).

End Update.

End PMD.

(* ================================================================== *)
(** ** cca_zoo/models/_iterative/_altmaxvar.py *)

Module ModelsAltMaxVar.

Section Loop.
Context {F : Type} `{NF : Num F}.

(** An entry of [view_regs]: called as [reg(view, G, weights)]. *)
Definition regulariser : Type :=
  Matrix F -> Matrix F -> Matrix F -> result (Matrix F).

Record _AltMaxVarLoop : Type := {
  scores : list (Matrix F);
  weights : list (Matrix F);
  G : option (Matrix F);
  view_regs : list regulariser;
  tol : R;
  track_objective : list R
}.

Definition with_G (self : _AltMaxVarLoop) (g : Matrix F) : _AltMaxVarLoop :=
  {| scores := scores self; weights := weights self; G := Some g;
     view_regs := view_regs self; tol := tol self;
     track_objective := track_objective self |}.

Definition with_weights (self : _AltMaxVarLoop) (ws : list (Matrix F))
  : _AltMaxVarLoop :=
  {| scores := scores self; weights := ws; G := G self;
     view_regs := view_regs self; tol := tol self;
     track_objective := track_objective self |}.

Definition _update_target (svd : svd_routine F) (self : _AltMaxVarLoop)
  : result _AltMaxVarLoop :=
  let R := sum_axis0 (scores self) in
  usv <- svd R ;;
  let '(U, _, Vt) := usv in
  Ok (with_G self (matmul U Vt)).

Definition _update_view (self : _AltMaxVarLoop) (views : list (Matrix F))
  (view_index : nat) : result _AltMaxVarLoop :=
  reg <- index (view_regs self) view_index ;;
  view <- index views view_index ;;
  g <- match G self with
       | Some g => Ok g
       | None => Raise AttributeError
       end ;;
  w <- index (weights self) view_index ;;
  w' <- reg view g w ;;
  Ok (with_weights self (set_nth (weights self) view_index w')).

(** The [for i, view in enumerate(views)] loop over the indices [idxs]. *)
Fixpoint update_views (self : _AltMaxVarLoop) (views : list (Matrix F))
  (idxs : list nat) : result _AltMaxVarLoop :=
  match idxs with
  | [] => Ok self
  | i :: rest =>
      self' <- (if count_nan (scores self) =? 0
                then _update_view self views i
                else Ok self) ;;
      update_views self' views rest
  end.

Definition _inner_iteration (svd : svd_routine F) (self : _AltMaxVarLoop)
  (views : list (Matrix F)) : result _AltMaxVarLoop :=
  self' <- _update_target svd self ;;
  update_views self' views (seq 0 (length views)).

(** [_early_stop]; the two subscripts raise on a trace shorter than two. *)
Definition _early_stop (self : _AltMaxVarLoop) : result bool :=
  a <- py_index (track_objective self) (-2) ;;
  b <- py_index (track_objective self) (-1) ;;
  Ok (Rltb (a - b) (1 / 1000000000)%R).

(** *** [AltMaxVar._initialization] *)

(** The value given for [initialization]. *)
Inductive init_arg : Type :=
| InitName (s : string)
| InitCallable.

Variable rng : Type.
(** [random_state.normal(0, 1, size=n)]: the draws and the generator
    after them. *)
Variable normal : rng -> nat -> Vector F * rng.
(** [rCCA(latent_dims, c=c).fit_transform(views)]; [None] is the default
    [c]. *)
Variable rcca_fit_transform : nat -> option F -> list (Matrix F) -> list (Matrix F).

(** [[random_state.normal(0, 1, size=(view.shape[0])) for view in views]] *)
Fixpoint random_scores (random_state : rng) (views : list (Matrix F))
  : list (Vector F) * rng :=
  match views with
  | [] => ([], random_state)
  | view :: rest =>
      let '(x, rs1) := normal random_state (nrows view) in
      let '(xs, rs2) := random_scores rs1 rest in
      (x :: xs, rs2)
  end.

Definition unsupported_message : string :=
  "Initialization {type} not supported. Pass a generator implementing this method".

Definition _initialization (views : list (Matrix F)) (initialization : init_arg)
  (random_state : rng) (latent_dims : nat) : result (ndarray F * rng) :=
  match initialization with
  | InitName s =>
      if String.eqb s "random" then
        let '(xs, rs) := random_scores random_state views in
        Ok (Array (map of_vector xs), rs)
      else if String.eqb s "uniform" then
        Ok (Array (map (fun view => of_matrix (ones (nrows view) latent_dims)) views),
            random_state)
      else if String.eqb s "pls" then
        Ok (Array (map of_matrix (rcca_fit_transform latent_dims (Some one) views)),
            random_state)
      else if String.eqb s "cca" then
        Ok (Array (map of_matrix (rcca_fit_transform latent_dims None views)),
            random_state)
      else Raise (ValueError unsupported_message)
  | InitCallable => Raise (ValueError unsupported_message)
  end.

End Loop.

End ModelsAltMaxVar.

(* ================================================================== *)
(** ** cca_zoo/models/_iterative/_elastic.py *)

Module Elastic.

(** How far a NumPy computation that has not raised is followed.
    [Finite a]: it returned the finite arrays [a].  [NonFinite]: it
    returned arrays holding inf or NaN (a division by zero does not raise
    in NumPy; it fills the result with inf or NaN).  [NotFollowed]: it
    reached the regression solver with a non-finite target; the solver is
    modelled on finite data only, and what sklearn does there (some
    regressors raise [ValueError], others return coefficients) is not
    followed: nothing is said about how the call ends. *)
Inductive returned (A : Type) : Type :=
| Finite (a : A)
| NonFinite
| NotFollowed.
Arguments Finite {A} a.
Arguments NonFinite {A}.
Arguments NotFollowed {A}.

Section Loop.
Local Open Scope R_scope.

(** An array whose every entry is inf or NaN: non-finite, unless it has
    no entry at all. *)
Definition all_non_finite (v : Vector R) : returned (Vector R) :=
  match v with
  | [] => Finite []
  | _ :: _ => NonFinite
  end.

(** [v / (x / s)] entry by entry, with NumPy's divisions by zero:
    [x / s] is NaN for [x = s = 0] and infinite for [s = 0 <> x]; a
    finite entry over an infinite number is 0, and an entry over 0 or
    over NaN is inf or NaN. *)
Definition rescale (v : Vector R) (x s : R) : returned (Vector R) :=
  if Req_dec_T s 0 then
    (if Req_dec_T x 0 then all_non_finite v
     else Finite (map (fun _ => 0) v))
  else if Req_dec_T x 0 then all_non_finite v
  else Finite (map (fun t => t / (x / s)) v).

(** [np.linalg.norm(v)] *)
Definition norm (v : Vector R) : R := sqrt (dot v v).

(** [S.mean(axis=0)] of a stack of vectors. *)
Definition vsum (S : list (Vector R)) : Vector R :=
  match S with
  | [] => []
  | v :: rest => fold_left (zip_with Rplus) rest v
  end.
Definition vmean (S : list (Vector R)) : Vector R :=
  map (fun x => x / INR (length S)) (vsum S).

(** A fitted-in-place sklearn regressor ([SGDRegressor], [Ridge] or
    [ElasticNet]); [fit r X y] is [r.fit(X, y)]: the regressor after the
    fit and its [coef_]. *)
Variable regressor : Type.
Variable fit : regressor -> Matrix R -> Vector R -> regressor * Vector R.

Record _ElasticInnerLoop : Type := {
  maxvar : bool;
  n : nat;
  scores : list (Vector R);
  weights : list (Vector R);
  regressors : list regressor;
  tol : R;
  track_objective : list R
}.

Definition all_zero (w : Vector R) : bool := forallb (fun x => Reqb x 0) w.

(** Modelled from the spec: [cca_zoo.utils._check_converged_weights] is
    imported by this module and is not among the sources.  The spec has
    the update "fail with a DegenerateWeightsError if the unscaled weight
    is (numerically) all-zero". *)
Definition _check_converged_weights (w : Vector R) (view_index : nat)
  : result unit :=
  if all_zero w then Raise DegenerateWeightsError else Ok tt.

(** The regression target of view [view_index]. *)
Definition select_target (self : _ElasticInnerLoop) (view_index : nat)
  : result (returned (Vector R)) :=
  if maxvar self then
    let target := vmean (scores self) in
    Ok (rescale target (norm target) (sqrt (INR (n self))))
  else
    target <- py_index (scores self) (Z.of_nat view_index - 1) ;;
    Ok (Finite target).

(** [self.regressors[view_index].fit(X, y.ravel()).coef_] *)
Definition _elastic_solver (self : _ElasticInnerLoop) (X : Matrix R)
  (y : Vector R) (view_index : nat) : result (list regressor * Vector R) :=
  r <- index (regressors self) view_index ;;
  let '(r', coef) := fit r X y in
  Ok (set_nth (regressors self) view_index r', coef).

(** The two stores that end [_update_view]. *)
Definition store_view (self : _ElasticInnerLoop) (rs : list regressor)
  (X : Matrix R) (view_index : nat) (w : Vector R) : result _ElasticInnerLoop :=
  _ <- index (scores self) view_index ;;
  Ok {| maxvar := maxvar self; n := n self;
        scores := set_nth (scores self) view_index (matvec X w);
        weights := set_nth (weights self) view_index w;
        regressors := rs; tol := tol self;
        track_objective := track_objective self |}.

(** The same two stores of arrays that hold inf or NaN: the subscript
    of [self.scores] is still checked. *)
Definition store_non_finite (self : _ElasticInnerLoop) (view_index : nat)
  : result (returned _ElasticInnerLoop) :=
  _ <- index (scores self) view_index ;;
  Ok NonFinite.

(** [_update_view] from the solve on, given a finite target. *)
Definition solve_and_store (self : _ElasticInnerLoop) (views : list (Matrix R))
  (view_index : nat) (target : Vector R) : result (returned _ElasticInnerLoop) :=
  X <- index views view_index ;;
  sol <- _elastic_solver self X target view_index ;;
  let '(rs, w) := sol in
  _ <- index (weights self) view_index ;;
  if maxvar self then
    self' <- store_view self rs X view_index w ;;
    Ok (Finite self')
  else
    _ <- _check_converged_weights w view_index ;;
    match rescale w (norm (matvec X w)) (sqrt (INR (n self))) with
    | Finite w' =>
        self' <- store_view self rs X view_index w' ;;
        Ok (Finite self')
    | _ => store_non_finite self view_index
    end.

Definition _update_view (self : _ElasticInnerLoop) (views : list (Matrix R))
  (view_index : nat) : result (returned _ElasticInnerLoop) :=
  target <- select_target self view_index ;;
  match target with
  | Finite target => solve_and_store self views view_index target
  | _ =>
      (* [views[view_index]] and [self.regressors[view_index]] are still
         evaluated before [fit] is called with the non-finite target. *)
      _ <- index views view_index ;;
      _ <- index (regressors self) view_index ;;
      Ok NotFollowed
  end.

Definition _early_stop (self : _ElasticInnerLoop) : result bool :=
  a <- py_index (track_objective self) (-2) ;;
  b <- py_index (track_objective self) (-1) ;;
  Ok (Rltb (Rabs (a - b)) (tol self)).

End Loop.

End Elastic.

(* ================================================================== *)
(** ** cca_zoo/models/cca_base.py and cca_zoo/models/_multiview/_mcca.py *)

Module Transform.

Section Estimators.
Context {F : Type} `{NF : Num F} `{FF : Frac F}.

(** [_CCA_Base].  [weights_list] is the attribute [__init__] sets to
    Python's [None] (here [None]) and a fit replaces by a list;
    [view_means] is an attribute that does not exist ([None]) until
    [demean_data] creates it. *)
Record _CCA_Base : Type := {
  weights_list : option (list (Matrix F));
  view_means : option (list (Vector F));
  latent_dims : nat
}.

(** [_CCA_Base.__init__] *)
Definition init (latent_dims : nat) : _CCA_Base :=
  {| weights_list := None; view_means := None; latent_dims := latent_dims |}.

(** [view.mean(axis=0)] and [view - mean] with the mean broadcast over
    the rows. *)
Definition column_means (view : Matrix F) : Vector F :=
  map (fun j => div (sumn (nrows view) (fun i => get view i j))
                    (of_int (Z.of_nat (nrows view))))
      (seq 0 (ncols view)).

Definition centre (view : Matrix F) (mean : Vector F) : Matrix F :=
  map (fun row => zip_with sub row mean) view.

Definition demean_data (self : _CCA_Base) (views : list (Matrix F))
  : list (Matrix F) * _CCA_Base :=
  (map (fun view => centre view (column_means view)) views,
   {| weights_list := weights_list self;
      view_means := Some (map column_means views);
      latent_dims := latent_dims self |}).

(** The body of the loop of [transform]:
    [(view - self.view_means[view_index]) @ self.weights_list[view_index]] *)
Definition transform_view (self : _CCA_Base) (view : Matrix F) (view_index : Z)
  : result (Matrix F) :=
  means <- match view_means self with
           | Some m => Ok m
           | None => Raise AttributeError
           end ;;
  mean <- py_index means view_index ;;
  ws <- match weights_list self with
        | Some ws => Ok ws
        | None => Raise TypeError
        end ;;
  w <- py_index ws view_index ;;
  Ok (matmul (centre view mean) w).

Definition transform (self : _CCA_Base) (views : list (Matrix F))
  (view_indices : option (list Z)) : result (list (Matrix F)) :=
  let view_indices := match view_indices with
                      | Some l => l
                      | None => map Z.of_nat (seq 0 (length views))
                      end in
  map_result (fun vi => transform_view self (fst vi) (snd vi))
             (combine views view_indices).

(** [KCCA]: [weights] is an attribute that a fit creates. *)
Record KCCA : Type := {
  weights : option (list (Matrix F));
  train_views : list (Matrix F)
}.

(** [cca_zoo.utils.check_values._check_views], the base estimator's
    [_centre_scale_transform] and [_get_kernel] (sklearn's
    [pairwise_kernels]). *)
Variable _check_views : list (Matrix F) -> result (list (Matrix F)).
Variable _centre_scale_transform : KCCA -> list (Matrix F) -> result (list (Matrix F)).
Variable _get_kernel : KCCA -> nat -> Matrix F -> Matrix F -> Matrix F.

(** sklearn's [check_is_fitted(self, attributes=["weights"])] *)
Definition check_is_fitted (self : KCCA) : result (list (Matrix F)) :=
  match weights self with
  | Some ws => Ok ws
  | None => Raise NotFittedError
  end.

Definition KCCA_transform (self : KCCA) (views : list (Matrix F))
  : result (list (Matrix F)) :=
  ws <- check_is_fitted self ;;
  views <- _check_views views ;;
  views <- _centre_scale_transform self views ;;
  Ktest <- map_result
             (fun iv => tv <- index (train_views self) (fst iv) ;;
                        Ok (_get_kernel self (fst iv) tv (snd iv)))
             (combine (seq 0 (length views)) views) ;;
  map_result
    (fun ik => w <- index ws (fst ik) ;;
               Ok (matmul (transpose (snd ik)) w))
    (combine (seq 0 (length Ktest)) Ktest).

End Estimators.

End Transform.

(* ================================================================== *)
(** ** Predicates used in Part II *)

Section Settings.
Context {F : Type} `{NF : Num F} `{FF : Frac F}.
Import LinearAltMaxVar.

(** The fields a sub-step never touches. *)
Definition same_settings (a b : AltMaxVarLoop (F := F)) : Prop :=
  G b = G a /\ gamma b = gamma a /\ T b = T a /\
  learning_rate b = learning_rate a /\
  proximal_operators b = proximal_operators a /\
  tracking b = tracking a /\
  convergence_checking b = convergence_checking a /\
  length (weights b) = length (weights a) /\
  length (arrays a) <= length (arrays b).

End Settings.

(* ================================================================== *)
(** ** The delta search of SCCA_PMD *)

Section DeltaSearch.
Local Open Scope R_scope.

(** [np.linalg.norm(w, 1)] of a weight array: the sum of the absolute
    values of its entries. *)
Definition l1_norm (w : Matrix R) : R :=
  fold_right Rplus 0 (map Rabs (concat w)).

(** Modelled from the spec: [cca_zoo.linear._search._delta_search] is
    imported by _scca_pmd.py and is not among the sources.  The spec has
    the search "binary-search a soft-threshold/sparsity level such that
    the projected, L1/L2-normalized candidate has L1 norm <=" the bound
    it is given; this is what a search that has converged returns, for a
    bound that is not negative. *)
Definition delta_search_contract
  (_delta_search : Matrix R -> R -> R -> Matrix R) : Prop :=
  forall (w : Matrix R) (c tol : R),
    0 <= c -> l1_norm (_delta_search w c tol) <= c.

End DeltaSearch.

(* ================================================================== *)
(** ** [SCCA_PMD._check_params] *)

Module PMDParams.

(** A float given for [tau]: a number, or NaN, with which every
    comparison is [False].  (An infinite [tau] compares like a number
    outside [0, 1].) *)
Inductive tau_value : Type :=
| Number (x : R)
| NotANumber.

Section CheckParams.
Local Open Scope R_scope.

(** A constructor argument as the user gave it, and
    [cca_zoo.utils._process_parameter(name, value, default, n_views)],
    which turns it into one value per view.  The function is imported by
    the module and is not among the sources. *)
Variable param : Type -> Type.
Variable _process_parameter :
  forall A : Type, string -> param A -> A -> nat -> result (list A).

(** [str] of the list of [tau], for the error message. *)
Variable str : list tau_value -> string.

Record SCCA_PMD : Type := {
  tau : param tau_value;
  positive : param bool;
  n_views_ : nat
}.

(** [tau < 0] and [tau > 1] *)
Definition below_zero (tau : tau_value) : bool :=
  match tau with
  | Number x => Rltb x 0
  | NotANumber => false
  end.
Definition above_one (tau : tau_value) : bool :=
  match tau with
  | Number x => Rltb 1 x
  | NotANumber => false
  end.

(** [any(tau < 0 or tau > 1 for tau in self.tau)] *)
Definition any_out_of_range (taus : list tau_value) : bool :=
  existsb (fun tau => below_zero tau || above_one tau) taus.

Definition message (taus : list tau_value) : string :=
  ("All regularisation parameters should be between 0 and 1 "
   ++ "1. tau=[" ++ str taus ++ "]")%string.

(** [_check_params]: the processed [tau] and [positive]. *)
Definition _check_params (self : SCCA_PMD)
  : result (list tau_value * list bool) :=
  taus <- _process_parameter "tau" (tau self) (Number 1) (n_views_ self) ;;
  if any_out_of_range taus then Raise (ValueError (message taus))
  else
    positives <- _process_parameter "positive" (positive self) false
                   (n_views_ self) ;;
    Ok (taus, positives).

End CheckParams.

End PMDParams.

(* ================================================================== *)
(** ** [MCCA._setup_evp] and [MCCA._solve_evp]: the per-view blocks *)

Module MCCA.

Section Evp.
Context {F : Type} `{NF : Num F}.

(** [np.cumsum] *)
Fixpoint cumsum_from (acc : nat) (l : list nat) : list nat :=
  match l with
  | [] => []
  | x :: t => (acc + x) :: cumsum_from (acc + x) t
  end.
Definition cumsum (l : list nat) : list nat := cumsum_from 0 l.

(** [self.splits = np.cumsum([0] + [view.shape[1] for view in views])] *)
Definition splits (views : list (Matrix F)) : list nat :=
  cumsum (0 :: map ncols views).

(** [a[lo:hi]] along the first axis, for non-negative bounds. *)
Definition slice {A} (l : list A) (lo hi : nat) : list A :=
  firstn (hi - lo) (skipn lo l).

(** scipy's [eigh(C, D, subset_by_index=[lo, hi])] and [np.argsort]. *)
Variable eigh : Matrix F -> Matrix F -> Z -> Z -> Vector F * Matrix F.
Variable argsort : Vector F -> list nat.

(** [A[:, idx]] *)
Definition take_columns (A : Matrix F) (idx : list nat) : Matrix F :=
  map (fun row => map (fun j => nth j row zero) idx) A.

(** The eigenvectors [_solve_evp] keeps, sorted by decreasing
    eigenvalue. *)
Definition sorted_eigvecs (latent_dims : nat) (C D : Matrix F) : Matrix F :=
  let n := Z.of_nat (nrows D) in
  let '(eigvals, eigvecs) :=
    eigh C D (n - Z.of_nat latent_dims)%Z (n - 1)%Z in
  let idx := firstn latent_dims (rev (argsort eigvals)) in
  take_columns eigvecs idx.

(** [_solve_evp]: the new [self.weights]. *)
Definition _solve_evp (splits : list nat) (latent_dims : nat)
  (C D : Matrix F) : result (list (Matrix F)) :=
  let eigvecs := sorted_eigvecs latent_dims C D in
  map_result
    (fun ks => hi <- index splits (fst ks + 1) ;;
               Ok (slice eigvecs (snd ks) hi))
    (combine (seq 0 (length (removelast splits))) (removelast splits)).

End Evp.

End MCCA.

(** Consecutive blocks of the given sizes. *)
Fixpoint chunks {A} (ns : list nat) (l : list A) : list (list A) :=
  match ns with
  | [] => []
  | n :: t => firstn n l :: chunks t (skipn n l)
  end.

(* ================================================================== *)
(** ** [_AltMaxVarLoop._initialize] (models/_iterative/_altmaxvar.py) *)

Module ModelsInitialize.

Section Initialize.
Context {F : Type} `{NF : Num F}.

(** [a[0]] on an array: the first item along the first axis. *)
Definition first_item (a : ndarray F) : result (ndarray F) :=
  match a with
  | Scalar _ => Raise IndexError
  | Array items => index items 0
  end.

(** [_initialize]: the new [self.weights], from [self.scores] and the
    views.  [self.scores[0].shape[1]] is evaluated once per view; it does
    not depend on the view. *)
Definition _initialize (scores : ndarray F) (views : list (Matrix F))
  : result (list (Matrix F)) :=
  map_result
    (fun view =>
       s0 <- first_item scores ;;
       k <- index (shape s0) 1 ;;
       Ok (zeros (ncols view) k))
    views.

End Initialize.

End ModelsInitialize.

(* ================================================================== *)
(** ** [ElasticCCA.__init__], [_set_loop_params] and
       [_ElasticInnerLoop._initialize] *)

Module ElasticConfig.

Section Config.
Local Open Scope R_scope.

(** A constructor argument: [None], one value for every view, or one
    value per view ([_check_params] replaces the first two by the
    third). *)
Inductive arg (A : Type) : Type :=
| ArgNone
| ArgOne (a : A)
| ArgList (l : list A).
Arguments ArgNone {A}.
Arguments ArgOne {A} a.
Arguments ArgList {A} l.

Variable rng : Type.

Record ElasticCCA : Type := {
  c : arg R;
  l1_ratio : arg R;
  maxvar : bool;
  stochastic : bool;
  positive : arg bool;
  max_iter : nat;
  tol : R;
  random_state : rng
}.

Definition is_none {A} (a : arg A) : bool :=
  match a with ArgNone => true | _ => false end.

(** [ElasticCCA.__init__], as far as the attributes above go. *)
Definition __init__ (max_iter : nat) (tol : R) (c l1_ratio : arg R)
  (maxvar stochastic : bool) (positive : arg bool) (random_state : rng)
  : ElasticCCA :=
  {| c := c; l1_ratio := l1_ratio; maxvar := maxvar;
     stochastic := if negb (is_none positive) && stochastic
                   then false else stochastic;
     positive := positive; max_iter := max_iter; tol := tol;
     random_state := random_state |}.

Record _ElasticInnerLoop : Type := {
  loop_max_iter : nat;
  loop_tol : R;
  loop_c : arg R;
  loop_l1_ratio : arg R;
  loop_maxvar : bool;
  loop_stochastic : bool;
  loop_positive : arg bool;
  loop_random_state : rng
}.

Definition _set_loop_params (self : ElasticCCA) : _ElasticInnerLoop :=
  {| loop_max_iter := max_iter self; loop_tol := tol self;
     loop_c := c self; loop_l1_ratio := l1_ratio self;
     loop_maxvar := maxvar self; loop_stochastic := stochastic self;
     loop_positive := positive self;
     loop_random_state := random_state self |}.

(** The sklearn regressors, by their constructor arguments
    ([fit_intercept=False] throughout, [penalty="elasticnet"] and
    [warm_start=True] where the source gives them). *)
Inductive regressor : Type :=
| SGDRegressor (alpha l1_ratio tol : R) (random_state : rng)
| Ridge (alpha : R) (positive : bool)
| ElasticNet (alpha l1_ratio : R) (positive : bool) (random_state : rng).

(** Iterating over an argument: [None] and a scalar are not iterable. *)
Definition iter {A} (a : arg A) : result (list A) :=
  match a with
  | ArgList l => Ok l
  | _ => Raise TypeError
  end.

Fixpoint zip3 {A B C} (l1 : list A) (l2 : list B) (l3 : list C)
  : list (A * B * C) :=
  match l1, l2, l3 with
  | a :: t1, b :: t2, c :: t3 => (a, b, c) :: zip3 t1 t2 t3
  | _, _, _ => []
  end.

Definition make_regressor (self : _ElasticInnerLoop) (abp : R * R * bool)
  : regressor :=
  let '(alpha, l1_ratio, positive) := abp in
  if loop_stochastic self then
    SGDRegressor alpha l1_ratio (loop_tol self) (loop_random_state self)
  else if Reqb alpha 0 then
    Ridge (loop_tol self) positive
  else
    ElasticNet alpha l1_ratio positive (loop_random_state self).

(** [_initialize]: the new [self.regressors]. *)
Definition _initialize (self : _ElasticInnerLoop) : result (list regressor) :=
  cs <- iter (loop_c self) ;;
  ls <- iter (loop_l1_ratio self) ;;
  ps <- iter (loop_positive self) ;;
  Ok (map (make_regressor self) (zip3 cs ls ps)).

(** [_check_params] overwrites [c], [l1_ratio] and [positive]. *)
Definition with_params (self : ElasticCCA) (c l1_ratio : arg R)
  (positive : arg bool) : ElasticCCA :=
  {| c := c; l1_ratio := l1_ratio; maxvar := maxvar self;
     stochastic := stochastic self; positive := positive;
     max_iter := max_iter self; tol := tol self;
     random_state := random_state self |}.

Definition is_sgd (r : regressor) : bool :=
  match r with SGDRegressor _ _ _ _ => true | _ => false end.

End Config.

Arguments ArgNone {A}.
Arguments ArgOne {A} a.
Arguments ArgList {A} l.

End ElasticConfig.

(* ================================================================== *)
(** ** [_CCA_Base.gridsearch_fit] (cca_zoo/models/cca_base.py) *)

Module GridSearch.

(** The outcome of a function that starts with an [assert]. *)
Inductive asserted (A : Type) : Type :=
| AssertionError
| Passed (a : A).
Arguments AssertionError {A}.
Arguments Passed {A} a.

Section Grid.

(** A candidate value of a hyperparameter, and whatever the calls
    change: the estimator and NumPy's global generator. *)
Variable value : Type.
Variable world : Type.

(** A dict of keyword arguments. *)
Definition params : Type := list (string * value).

(** [cv.score] on the views with the keyword arguments [param_set]: the
    mean score over the folds (a NaN already replaced by 0) and the
    standard deviation. *)
Variable cv_score : world -> params -> result (Q * Q * world).

(** [self.set_params] with the keyword arguments [param_set], followed
    by [self.fit] on the views. *)
Variable refit : world -> params -> result world.

(** [itertools.product] of the lists in [param_values]: the last list
    varies fastest. *)
Fixpoint product (ls : list (list value)) : list (list value) :=
  match ls with
  | [] => [[]]
  | l :: rest => flat_map (fun x => map (cons x) (product rest)) l
  end.

Definition param_sets (param_candidates : list (string * list value))
  : list params :=
  let param_names := map fst param_candidates in
  let param_values := map snd param_candidates in
  map (fun param_set => combine param_names param_set)
      (product param_values).

(** The list comprehension that scores every [param_set] of
    [param_sets] in turn. *)
Fixpoint score_all (w : world) (sets : list params)
  : result (list (Q * Q) * world) :=
  match sets with
  | [] => Ok ([], w)
  | param_set :: rest =>
      r <- cv_score w param_set ;;
      let '(metric, std, w1) := r in
      rs <- score_all w1 rest ;;
      Ok ((metric, std) :: fst rs, snd rs)
  end.

(** [max(l)]: an item replaces the running maximum when it is greater,
    so of equal maxima the first is kept. *)
Fixpoint max_from (m : Q) (l : list Q) : Q :=
  match l with
  | [] => m
  | x :: t => max_from (if Qle_bool x m then m else x) t
  end.

Definition py_max (l : list Q) : result Q :=
  match l with
  | [] => Raise (ValueError "max() arg is an empty sequence")
  | x :: t => Ok (max_from x t)
  end.

(** [l.index(m)]: the first position whose item equals [m]. *)
Fixpoint list_index (m : Q) (l : list Q) : result nat :=
  match l with
  | [] => Raise (ValueError "tuple.index(x): x not in tuple")
  | x :: t => if Qeq_bool x m then Ok 0
              else k <- list_index m t ;; Ok (S k)
  end.

Record fitted : Type := {
  cv_results_table : list (params * (Q * Q));
  best_params : params;
  model : world
}.

(** [gridsearch_fit] with the default [jobs=0], [verbose=False] and
    [plot=False]. *)
Definition gridsearch_fit (w : world)
  (param_candidates : list (string * list value))
  : asserted (result fitted) :=
  if length param_candidates =? 0 then AssertionError
  else Passed (
    let sets := param_sets param_candidates in
    out <- score_all w sets ;;
    let '(rs, w1) := out in
    match rs with
    | [] => Raise (ValueError "not enough values to unpack (expected 2, got 0)")
    | _ :: _ =>
        let cv_scores := map fst rs in
        m <- py_max cv_scores ;;
        max_index <- list_index m cv_scores ;;
        best <- index sets max_index ;;
        w2 <- refit w1 best ;;
        Ok {| cv_results_table := combine sets rs;
              best_params := best;
              model := w2 |}
    end).

End Grid.

End GridSearch.

(* ================================================================== *)
(** ** Concrete inputs *)

Module Examples.

(** A [2 x 1] aggregate [[3], [4]] and its thin SVD
    [[3/5], [4/5]] . [5] . [[1]]. *)
Definition U34 : Matrix R := [[3 / 5]; [4 / 5]]%R.
Definition S34 : Vector R := [5]%R.
Definition Vt34 : Matrix R := [[1]]%R.
Definition svd34 : svd_routine R := fun _ => Ok (U34, S34, Vt34).

Definition models_loop34 : ModelsAltMaxVar._AltMaxVarLoop (F := R) :=
  {| ModelsAltMaxVar.scores := [[[3]; [4]]; [[0]; [0]]]%R;
     ModelsAltMaxVar.weights := [[[0]]; [[0]]]%R;
     ModelsAltMaxVar.G := None;
     ModelsAltMaxVar.view_regs := [];
     ModelsAltMaxVar.tol := (1 / 1000000000)%R;
     ModelsAltMaxVar.track_objective := [] |}.

Definition linear_loop34 : LinearAltMaxVar.AltMaxVarLoop (F := R) :=
  {| LinearAltMaxVar.arrays := [[[0]]]%R;
     LinearAltMaxVar.weights := [0];
     LinearAltMaxVar.G := None;
     LinearAltMaxVar.gamma := (1 / 10)%R;
     LinearAltMaxVar.T := 100;
     LinearAltMaxVar.learning_rate := (1 / 10)%R;
     LinearAltMaxVar.proximal_operators := [];
     LinearAltMaxVar.tracking := false;
     LinearAltMaxVar.convergence_checking := false |}.

Definition linear_scores34 : list (Matrix R) := [[[3]; [4]]]%R.

(** Two views with one sample and one feature each, weights at zero,
    the default [tau = 0] (so [L1(sigma=0)]), and an SVD routine that
    returns the factors [[1]] . [0] . [[1]] of the zero aggregate. *)
Definition svd_zero : svd_routine Q := fun _ => Ok ([[1]], [0], [[1]])%Q.

Definition two_views : list (Matrix Q) := [[[1]]; [[1]]]%Q.

Definition loop_two_views (lr : Q) : LinearAltMaxVar.AltMaxVarLoop (F := Q) :=
  {| LinearAltMaxVar.arrays := [[[0]]; [[0]]]%Q;
     LinearAltMaxVar.weights := [0; 1];
     LinearAltMaxVar.G := None;
     LinearAltMaxVar.gamma := (1 # 10)%Q;
     LinearAltMaxVar.T := 100;
     LinearAltMaxVar.learning_rate := lr;
     LinearAltMaxVar.proximal_operators :=
       [Some (LinearAltMaxVar.L1 0); Some (LinearAltMaxVar.L1 0)];
     LinearAltMaxVar.tracking := false;
     LinearAltMaxVar.convergence_checking := false |}.

(** An SCCA_PMD estimator on two views of four features each, with
    [tau = 0] for both, before its first [_update_weights]. *)
Definition pmd_tau0 : PMD.SCCA_PMD :=
  {| PMD.tau := [0; 0]%R;
     PMD.positive := [false; false];
     PMD.weights := [[[0]; [0]; [0]; [0]]; [[0]; [0]; [0]; [0]]]%R;
     PMD.tol := (1 / 1000)%R;
     PMD.t := None |}.

(** A stand-in for the inherited [transform]: [view @ weights]. *)
Definition pmd_transform (self : PMD.SCCA_PMD) (views : list (Matrix R))
  : list (Matrix R) :=
  zip_with matmul views (PMD.weights self).

(** Three views for the elastic loop in SUMCOR mode; the regressor
    carries no state and its fit returns the coefficients [[1; 1]]. *)
Definition fit11 (r : unit) (X : Matrix R) (y : Vector R) : unit * Vector R :=
  (tt, [1; 1]%R).

Definition centred_view : Matrix R := [[1; -1]; [-1; 1]]%R.
Definition full_view : Matrix R := [[1; 0]; [0; 1]]%R.

Definition sumcor_loop : Elastic._ElasticInnerLoop unit :=
  {| Elastic.maxvar := false;
     Elastic.n := 2;
     Elastic.scores := [[1; -1]; [2; -2]; [3; -3]]%R;
     Elastic.weights := [[0; 0]; [0; 0]; [0; 0]]%R;
     Elastic.regressors := [tt; tt; tt];
     Elastic.tol := (1 / 1000)%R;
     Elastic.track_objective := [1; 9995 / 10000]%R |}.

(** The inner loop of models/_iterative/_altmaxvar.py on two views with
    finite scores, where the regulariser of view 0 returns a NaN weight
    and that of view 1 returns the weights it was given.  The SVD
    routine returns the factors of [[3], [4]] and, as NumPy's, raises
    [LinAlgError] on a matrix that holds NaN. *)
Definition svd34_np : svd_routine npfloat :=
  fun M => if count_nan [M] =? 0
           then Ok ([[Val (3 # 5)]; [Val (4 # 5)]], [Val 5], [[Val 1]])
           else Raise LinAlgError.

Definition nan_reg : ModelsAltMaxVar.regulariser (F := npfloat) :=
  fun view g w => Ok [[NaN]].
Definition keep_reg : ModelsAltMaxVar.regulariser (F := npfloat) :=
  fun view g w => Ok w.

Definition np_views : list (Matrix npfloat) :=
  [[[Val 1]; [Val 2]]; [[Val 2]; [Val 1]]].

Definition np_loop (scores0 : Matrix npfloat)
  : ModelsAltMaxVar._AltMaxVarLoop (F := npfloat) :=
  {| ModelsAltMaxVar.scores := [scores0; [[Val 0]; [Val 0]]];
     ModelsAltMaxVar.weights := [[[Val 0]]; [[Val 0]]];
     ModelsAltMaxVar.G := Some [[Val 1]; [Val 0]];
     ModelsAltMaxVar.view_regs := [nan_reg; keep_reg];
     ModelsAltMaxVar.tol := (1 / 1000)%R;
     ModelsAltMaxVar.track_objective := [1; 9995 / 10000]%R |}.

Definition finite_loop := np_loop [[Val 3]; [Val 4]].
Definition nan_loop := np_loop [[NaN]; [Val 4]].

(** The elastic loop in MAXVAR mode on two views; the fit returns
    all-zero coefficients. *)
Definition fit00 (r : unit) (X : Matrix R) (y : Vector R) : unit * Vector R :=
  (tt, [0; 0]%R).

Definition maxvar_loop : Elastic._ElasticInnerLoop unit :=
  {| Elastic.maxvar := true;
     Elastic.n := 2;
     Elastic.scores := [[1; -1]; [1; -1]]%R;
     Elastic.weights := [[1; 0]; [1; 0]]%R;
     Elastic.regressors := [tt; tt];
     Elastic.tol := (1 / 1000)%R;
     Elastic.track_objective := [1; 9995 / 10000]%R |}.

Definition maxvar_target : Vector R :=
  map (fun x => x / (Elastic.norm (Elastic.vmean (Elastic.scores maxvar_loop))
                     / sqrt (INR 2)))%R
      (Elastic.vmean (Elastic.scores maxvar_loop)).

(** pyproximal's constructors, as far as the examples need them: every
    registered kind builds [L1(sigma)]. *)
Definition construct_L1 (name : string) (params : LinearAltMaxVar.kwargs (F := Q))
  : result (LinearAltMaxVar.ProxOp (F := Q)) :=
  match LinearAltMaxVar.lookup "sigma" params with
  | Some (LinearAltMaxVar.KFloat s) => Ok (LinearAltMaxVar.L1 s)
  | _ => Raise TypeError
  end.

(** An estimator configured with [proximal=["TV", "L1"]]. *)
Definition estimator_TV : LinearAltMaxVar.AltMaxVar (F := Q) :=
  {| LinearAltMaxVar.proximal :=
       [LinearAltMaxVar.PName "TV"; LinearAltMaxVar.PName "L1"];
     LinearAltMaxVar.positive := [false; false];
     LinearAltMaxVar.sigma := [0; 0]%Q;
     LinearAltMaxVar.proximal_params := None;
     LinearAltMaxVar.n_views_ := 2 |}.

Definition loop_TV : LinearAltMaxVar.AltMaxVarLoop (F := Q) :=
  {| LinearAltMaxVar.arrays := [[[0]]; [[0]]]%Q;
     LinearAltMaxVar.weights := [0; 1];
     LinearAltMaxVar.G := None;
     LinearAltMaxVar.gamma := (1 # 10)%Q;
     LinearAltMaxVar.T := 100;
     LinearAltMaxVar.learning_rate := 1%Q;
     LinearAltMaxVar.proximal_operators :=
       [None; Some (LinearAltMaxVar.L1 0)];
     LinearAltMaxVar.tracking := false;
     LinearAltMaxVar.convergence_checking := false |}.

(** A deterministic stand-in for the random generator: the state is a
    counter and a draw of size [n] returns the next [n] integers. *)
Definition counter_normal (rs : nat) (n : nat) : Vector Q * nat :=
  (map (fun i => inject_Z (Z.of_nat (rs + i))) (seq 0 n), rs + n).

(** A stand-in for the closed-form solver: the views themselves. *)
Definition rcca_views (latent_dims : nat) (c : option Q) (views : list (Matrix Q))
  : list (Matrix Q) := views.

(** Two views of three samples and two features. *)
Definition views32 : list (Matrix Q) :=
  [[[1; 2]; [3; 4]; [5; 6]]; [[6; 5]; [4; 3]; [2; 1]]]%Q.

End Examples.

(* ================================================================== *)
(** ** Further concrete inputs *)

Module Examples2.

(** Three views with one sample and one feature, weights at zero, and an
    operator whose [prox] returns its argument. *)
Definition no_penalty : LinearAltMaxVar.ProxOp (F := Q) :=
  {| LinearAltMaxVar.cost := fun _ => 0%Q;
     LinearAltMaxVar.prox := fun w _ => w |}.

Definition three_views : list (Matrix Q) := [[[1]]; [[1]]; [[1]]]%Q.

Definition loop_three_views (lr : Q) : LinearAltMaxVar.AltMaxVarLoop (F := Q) :=
  {| LinearAltMaxVar.arrays := [[[0]]; [[0]]; [[0]]]%Q;
     LinearAltMaxVar.weights := [0; 1; 2];
     LinearAltMaxVar.G := Some [[1]]%Q;
     LinearAltMaxVar.gamma := (1 # 10)%Q;
     LinearAltMaxVar.T := 100;
     LinearAltMaxVar.learning_rate := lr;
     LinearAltMaxVar.proximal_operators :=
       [Some no_penalty; Some no_penalty; Some no_penalty];
     LinearAltMaxVar.tracking := false;
     LinearAltMaxVar.convergence_checking := false |}.

(** A loop of models/_iterative/_altmaxvar.py whose objective went up
    from 1 to 2, with [tol = 1e-3]. *)
Definition rising_loop : ModelsAltMaxVar._AltMaxVarLoop (F := Q) :=
  {| ModelsAltMaxVar.scores := [];
     ModelsAltMaxVar.weights := [];
     ModelsAltMaxVar.G := None;
     ModelsAltMaxVar.view_regs := [];
     ModelsAltMaxVar.tol := (1 / 1000)%R;
     ModelsAltMaxVar.track_objective := [1; 2]%R |}.

(** An elastic loop with [tol = 0] whose objective did not move, and one
    after a single iteration. *)
Definition still_loop : Elastic._ElasticInnerLoop unit :=
  {| Elastic.maxvar := false;
     Elastic.n := 2;
     Elastic.scores := [];
     Elastic.weights := [];
     Elastic.regressors := [];
     Elastic.tol := 0%R;
     Elastic.track_objective := [1; 1]%R |}.

Definition first_iteration_loop : Elastic._ElasticInnerLoop unit :=
  {| Elastic.maxvar := false;
     Elastic.n := 2;
     Elastic.scores := [];
     Elastic.weights := [];
     Elastic.regressors := [];
     Elastic.tol := (1 / 1000)%R;
     Elastic.track_objective := [1]%R |}.

(** An elastic loop in MAXVAR mode whose two score vectors cancel. *)
Definition cancelling_loop : Elastic._ElasticInnerLoop unit :=
  {| Elastic.maxvar := true;
     Elastic.n := 2;
     Elastic.scores := [[1; -1]; [-1; 1]]%R;
     Elastic.weights := [[1; 0]; [1; 0]]%R;
     Elastic.regressors := [tt; tt];
     Elastic.tol := (1 / 1000)%R;
     Elastic.track_objective := [] |}.

(** A stand-in for [_process_parameter]: [None] becomes the default and
    a single value is repeated for every view. *)
Definition process_scalar (A : Type) (name : string) (value : option A)
  (default : A) (n_views : nat) : result (list A) :=
  Ok (repeat (match value with Some v => v | None => default end) n_views).

Definition str_unused (taus : list PMDParams.tau_value) : string := "".

(** [SCCA_PMD(tau=0.5)] and [SCCA_PMD(tau=float("nan"))] on two views. *)
Definition pmd_half : PMDParams.SCCA_PMD option :=
  {| PMDParams.tau := Some (PMDParams.Number (1 / 2)%R);
     PMDParams.positive := None;
     PMDParams.n_views_ := 2 |}.

Definition pmd_nan : PMDParams.SCCA_PMD option :=
  {| PMDParams.tau := Some PMDParams.NotANumber;
     PMDParams.positive := None;
     PMDParams.n_views_ := 2 |}.

(** The estimator once [_check_params] has run and the weights of two
    views with four features each have been initialised. *)
Definition pmd_half_fitted : PMD.SCCA_PMD :=
  {| PMD.tau := [1 / 2; 1 / 2]%R;
     PMD.positive := [false; false];
     PMD.weights := [[[0]; [0]; [0]; [0]]; [[0]; [0]; [0]; [0]]]%R;
     PMD.tol := (1 / 1000)%R;
     PMD.t := None |}.

(** An estimator with [positive=True] and weights [[-1], [1]] for the
    second of two views of two features. *)
Definition pmd_positive : PMD.SCCA_PMD :=
  {| PMD.tau := [1; 1]%R;
     PMD.positive := [true; true];
     PMD.weights := [[[1]; [1]]; [[-1]; [1]]]%R;
     PMD.tol := (1 / 1000)%R;
     PMD.t := None |}.

(** Stand-ins for [eigh] and [argsort] on a problem of size three with
    one latent dimension. *)
Definition eigh3 (C D : Matrix Q) (lo hi : Z) : Vector Q * Matrix Q :=
  ([1]%Q, [[1]; [2]; [3]]%Q).
Definition argsort1 (eigvals : Vector Q) : list nat := [0].

(** A view with two features and a view with one. *)
Definition views21 : list (Matrix Q) := [[[1; 2]; [3; 4]]; [[5]; [6]]]%Q.

(** [ElasticCCA(c=..., l1_ratio=..., stochastic=True, positive=False)]
    on two views, once [_check_params] has made lists of the arguments. *)
Definition elastic_estimator : ElasticConfig.ElasticCCA unit :=
  ElasticConfig.with_params
    (ElasticConfig.__init__ 100 (1 / 1000000000)%R
       (ElasticConfig.ArgList [0; 1 / 10]%R) (ElasticConfig.ArgOne (1 / 2)%R)
       true true (ElasticConfig.ArgOne false) tt)
    (ElasticConfig.ArgList [0; 1 / 10]%R)
    (ElasticConfig.ArgList [1 / 2; 1 / 2]%R)
    (ElasticConfig.ArgList [false; false]).

(** A grid over two hyperparameters with integer candidates; the
    cross-validation score of a parameter set is the sum of its values
    capped at 5, and nothing has state. *)
Definition capped_score (w : unit) (param_set : GridSearch.params Z)
  : result (Q * Q * unit) :=
  let total := fold_right Z.add 0%Z (map snd param_set) in
  Ok (inject_Z (Z.min total 5), 0%Q, tt).

Definition refit_unit (w : unit) (param_set : GridSearch.params Z)
  : result unit := Ok tt.

Definition grid : list (string * list Z) :=
  [("c"%string, [1; 2]%Z); ("l1_ratio"%string, [3; 4]%Z)].

(** A fit that returns the coefficients [[2; 2]], and an elastic loop in
    MAXVAR mode whose mean score [[2; -2]] has norm [2 * sqrt 2]. *)
Definition fit22 (r : unit) (X : Matrix R) (y : Vector R) : unit * Vector R :=
  (tt, [2; 2]%R).

Definition maxvar_loop2 : Elastic._ElasticInnerLoop unit :=
  {| Elastic.maxvar := true;
     Elastic.n := 2;
     Elastic.scores := [[2; -2]; [2; -2]]%R;
     Elastic.weights := [[1; 0]; [1; 0]]%R;
     Elastic.regressors := [tt; tt];
     Elastic.tol := (1 / 1000)%R;
     Elastic.track_objective := [] |}.

(** The inner loop of models/_iterative/_altmaxvar.py on two views whose
    regularisers return a NaN weight for view 0 and the weight [[1]] for
    view 1. *)
Definition one_reg : ModelsAltMaxVar.regulariser (F := npfloat) :=
  fun view g w => Ok [[Val 1]].

Definition nan_then_one_loop : ModelsAltMaxVar._AltMaxVarLoop (F := npfloat) :=
  {| ModelsAltMaxVar.scores := [[[Val 3]; [Val 4]]; [[Val 0]; [Val 0]]];
     ModelsAltMaxVar.weights := [[[Val 0]]; [[Val 0]]];
     ModelsAltMaxVar.G := None;
     ModelsAltMaxVar.view_regs := [Examples.nan_reg; one_reg];
     ModelsAltMaxVar.tol := (1 / 1000)%R;
     ModelsAltMaxVar.track_objective := [] |}.

(** A stand-in for the delta search on four features: the sparsest unit
    vector when the bound allows a unit vector, the zero vector
    otherwise. *)
Definition floor_search (w : Matrix R) (c tol : R) : Matrix R :=
  if Rle_dec 1 c then [[1]; [0]; [0]; [0]]%R else [[0]; [0]; [0]; [0]]%R.

(** [Examples.pmd_tau0] at a later update: [tau] has been set to 1 in the
    meantime, and [t] is the list its first update computed. *)
Definition pmd_later : PMD.SCCA_PMD :=
  {| PMD.tau := [1; 1]%R;
     PMD.positive := [false; false];
     PMD.weights := [[[1]; [0]; [0]; [0]]; [[1]; [0]; [0]; [0]]]%R;
     PMD.tol := (1 / 1000)%R;
     PMD.t := PMD.t (PMD.ensure_t Examples.pmd_tau0) |}.

(** Stand-ins that keep a log: the world is the list of the parameter
    sets scored or fitted so far; the score of a parameter set is the
    sum of its values capped at 5. *)
Definition logged_score (w : list (GridSearch.params Z))
  (param_set : GridSearch.params Z)
  : result (Q * Q * list (GridSearch.params Z)) :=
  let total := fold_right Z.add 0%Z (map snd param_set) in
  Ok (inject_Z (Z.min total 5), 0%Q, w ++ [param_set]).

Definition logged_refit (w : list (GridSearch.params Z))
  (param_set : GridSearch.params Z) : result (list (GridSearch.params Z)) :=
  Ok (w ++ [param_set]).

End Examples2.

(* ================================================================== *)
(** * Part II: lemmas and theorems *)

(** ** Lists and indexing *)

Lemma index_nth {A} (l : list A) (i : nat) (d : A) :
  i < length l -> index l i = Ok (nth i l d).
Proof.
  intros Hi. unfold index.
  now rewrite (nth_error_nth' l d Hi).
Qed.

Lemma index_out_of_range {A} (l : list A) (i : nat) :
  length l <= i -> index l i = Raise IndexError.
Proof.
  intros Hi. unfold index.
  apply nth_error_None in Hi. now rewrite Hi.
Qed.

Lemma length_set_nth {A} (l : list A) i v : length (set_nth l i v) = length l.
Proof.
  revert i; induction l as [|h t IH]; intros [|i]; simpl; auto.
Qed.

Lemma nth_set_nth_same {A} (l : list A) i v d :
  i < length l -> nth i (set_nth l i v) d = v.
Proof.
  revert i; induction l as [|h t IH]; intros [|i]; simpl; intros Hi;
    try lia; auto. apply IH; lia.
Qed.

Lemma nth_set_nth_other {A} (l : list A) i j v d :
  i <> j -> nth j (set_nth l i v) d = nth j l d.
Proof.
  revert i j; induction l as [|h t IH]; intros [|i] [|j]; simpl; intros Hij;
    try congruence; auto.
Qed.

(** A negative Python index wraps around once. *)
Lemma py_index_pred {A} (l : list A) (i : nat) (d : A) :
  i < length l ->
  py_index l (Z.of_nat i - 1) = Ok (nth ((i + length l - 1) mod length l) l d).
Proof.
  intros Hi. unfold py_index.
  destruct i as [|i].
  - simpl Z.of_nat. change (0 - 1)%Z with (-1)%Z. cbn [Z.ltb Z.compare].
    replace (- -1 <=? Z.of_nat (length l))%Z with true
      by (symmetry; apply Z.leb_le; lia).
    replace (Z.to_nat (Z.of_nat (length l) + -1)) with (length l - 1) by lia.
    replace ((0 + length l - 1) mod length l) with (length l - 1)
      by (rewrite Nat.mod_small; lia).
    apply index_nth. lia.
  - replace (Z.of_nat (S i) - 1 <? 0)%Z with false
      by (symmetry; apply Z.ltb_ge; lia).
    replace (Z.to_nat (Z.of_nat (S i) - 1)) with i by lia.
    replace ((S i + length l - 1) mod length l) with i.
    + apply index_nth. lia.
    + replace (S i + length l - 1) with (i + 1 * length l) by lia.
      rewrite Nat.Div0.mod_add. rewrite Nat.mod_small; lia.
Qed.

(** ** Tabulated matrices *)

Section LinalgFacts.
Context {F : Type} `{NF : Num F}.

Lemma length_tabulate m n (f : nat -> nat -> F) : length (tabulate m n f) = m.
Proof. unfold tabulate. now rewrite length_map, length_seq. Qed.

Lemma get_tabulate m n (f : nat -> nat -> F) i j :
  i < m -> j < n -> get (tabulate m n f) i j = f i j.
Proof.
  intros Hi Hj. unfold get, tabulate.
  rewrite (nth_indep _ [] (map (f 0) (seq 0 n)))
    by (now rewrite length_map, length_seq).
  rewrite (map_nth (fun i => map (f i) (seq 0 n)) (seq 0 m) 0 i).
  rewrite seq_nth by assumption. simpl.
  rewrite (nth_indep _ zero (f i 0)) by (now rewrite length_map, length_seq).
  rewrite (map_nth (f i) (seq 0 n) 0 j).
  now rewrite seq_nth.
Qed.

Lemma tabulate_ext m n (f g : nat -> nat -> F) :
  (forall i j, i < m -> j < n -> f i j = g i j) ->
  tabulate m n f = tabulate m n g.
Proof.
  intros Hfg. unfold tabulate.
  apply map_ext_in. intros i Hi. apply in_seq in Hi.
  apply map_ext_in. intros j Hj. apply in_seq in Hj.
  apply Hfg; lia.
Qed.

Lemma sumn_ext n (f g : nat -> F) :
  (forall i, i < n -> f i = g i) -> sumn n f = sumn n g.
Proof.
  induction n as [|n IH]; intros Hfg; simpl; [reflexivity|].
  rewrite IH by (intros; apply Hfg; lia).
  now rewrite Hfg by lia.
Qed.

Lemma ncols_shape m n (A : Matrix F) : shape_is m n A -> 0 < m -> ncols A = n.
Proof.
  intros [Hlen Hrows] Hm. destruct A as [|r A]; simpl in *; [lia|].
  now inversion Hrows.
Qed.

Lemma shape_tabulate m n (f : nat -> nat -> F) : shape_is m n (tabulate m n f).
Proof.
  split; [apply length_tabulate|].
  unfold tabulate. apply Forall_forall. intros r Hr.
  apply in_map_iff in Hr. destruct Hr as [i [<- _]].
  now rewrite length_map, length_seq.
Qed.

Lemma get_transpose m n (A : Matrix F) i j :
  shape_is m n A -> 0 < m -> i < n -> j < m ->
  get (transpose A) i j = get A j i.
Proof.
  intros HA Hm Hi Hj. unfold transpose.
  rewrite (ncols_shape HA Hm). unfold nrows.
  destruct HA as [-> _]. now rewrite get_tabulate.
Qed.

Lemma get_matmul m k n (A B : Matrix F) i j :
  shape_is m k A -> shape_is k n B -> 0 < m -> 0 < k -> i < m -> j < n ->
  get (matmul A B) i j = sumn k (fun l => mul (get A i l) (get B l j)).
Proof.
  intros HA HB Hm Hk Hi Hj. unfold matmul.
  rewrite (ncols_shape HA Hm), (ncols_shape HB Hk). unfold nrows.
  destruct HA as [-> _]. now rewrite get_tabulate.
Qed.

Lemma shape_matmul m k n (A B : Matrix F) :
  shape_is m k A -> shape_is k n B -> 0 < k -> shape_is m n (matmul A B).
Proof.
  intros HA HB Hk. unfold matmul, nrows.
  rewrite (ncols_shape HB Hk). destruct HA as [-> _].
  apply shape_tabulate.
Qed.

Lemma shape_transpose m n (A : Matrix F) :
  shape_is m n A -> 0 < m -> shape_is n m (transpose A).
Proof.
  intros HA Hm. unfold transpose, nrows.
  rewrite (ncols_shape HA Hm). destruct HA as [-> _].
  apply shape_tabulate.
Qed.

End LinalgFacts.

(** ** Finite sums of reals and orthonormal columns *)

Section RealSums.
Local Open Scope R_scope.

Lemma Rsum_S n (f : nat -> R) : sumn (S n) f = sumn n f + f n.
Proof. reflexivity. Qed.

Lemma Rsum_zero n (f : nat -> R) :
  (forall i, (i < n)%nat -> f i = 0) -> sumn n f = 0.
Proof.
  induction n as [|n IH]; intros Hf; [reflexivity|].
  rewrite Rsum_S, IH, Hf by (intros; try apply Hf; lia). lra.
Qed.

Lemma Rsum_plus n (f g : nat -> R) :
  sumn n (fun i => f i + g i) = sumn n f + sumn n g.
Proof.
  induction n as [|n IH]; [cbn; lra|].
  rewrite !Rsum_S, IH. lra.
Qed.

Lemma Rsum_scal_l n c (f : nat -> R) :
  c * sumn n f = sumn n (fun i => c * f i).
Proof.
  induction n as [|n IH]; [cbn; lra|].
  rewrite !Rsum_S, <- IH. lra.
Qed.

Lemma Rsum_scal_r n c (f : nat -> R) :
  sumn n f * c = sumn n (fun i => f i * c).
Proof.
  induction n as [|n IH]; [cbn; lra|].
  rewrite !Rsum_S, <- IH. lra.
Qed.

Lemma Rsum_swap n m (f : nat -> nat -> R) :
  sumn n (fun i => sumn m (fun j => f i j)) =
  sumn m (fun j => sumn n (fun i => f i j)).
Proof.
  induction n as [|n IH].
  - cbn. symmetry. now apply Rsum_zero.
  - rewrite Rsum_S, IH, <- Rsum_plus.
    apply sumn_ext. intros j _. now rewrite Rsum_S.
Qed.

Lemma Rsum_kron k a (f : nat -> R) :
  (a < k)%nat -> sumn k (fun b => f b * kron a b) = f a.
Proof.
  induction k as [|k IH]; intros Ha; [lia|].
  rewrite Rsum_S. unfold kron at 2.
  destruct (Nat.eqb_spec a k) as [->|Hne].
  - rewrite Rsum_zero; [lra|].
    intros i Hi. unfold kron.
    destruct (Nat.eqb_spec k i); [lia|lra].
  - rewrite IH by lia. lra.
Qed.

Lemma gram_entries n k (A : Matrix R) a b :
  (0 < n)%nat -> (0 < k)%nat -> shape_is n k A ->
  orthonormal_columns k A -> (a < k)%nat -> (b < k)%nat ->
  sumn n (fun l => get A l a * get A l b) = kron a b.
Proof.
  intros Hn Hk HA Horth Ha Hb.
  apply (f_equal (fun M => get M a b)) in Horth.
  rewrite (get_matmul (shape_transpose HA Hn) HA Hk Hn Ha Hb) in Horth.
  unfold identity in Horth. rewrite get_tabulate in Horth by assumption.
  cbn [one zero Num_R] in Horth. fold (kron a b) in Horth.
  rewrite <- Horth. apply sumn_ext. intros l Hl.
  now rewrite (get_transpose HA Hn Ha Hl).
Qed.

Lemma orthonormal_product n k (U Vt : Matrix R) :
  (0 < n)%nat -> (0 < k)%nat ->
  shape_is n k U -> shape_is k k Vt ->
  orthonormal_columns k U -> orthonormal_columns k Vt ->
  orthonormal_columns k (matmul U Vt).
Proof.
  intros Hn Hk HU HVt HUo HVo.
  pose proof (shape_matmul HU HVt Hk) as HG.
  pose proof (shape_transpose HG Hn) as HGt.
  unfold orthonormal_columns.
  unfold matmul at 1. unfold nrows at 1.
  destruct HGt as [HGt1 HGt2]. rewrite HGt1.
  rewrite (ncols_shape HG Hn), (ncols_shape (conj HGt1 HGt2) Hk).
  unfold identity. apply tabulate_ext. intros i j Hi Hj.
  cbn [one zero mul Num_R]. fold (kron i j).
  rewrite (sumn_ext _
    (fun l => sumn k (fun a => sumn k (fun b =>
       (get U l a * get Vt a i) * (get U l b * get Vt b j))))).
  2:{ intros l Hl.
      rewrite (get_transpose HG Hn Hi Hl).
      rewrite (get_matmul HU HVt Hn Hk Hl Hi), (get_matmul HU HVt Hn Hk Hl Hj).
      cbn [mul Num_R]. rewrite Rsum_scal_r.
      apply sumn_ext. intros a _. now rewrite Rsum_scal_l. }
  rewrite Rsum_swap.
  rewrite (sumn_ext _ (fun a => get Vt a i * get Vt a j)).
  - apply (gram_entries Hk Hk HVt HVo Hi Hj).
  - intros a Ha. rewrite Rsum_swap.
    rewrite (sumn_ext _ (fun b => (get Vt a i * get Vt b j) * kron a b)).
    + apply (Rsum_kron (fun b => get Vt a i * get Vt b j) Ha).
    + intros b Hb.
      rewrite <- (gram_entries Hn Hk HU HUo Ha Hb).
      rewrite Rsum_scal_l. apply sumn_ext. intros l _. lra.
Qed.

End RealSums.

(* ================================================================== *)
(** ** The proximal-gradient sweep of linear/_iterative/_altmaxvar.py *)

Section SweepFacts.
Context {F : Type} `{NF : Num F} `{FF : Frac F}.
Import LinearAltMaxVar.

(** Once [converged] is set, no later view of the sweep runs a sub-step. *)
Lemma sweep_after_convergence (views : list (Matrix F)) i g
  (self : AltMaxVarLoop) :
  sweep views i g self true = Ok (self, true).
Proof.
  revert i. induction views as [|view rest IH]; intros i; simpl; auto.
Qed.

(** An early stop in the sub-loop of the first view ends the sweep. *)
Lemma sweep_first_view_stops (view : Matrix F) rest g
  (self self1 : AltMaxVarLoop) :
  sub_loop (T self) 0 view g self None = Ok (self1, true) ->
  sweep (view :: rest) 0 g self false = Ok (self1, true).
Proof.
  intros H. simpl. rewrite H. simpl. apply sweep_after_convergence.
Qed.

Lemma load_store_same (h : list (Matrix F)) w v :
  w < length h -> load (store h w v) w = v.
Proof. intros Hw. unfold load, store. now apply nth_set_nth_same. Qed.

Lemma load_alloc_old (h : list (Matrix F)) v w :
  w < length h -> load (fst (alloc h v)) w = load h w.
Proof. intros Hw. unfold load, alloc. simpl. now apply app_nth1. Qed.

Lemma load_alloc_new (h : list (Matrix F)) v :
  load (fst (alloc h v)) (snd (alloc h v)) = v.
Proof. unfold load, alloc. simpl. now rewrite nth_middle. Qed.

(** From the second sub-step on, [prev_weights] names the array that
    [-=] has just rewritten: the test compares the new weights with the
    result [gs] of the gradient step, not with the previous iterate. *)
Lemma sub_loop_test_is_aliased fuel i view g (self : AltMaxVarLoop) w op :
  index (weights self) i = Ok w ->
  index (proximal_operators self) i = Ok (Some op) ->
  w < length (arrays self) ->
  let lr := learning_rate self in
  let gs := msub (load (arrays self) w)
                 (mscale lr (matmul (transpose view)
                                    (msub (matmul view (load (arrays self) w)) g))) in
  let h1 := store (arrays self) w gs in
  let self' := with_arrays self (h1 ++ [prox op gs lr])
                           (set_nth (weights self) i (length h1)) in
  sub_loop (S fuel) i view g self (Some w) =
  if allclose (prox op gs lr) gs then Ok (self', true)
  else sub_loop fuel i view g self' (Some (length h1)).
Proof.
  intros Hw Hop Hlt lr gs h1 self'.
  cbn [sub_loop]. rewrite Hw. cbn [bind]. rewrite Hop. cbn [bind].
  unfold gradient_step. fold lr. fold gs. fold h1.
  assert (Hl1 : load h1 w = gs) by (now apply load_store_same).
  rewrite Hl1.
  assert (Hw1 : w < length h1)
    by (unfold h1, store; now rewrite length_set_nth).
  pose proof (load_alloc_new h1 (prox op gs lr)) as Hnew.
  pose proof (load_alloc_old h1 (prox op gs lr) Hw1) as Hold.
  unfold alloc in *. cbn [fst snd] in *.
  rewrite Hnew, Hold, Hl1. reflexivity.
Qed.

End SweepFacts.

(** C1.  Two views, [T = 100], learning rate 1.  View 0 reaches its fixed
    point and stops at its second sub-step; the shared [converged] flag
    then keeps view 1 from running any sub-step: its weights stay at
    [[0]], although its own sub-loop, run from the same state, moves them
    to [[1]]. *)
Theorem training_step_first_stop_skips_later_views :
  (r <- LinearAltMaxVar.training_step Examples.svd_zero
          (Examples.loop_two_views 1) Examples.two_views ;;
   Ok (LinearAltMaxVar.weight_values r))
  = Ok [[[1]]; [[0]]]%Q
  /\
  (r <- LinearAltMaxVar.sub_loop 100 1 [[1]]%Q [[1]]%Q
          (LinearAltMaxVar.with_G (Examples.loop_two_views 1) [[1]]%Q) None ;;
   Ok (nth 1 (LinearAltMaxVar.weight_values (fst r)) [], snd r))
  = Ok ([[1]]%Q, true).
Proof. split; vm_compute; reflexivity. Qed.

(** With learning rate 1/10 the iterates of view 0 are 1/10 and 19/100,
    which [np.allclose] tells apart, yet the sub-loop stops at its second
    sub-step: the test sees the gradient step through the alias. *)
Lemma training_step_stops_on_distinct_iterates :
  (r <- LinearAltMaxVar.training_step Examples.svd_zero
          (Examples.loop_two_views (1 # 10)) Examples.two_views ;;
   Ok (map (map (map Qred)) (LinearAltMaxVar.weight_values r)))
  = Ok [[[19 # 100]]; [[0]]]%Q
  /\ LinearAltMaxVar.allclose [[19 # 100]]%Q [[1 # 10]]%Q = false.
Proof. split; vm_compute; reflexivity. Qed.

(* ================================================================== *)
(** ** The L1 bound of SCCA_PMD *)

Lemma index_zip_with {A B C} (f : A -> B -> C) l l' i a b :
  nth_error l i = Some a -> nth_error l' i = Some b ->
  index (zip_with f l l') i = Ok (f a b).
Proof.
  revert l' i. induction l as [|x l IH]; intros [|y l'] [|i]; simpl;
    try discriminate.
  - intros [= ->] [= ->]. reflexivity.
  - intros Ha Hb. unfold index in *. simpl. now apply IH.
Qed.

Lemma pmd_ensure_t (self : PMD.SCCA_PMD) :
  PMD.t self = None \/
  PMD.t self = Some (PMD.l1_bounds (PMD.tau self) (PMD.weights self)) ->
  PMD.t (PMD.ensure_t self)
  = Some (PMD.l1_bounds (PMD.tau self) (PMD.weights self)).
Proof.
  intros [H|H]; unfold PMD.ensure_t; rewrite H; [reflexivity|assumption].
Qed.

Lemma pmd_ensure_t_idempotent (self : PMD.SCCA_PMD) :
  PMD.ensure_t (PMD.ensure_t self) = PMD.ensure_t self.
Proof.
  unfold PMD.ensure_t. destruct (PMD.t self) eqn:H; [now rewrite H|reflexivity].
Qed.



Lemma floor_search_contract : delta_search_contract Examples2.floor_search.
Proof.
  intros w c tol Hc. unfold Examples2.floor_search, l1_norm.
  destruct (Rle_dec 1 c) as [H1|_]; cbn.
  - rewrite Rabs_R1, Rabs_R0. lra.
  - rewrite Rabs_R0. lra.
Defined.


(* ================================================================== *)
(** ** The consensus target has orthonormal columns *)

Lemma svd_product_orthonormal n k M U S Vt :
  0 < k -> k <= n -> thin_svd n k M U S Vt ->
  orthonormal_columns k (matmul U Vt).
Proof.
  intros Hk Hkn H.
  assert (Hmin : Nat.min n k = k) by lia.
  destruct H as [_ HU _ _ HVt HUo _ HVo _].
  rewrite Hmin in HU, HVt, HUo.
  apply (orthonormal_product (n := n)); auto; lia.
Qed.

(** C3.  After every recompute of the consensus target, in the inner loop
    of models/_iterative/_altmaxvar.py ([_update_target]) and in the loop
    of linear/_iterative/_altmaxvar.py ([_get_target]), the target is
    [U @ Vt] for the factors the SVD routine returned for the aggregate
    of the scores, and it has orthonormal columns ([G.T @ G = I])
    whenever the aggregate is [n x k] with [1 <= k <= n].  The loop state
    is arbitrary, so this holds at every outer iteration. *)
Theorem target_orthonormal_after_recompute
  (svd : svd_routine R) (n k : nat)
  (selfM : ModelsAltMaxVar._AltMaxVarLoop (F := R))
  (selfL : LinearAltMaxVar.AltMaxVarLoop (F := R))
  (scoresL : list (Matrix R))
  (U1 Vt1 U2 Vt2 : Matrix R) (S1 S2 : Vector R) :
  0 < k -> k <= n ->
  svd (sum_axis0 (ModelsAltMaxVar.scores selfM)) = Ok (U1, S1, Vt1) ->
  thin_svd n k (sum_axis0 (ModelsAltMaxVar.scores selfM)) U1 S1 Vt1 ->
  svd (LinearAltMaxVar.target_aggregate selfL scoresL) = Ok (U2, S2, Vt2) ->
  thin_svd n k (LinearAltMaxVar.target_aggregate selfL scoresL) U2 S2 Vt2 ->
  (exists selfM',
      ModelsAltMaxVar._update_target svd selfM = Ok selfM' /\
      ModelsAltMaxVar.G selfM' = Some (matmul U1 Vt1) /\
      orthonormal_columns k (matmul U1 Vt1)) /\
  (LinearAltMaxVar._get_target svd selfL scoresL = Ok (matmul U2 Vt2) /\
   orthonormal_columns k (matmul U2 Vt2)).
Proof.
  intros Hk Hkn Hsvd1 Hthin1 Hsvd2 Hthin2. split.
  - exists (ModelsAltMaxVar.with_G selfM (matmul U1 Vt1)).
    unfold ModelsAltMaxVar._update_target. rewrite Hsvd1. cbn.
    repeat split. eapply svd_product_orthonormal; eauto.
  - unfold LinearAltMaxVar._get_target. rewrite Hsvd2. cbn.
    split; [reflexivity|]. eapply svd_product_orthonormal; eauto.
Qed.

(** Unfolds the array operations on literal arrays, leaving the real
    arithmetic in place. *)
Ltac unfold_arrays :=
  cbv [matmul transpose tabulate nrows ncols get sumn identity diag
       madd msub mscale sum_axis0 zip_with fold_left map seq nth length
       zero one add sub mul div of_int Num_R Frac_R Nat.eqb
       LinearAltMaxVar.target_aggregate LinearAltMaxVar.mean_axis0
       LinearAltMaxVar.G ModelsAltMaxVar.scores
       Z.of_nat Pos.of_succ_nat Pos.succ Nat.min Init.Nat.min].

Ltac list_eq :=
  repeat match goal with
         | |- (_ :: _) = (_ :: _) => f_equal
         | |- @nil _ = @nil _ => reflexivity
         end.

Ltac unfold_svd34 :=
  unfold Examples.U34, Examples.S34, Examples.Vt34, Examples.models_loop34,
    Examples.linear_loop34, Examples.linear_scores34.

Ltac real_arrays := unfold_svd34; unfold_arrays; list_eq; lra.

Lemma thin_svd34_models :
  thin_svd 2 1 (sum_axis0 (ModelsAltMaxVar.scores Examples.models_loop34))
           Examples.U34 Examples.S34 Examples.Vt34.
Proof.
  constructor.
  - unfold_svd34. unfold_arrays. split; [reflexivity|]. repeat constructor.
  - unfold_svd34. unfold_arrays. split; [reflexivity|]. repeat constructor.
  - reflexivity.
  - repeat constructor. unfold Examples.S34. lra.
  - unfold_svd34. unfold_arrays. split; [reflexivity|]. repeat constructor.
  - unfold orthonormal_columns. real_arrays.
  - real_arrays.
  - intros _. unfold orthonormal_columns. real_arrays.
  - real_arrays.
Defined.

Lemma thin_svd34_linear :
  thin_svd 2 1
           (LinearAltMaxVar.target_aggregate Examples.linear_loop34
                                             Examples.linear_scores34)
           Examples.U34 Examples.S34 Examples.Vt34.
Proof.
  constructor.
  - unfold_svd34. unfold_arrays. split; [reflexivity|]. repeat constructor.
  - unfold_svd34. unfold_arrays. split; [reflexivity|]. repeat constructor.
  - reflexivity.
  - repeat constructor. unfold Examples.S34. lra.
  - unfold_svd34. unfold_arrays. split; [reflexivity|]. repeat constructor.
  - unfold orthonormal_columns. real_arrays.
  - real_arrays.
  - intros _. unfold orthonormal_columns. real_arrays.
  - real_arrays.
Defined.

Lemma target_orthonormal_after_recompute_witness :
  (exists selfM',
      ModelsAltMaxVar._update_target Examples.svd34 Examples.models_loop34
        = Ok selfM' /\
      ModelsAltMaxVar.G selfM' = Some (matmul Examples.U34 Examples.Vt34) /\
      orthonormal_columns 1 (matmul Examples.U34 Examples.Vt34)) /\
  (LinearAltMaxVar._get_target Examples.svd34 Examples.linear_loop34
     Examples.linear_scores34 = Ok (matmul Examples.U34 Examples.Vt34) /\
   orthonormal_columns 1 (matmul Examples.U34 Examples.Vt34)).
Proof.
  apply (@target_orthonormal_after_recompute Examples.svd34 2 1
           Examples.models_loop34 Examples.linear_loop34
           Examples.linear_scores34
           Examples.U34 Examples.Vt34 Examples.U34 Examples.Vt34
           Examples.S34 Examples.S34).
  - lia.
  - lia.
  - reflexivity.
  - exact thin_svd34_models.
  - reflexivity.
  - exact thin_svd34_linear.
Defined.

(* ================================================================== *)
(** ** The regression target of the elastic loop in SUMCOR mode *)

Lemma nth_pred_length_last {A} (l : list A) (d : A) :
  nth (length l - 1) l d = last l d.
Proof.
  induction l as [|x [|y l] IH]; try reflexivity.
  change (last (x :: y :: l) d) with (last (y :: l) d).
  rewrite <- IH. simpl length.
  now replace (S (S (length l)) - 1) with (S (S (length l) - 1)) by lia.
Qed.

(** C10.  With [maxvar=False] the target of view [i] is the one score
    [scores[i - 1]]: the score of view [i - 1] for [i > 0] and, through
    the negative index, the score of the last view for [i = 0].  The
    update of view [i] is the solve against that score alone. *)
Theorem sumcor_target_is_cyclic_predecessor
  (regressor : Type)
  (fit : regressor -> Matrix R -> Vector R -> regressor * Vector R)
  (self : Elastic._ElasticInnerLoop regressor)
  (views : list (Matrix R)) (i : nat) :
  Elastic.maxvar self = false ->
  i < length (Elastic.scores self) ->
  let N := length (Elastic.scores self) in
  let target := nth ((i + N - 1) mod N) (Elastic.scores self) [] in
  Elastic.select_target self i = Ok (Elastic.Finite target) /\
  Elastic._update_view fit self views i
  = Elastic.solve_and_store fit self views i target /\
  (i = 0 -> target = last (Elastic.scores self) []) /\
  (0 < i -> target = nth (i - 1) (Elastic.scores self) []).
Proof.
  intros Hmv Hi N target.
  assert (Hsel : Elastic.select_target self i = Ok (Elastic.Finite target)).
  { unfold Elastic.select_target. rewrite Hmv.
    rewrite (py_index_pred (Elastic.scores self) (@nil R) Hi). reflexivity. }
  repeat split.
  - exact Hsel.
  - unfold Elastic._update_view. rewrite Hsel. reflexivity.
  - intros ->. unfold target, N.
    replace ((0 + length (Elastic.scores self) - 1)
               mod length (Elastic.scores self))
      with (length (Elastic.scores self) - 1)
      by (rewrite Nat.mod_small; lia).
    apply nth_pred_length_last.
  - intros Hpos. unfold target, N. f_equal.
    replace (i + length (Elastic.scores self) - 1)
      with (i - 1 + 1 * length (Elastic.scores self)) by lia.
    rewrite Nat.Div0.mod_add. apply Nat.mod_small. lia.
Qed.

Lemma sumcor_target_is_cyclic_predecessor_witness :
  Elastic.select_target Examples.sumcor_loop 0
  = Ok (Elastic.Finite [3; -3]%R) /\
  Elastic.select_target Examples.sumcor_loop 2
  = Ok (Elastic.Finite [2; -2]%R).
Proof.
  split.
  - exact (proj1 (@sumcor_target_is_cyclic_predecessor unit Examples.fit11
             Examples.sumcor_loop
             [Examples.centred_view; Examples.centred_view; Examples.centred_view]
             0 eq_refl (le_n_S _ _ (le_S _ _ (le_S _ _ (le_n 0)))))).
  - exact (proj1 (@sumcor_target_is_cyclic_predecessor unit Examples.fit11
             Examples.sumcor_loop
             [Examples.centred_view; Examples.centred_view; Examples.centred_view]
             2 eq_refl (le_n 3))).
Defined.

(* ================================================================== *)
(** ** The SUMCOR rescaling of the elastic loop *)

Section ElasticFacts.
Local Open Scope R_scope.

Lemma dot_scale_r (x y : Vector R) d :
  dot x (map (fun t => t / d) y) = dot x y / d.
Proof.
  revert y. induction x as [|a x IH]; intros [|b y]; cbn;
    try (unfold Rdiv; ring).
  rewrite IH. unfold Rdiv. ring.
Qed.

Lemma dot_scale_l (x y : Vector R) d :
  dot (map (fun t => t / d) x) y = dot x y / d.
Proof.
  revert y. induction x as [|a x IH]; intros [|b y]; cbn;
    try (unfold Rdiv; ring).
  rewrite IH. unfold Rdiv. ring.
Qed.

Lemma matvec_scale (X : Matrix R) (w : Vector R) d :
  matvec X (map (fun t => t / d) w) = map (fun t => t / d) (matvec X w).
Proof.
  unfold matvec. rewrite map_map. apply map_ext. intros row.
  apply dot_scale_r.
Qed.

Lemma norm_scale (v : Vector R) d :
  0 < d -> Elastic.norm (map (fun t => t / d) v) = Elastic.norm v / d.
Proof.
  intros Hd. unfold Elastic.norm.
  rewrite dot_scale_l, dot_scale_r.
  replace (dot v v / d / d) with (dot v v / (d * d))
    by (field; lra).
  rewrite sqrt_div_alt by nra.
  rewrite sqrt_square by lra. reflexivity.
Qed.

Lemma norm_nonneg (v : Vector R) : 0 <= Elastic.norm v.
Proof. apply sqrt_pos. Qed.

Lemma dot_all_zero (row w : Vector R) :
  Elastic.all_zero w = true -> dot row w = 0.
Proof.
  revert w. induction row as [|a row IH]; intros [|b w]; cbn; auto.
  unfold Reqb. destruct (Req_dec_T b 0) as [->|]; [|discriminate].
  cbn. intros Hz. rewrite (IH _ Hz). lra.
Qed.

Lemma dot_zeros (v : Vector R) :
  Forall (fun x => x = 0) v -> dot v v = 0.
Proof.
  induction 1 as [|x v Hx _ IH]; cbn; [reflexivity|].
  rewrite IH, Hx. lra.
Qed.

Lemma norm_matvec_all_zero (X : Matrix R) (w : Vector R) :
  Elastic.all_zero w = true -> Elastic.norm (matvec X w) = 0.
Proof.
  intros Hz. unfold Elastic.norm. rewrite dot_zeros; [apply sqrt_0|].
  unfold matvec. apply Forall_forall. intros x Hx.
  apply in_map_iff in Hx. destruct Hx as [row [<- _]].
  now apply dot_all_zero.
Qed.

Variable regressor : Type.
Variable fit : regressor -> Matrix R -> Vector R -> regressor * Vector R.

(** [_update_view] in SUMCOR mode once the subscripts have succeeded:
    the check, the rescaling and the stores. *)
Lemma sumcor_update_unfold (self : Elastic._ElasticInnerLoop regressor)
  (views : list (Matrix R)) (i : nat) (X : Matrix R)
  (rg rg' : regressor) (w : Vector R) :
  Elastic.maxvar self = false ->
  (i < length (Elastic.scores self))%nat ->
  (i < length (Elastic.weights self))%nat ->
  nth_error views i = Some X ->
  nth_error (Elastic.regressors self) i = Some rg ->
  fit rg X (nth ((i + length (Elastic.scores self) - 1)
                   mod length (Elastic.scores self))
                (Elastic.scores self) []) = (rg', w) ->
  Elastic._update_view fit self views i
  = (_ <- Elastic._check_converged_weights w i ;;
     match Elastic.rescale w (Elastic.norm (matvec X w))
                           (sqrt (INR (Elastic.n self))) with
     | Elastic.Finite w' =>
         Ok (Elastic.Finite
               {| Elastic.maxvar := Elastic.maxvar self;
                  Elastic.n := Elastic.n self;
                  Elastic.scores :=
                    set_nth (Elastic.scores self) i (matvec X w');
                  Elastic.weights := set_nth (Elastic.weights self) i w';
                  Elastic.regressors :=
                    set_nth (Elastic.regressors self) i rg';
                  Elastic.tol := Elastic.tol self;
                  Elastic.track_objective :=
                    Elastic.track_objective self |})
     | _ => Ok Elastic.NonFinite
     end).
Proof.
  intros Hmv Hs Hw HX Hrg Hfit.
  unfold Elastic._update_view, Elastic.select_target. rewrite Hmv.
  rewrite (py_index_pred (Elastic.scores self) (@nil R) Hs). cbn [bind].
  unfold Elastic.solve_and_store, Elastic._elastic_solver.
  unfold index at 1. rewrite HX. cbn [bind].
  unfold index at 1. rewrite Hrg. cbn [bind].
  rewrite Hfit. cbn [bind].
  rewrite (index_nth (Elastic.weights self) (@nil R) Hw). cbn [bind].
  rewrite Hmv.
  destruct (Elastic._check_converged_weights w i); cbn [bind]; [|reflexivity].
  unfold Elastic.store_view, Elastic.store_non_finite.
  rewrite (index_nth (Elastic.scores self) (@nil R) Hs).
  destruct (Elastic.rescale _ _ _); cbn [bind]; try reflexivity.
  now rewrite Hmv.
Qed.

Lemma all_zero_false_not_nil (w : Vector R) :
  Elastic.all_zero w = false -> w <> [].
Proof. intros H ->. discriminate H. Qed.

(** The rescaling of a vector by [x / s] with [x] and [s] positive. *)
Lemma rescale_positive (v : Vector R) (x s : R) :
  0 < x -> 0 < s ->
  Elastic.rescale v x s = Elastic.Finite (map (fun t => t / (x / s)) v).
Proof.
  intros Hx Hs. unfold Elastic.rescale.
  destruct (Req_dec_T s 0) as [E|_]; [lra|].
  destruct (Req_dec_T x 0) as [E|_]; [lra|]. reflexivity.
Qed.

(** The rescaling by a zero norm fills a vector that has entries with
    inf or NaN. *)
Lemma rescale_zero_norm (v : Vector R) (s : R) :
  v <> [] -> Elastic.rescale v 0 s = Elastic.NonFinite.
Proof.
  intros Hv. unfold Elastic.rescale.
  destruct (Req_dec_T s 0) as [_|_];
    (destruct (Req_dec_T 0 0) as [_|E]; [|exfalso; now apply E]);
    destruct v; [contradiction|reflexivity|contradiction|reflexivity].
Qed.

(** A non-zero solver output whose projection is zero is divided by
    zero: the update returns with non-finite weights. *)
Lemma sumcor_update_zero_projection (self : Elastic._ElasticInnerLoop regressor)
  (views : list (Matrix R)) (i : nat) (X : Matrix R)
  (rg rg' : regressor) (w : Vector R) :
  Elastic.maxvar self = false ->
  (i < length (Elastic.scores self))%nat ->
  (i < length (Elastic.weights self))%nat ->
  nth_error views i = Some X ->
  nth_error (Elastic.regressors self) i = Some rg ->
  fit rg X (nth ((i + length (Elastic.scores self) - 1)
                   mod length (Elastic.scores self))
                (Elastic.scores self) []) = (rg', w) ->
  Elastic.all_zero w = false ->
  Elastic.norm (matvec X w) = 0 ->
  Elastic._update_view fit self views i = Ok Elastic.NonFinite.
Proof.
  intros Hmv Hs Hw HX Hrg Hfit Hnz Hnorm.
  rewrite (sumcor_update_unfold self views Hmv Hs Hw HX Hrg Hfit).
  unfold Elastic._check_converged_weights. rewrite Hnz. cbn [bind].
  rewrite Hnorm.
  now rewrite rescale_zero_norm by (now apply all_zero_false_not_nil).
Qed.

End ElasticFacts.

(** A solver output that is not zero but lies in the null space of the
    view, as [[1, -1], [-1, 1]] @ [1, 1] = 0, passes the check and is
    divided by zero: the update returns, and its arrays hold inf or
    NaN. *)
Lemma sumcor_null_space_output_divides_by_zero :
  Elastic._update_view Examples.fit11 Examples.sumcor_loop
    [Examples.centred_view; Examples.centred_view; Examples.centred_view] 0
  = Ok Elastic.NonFinite.
Proof.
  apply (@sumcor_update_zero_projection unit Examples.fit11
           Examples.sumcor_loop
           [Examples.centred_view; Examples.centred_view;
            Examples.centred_view] 0 Examples.centred_view tt tt [1; 1]%R);
    try reflexivity; try (cbn; lia).
  - cbn. unfold Reqb. destruct (Req_dec_T 1 0); [lra|reflexivity].
  - unfold Elastic.norm, Examples.centred_view. cbn.
    replace (_ + _)%R with 0%R by lra. apply sqrt_0.
Qed.



Lemma projection_22_nonzero :
  Elastic.norm (matvec Examples.full_view [2; 2]%R) <> 0%R.
Proof.
  apply Rgt_not_eq, sqrt_lt_R0.
  unfold Examples.full_view. cbn. lra.
Defined.

Lemma all_zero_22 : Elastic.all_zero [2; 2]%R = false.
Proof.
  cbn. unfold Reqb. destruct (Req_dec_T 2 0) as [E|_]; [|reflexivity].
  exfalso. lra.
Defined.

Lemma sqrt2_projection_nonzero :
  Elastic.norm (matvec Examples.full_view [1; 1]%R) <> 0%R.
Proof.
  apply Rgt_not_eq, sqrt_lt_R0.
  unfold Examples.full_view. cbn. lra.
Defined.

Lemma all_zero_11 : Elastic.all_zero [1; 1]%R = false.
Proof.
  cbn. unfold Reqb. destruct (Req_dec_T 1 0) as [E|_]; [|reflexivity].
  exfalso. lra.
Defined.


(* ================================================================== *)
(** ** Degenerate updates: what the loops check *)

Section DegenerateFacts.
Context {F : Type} `{NF : Num F}.
Import ModelsAltMaxVar.

(** [_update_view] stores whatever the regulariser returns. *)
Lemma update_view_stores (self : _AltMaxVarLoop (F := F)) views i reg view g w w' :
  nth_error (view_regs self) i = Some reg ->
  nth_error views i = Some view ->
  G self = Some g ->
  nth_error (weights self) i = Some w ->
  reg view g w = Ok w' ->
  _update_view self views i
  = Ok (with_weights self (set_nth (weights self) i w')).
Proof.
  intros Hreg Hview Hg Hw Hcall. unfold _update_view, index.
  rewrite Hreg, Hview, Hg, Hw. cbn [bind]. now rewrite Hcall.
Qed.

Lemma set_nth_app_skipn {A} (a ws : list A) k x :
  length a = k -> k < length ws ->
  set_nth (a ++ skipn k ws) k x = a ++ x :: skipn (S k) ws.
Proof.
  intros <- Hk. revert ws Hk.
  induction a as [|y a IH]; intros ws Hk.
  - destruct ws as [|w ws]; [cbn in Hk; lia|reflexivity].
  - destruct ws as [|w ws]; [cbn in Hk; lia|].
    cbn [length app skipn set_nth]. f_equal. apply IH. cbn in Hk. lia.
Qed.

Lemma nth_error_app_skipn {A} (a ws : list A) k :
  length a = k -> nth_error (a ++ skipn k ws) k = nth_error ws k.
Proof.
  intros <-. revert ws. induction a as [|y a IH]; intros ws.
  - reflexivity.
  - destruct ws as [|w ws]; cbn [length app skipn nth_error].
    + rewrite nth_error_app2 by lia. now destruct (length a - length a).
    + apply IH.
Qed.

Lemma firstn_S_nth_error {A} (l : list A) k x :
  nth_error l k = Some x -> firstn (S k) l = firstn k l ++ [x].
Proof.
  revert k. induction l as [|y l IH]; intros [|k] H; cbn in *;
    try discriminate.
  - now injection H as ->.
  - f_equal. now apply IH.
Qed.

(** From scores without NaN the loop over the views updates every view
    in turn with what its regulariser returns: the views from [k] on,
    when the weights of the views before [k] are already the new
    ones. *)
Lemma update_views_from (base : _AltMaxVarLoop (F := F)) (g : Matrix F)
  (views news : list (Matrix F)) :
  count_nan (scores base) = 0 ->
  G base = Some g ->
  length views = length (weights base) ->
  length (view_regs base) = length (weights base) ->
  length news = length (weights base) ->
  (forall i reg view w w',
      nth_error (view_regs base) i = Some reg ->
      nth_error views i = Some view ->
      nth_error (weights base) i = Some w ->
      nth_error news i = Some w' ->
      reg view g w = Ok w') ->
  forall m k,
    k + m = length (weights base) ->
    update_views
      (with_weights base (firstn k news ++ skipn k (weights base)))
      views (seq k m)
    = Ok (with_weights base news).
Proof.
  intros Hnan HG Hviews Hregs Hnews Hcalls.
  induction m as [|m IH]; intros k Hk.
  - cbn [seq update_views]. do 2 f_equal.
    rewrite firstn_all2, skipn_all2 by lia. apply app_nil_r.
  - cbn [seq update_views]. cbn [scores with_weights]. rewrite Hnan.
    cbn [Nat.eqb].
    assert (Hlt : k < length (weights base)) by lia.
    destruct (nth_error (view_regs base) k) as [reg|] eqn:Hreg;
      [|apply nth_error_None in Hreg; lia].
    destruct (nth_error views k) as [view|] eqn:Hview;
      [|apply nth_error_None in Hview; lia].
    destruct (nth_error (weights base) k) as [w|] eqn:Hw;
      [|apply nth_error_None in Hw; lia].
    destruct (nth_error news k) as [w'|] eqn:Hw';
      [|apply nth_error_None in Hw'; lia].
    assert (Hfirst : length (firstn k news) = k)
      by (rewrite length_firstn; lia).
    rewrite (update_view_stores
               (with_weights base (firstn k news ++ skipn k (weights base)))
               views k (reg := reg) (view := view) (g := g) (w := w)
               (w' := w')).
    + cbn [bind with_weights weights scores G view_regs tol track_objective].
      rewrite (set_nth_app_skipn _ _ _ Hfirst Hlt).
      specialize (IH (S k) ltac:(lia)).
      rewrite (firstn_S_nth_error _ _ Hw'), <- app_assoc in IH.
      exact IH.
    + exact Hreg.
    + exact Hview.
    + exact HG.
    + cbn [weights with_weights]. rewrite nth_error_app_skipn by exact Hfirst.
      exact Hw.
    + exact (Hcalls k reg view w w' Hreg Hview Hw Hw').
Qed.

End DegenerateFacts.

(** In MAXVAR mode the elastic update stores the solver output as it
    is. *)
Lemma maxvar_update_stores
  (regressor : Type)
  (fit : regressor -> Matrix R -> Vector R -> regressor * Vector R)
  (self : Elastic._ElasticInnerLoop regressor)
  (views : list (Matrix R)) (j : nat) (X : Matrix R)
  (rg rg' : regressor) (target w : Vector R) :
  Elastic.maxvar self = true ->
  Elastic.select_target self j = Ok (Elastic.Finite target) ->
  nth_error views j = Some X ->
  nth_error (Elastic.regressors self) j = Some rg ->
  fit rg X target = (rg', w) ->
  j < length (Elastic.weights self) ->
  j < length (Elastic.scores self) ->
  exists self',
    Elastic._update_view fit self views j = Ok (Elastic.Finite self') /\
    nth j (Elastic.weights self') [] = w /\
    nth j (Elastic.scores self') [] = matvec X w.
Proof.
  intros Hmv Hsel HX Hrg Hfit Hw Hs.
  unfold Elastic._update_view. rewrite Hsel. cbn [bind].
  unfold Elastic.solve_and_store, Elastic._elastic_solver.
  unfold index at 1. rewrite HX. cbn [bind].
  unfold index at 1. rewrite Hrg. cbn [bind].
  rewrite Hfit. cbn [bind].
  rewrite (index_nth (Elastic.weights self) (@nil R) Hw). cbn [bind].
  rewrite Hmv. unfold Elastic.store_view.
  rewrite (index_nth (Elastic.scores self) (@nil R) Hs). cbn [bind].
  eexists. split; [reflexivity|]. cbn [Elastic.weights Elastic.scores].
  split; now apply nth_set_nth_same.
Qed.



Lemma svd34_np_raises_on_nan :
  forall M, count_nan [M] <> 0 -> Examples.svd34_np M = Raise LinAlgError.
Proof.
  intros M HM. unfold Examples.svd34_np.
  destruct (Nat.eqb_spec (count_nan [M]) 0) as [E|_];
    [contradiction|reflexivity].
Defined.

Lemma maxvar_target_selected :
  Elastic.select_target Examples.maxvar_loop 0
  = Ok (Elastic.Finite Examples.maxvar_target).
Proof.
  unfold Elastic.select_target, Examples.maxvar_target.
  cbn [Elastic.maxvar Elastic.n Examples.maxvar_loop].
  rewrite rescale_positive; [reflexivity| |].
  - unfold Elastic.norm. apply sqrt_lt_R0. cbn. lra.
  - apply sqrt_lt_R0. cbn. lra.
Defined.

Lemma nan_then_one_calls :
  forall i reg view w w',
    nth_error (ModelsAltMaxVar.view_regs Examples2.nan_then_one_loop) i
    = Some reg ->
    nth_error Examples.np_views i = Some view ->
    nth_error (ModelsAltMaxVar.weights Examples2.nan_then_one_loop) i
    = Some w ->
    nth_error [[[NaN]]; [[Val 1]]] i = Some w' ->
    reg view (matmul [[Val (3 # 5)]; [Val (4 # 5)]] [[Val 1]]) w = Ok w'.
Proof.
  intros [|[|i]] reg view w w' Hreg Hview Hw Hw'; cbn in Hreg, Hw';
    try discriminate Hreg.
  - injection Hreg as <-. injection Hw' as <-. reflexivity.
  - injection Hreg as <-. injection Hw' as <-. reflexivity.
  - destruct i; discriminate Hreg.
Defined.


(* ================================================================== *)
(** ** Early stopping *)

Lemma py_index_last_two {A} (l : list A) (a b : A) :
  py_index (l ++ [a; b]) (-2) = Ok a /\ py_index (l ++ [a; b]) (-1) = Ok b.
Proof.
  unfold py_index. cbn [Z.ltb Z.compare].
  rewrite !length_app. cbn [length].
  replace (- -2 <=? Z.of_nat (length l + 2))%Z with true
    by (symmetry; apply Z.leb_le; lia).
  replace (- -1 <=? Z.of_nat (length l + 2))%Z with true
    by (symmetry; apply Z.leb_le; lia).
  replace (Z.to_nat (Z.of_nat (length l + 2) + -2)) with (length l + 0) by lia.
  replace (Z.to_nat (Z.of_nat (length l + 2) + -1)) with (length l + 1) by lia.
  unfold index. rewrite !nth_error_app2 by lia.
  replace (length l + 0 - length l) with 0 by lia.
  replace (length l + 1 - length l) with 1 by lia.
  split; reflexivity.
Qed.

(** The elastic loop stops exactly when the absolute difference of the
    last two objectives is below its [tol]. *)
Lemma elastic_early_stop_iff (regressor : Type)
  (self : Elastic._ElasticInnerLoop regressor) (l : list R) (a b : R) :
  Elastic.track_objective self = l ++ [a; b] ->
  (Elastic._early_stop self = Ok true <-> Rabs (a - b) < Elastic.tol self)%R.
Proof.
  intros Htrack. unfold Elastic._early_stop. rewrite Htrack.
  destruct (py_index_last_two l a b) as [-> ->]. cbn [bind].
  unfold Rltb. destruct (Rlt_dec (Rabs (a - b)) (Elastic.tol self)).
  - tauto.
  - split; [discriminate | tauto].
Qed.

(** The AltMaxVar loop stops exactly when the signed decrease is below
    [1e-9], whatever its [tol]. *)
Lemma altmaxvar_early_stop_iff (F : Type)
  (self : ModelsAltMaxVar._AltMaxVarLoop (F := F)) (l : list R) (a b : R) :
  ModelsAltMaxVar.track_objective self = l ++ [a; b] ->
  (ModelsAltMaxVar._early_stop self = Ok true <-> a - b < 1 / 1000000000)%R.
Proof.
  intros Htrack. unfold ModelsAltMaxVar._early_stop. rewrite Htrack.
  destruct (py_index_last_two l a b) as [-> ->]. cbn [bind].
  unfold Rltb. destruct (Rlt_dec (a - b) (1 / 1000000000)).
  - tauto.
  - split; [discriminate | tauto].
Qed.

(** C6.  With [tol = 1e-3] and the objectives 1 and 0.9995 the signed
    decrease 0.0005 is below [tol], and the elastic loop, on the same
    trace and [tol], declares convergence; the AltMaxVar loop does not,
    because it compares with the constant [1e-9]. *)
Theorem altmaxvar_early_stop_ignores_tol :
  ModelsAltMaxVar.tol Examples.finite_loop = (1 / 1000)%R /\
  ModelsAltMaxVar.track_objective Examples.finite_loop
  = [1; 9995 / 10000]%R /\
  (1 - 9995 / 10000 < ModelsAltMaxVar.tol Examples.finite_loop)%R /\
  ModelsAltMaxVar._early_stop Examples.finite_loop = Ok false /\
  Elastic._early_stop Examples.sumcor_loop = Ok true.
Proof.
  split; [reflexivity|]. split; [reflexivity|].
  split; [cbn; lra|]. split.
  - destruct (ModelsAltMaxVar._early_stop Examples.finite_loop)
      as [[|]|e] eqn:E.
    + apply (altmaxvar_early_stop_iff Examples.finite_loop []
               1%R (9995 / 10000)%R eq_refl) in E. lra.
    + reflexivity.
    + discriminate E.
  - apply (elastic_early_stop_iff Examples.sumcor_loop []
             1%R (9995 / 10000)%R eq_refl).
    cbn. rewrite Rabs_right; lra.
Qed.

(* ================================================================== *)
(** ** The proximal-operator registry *)

(** C7.  A proximal kind that is not a key of [PROXIMAL_OPERATORS] (and a
    string is not callable), like any other object that is neither a key
    nor callable, falls through both branches of [_proximal_operators]:
    the call returns [None] and raises nothing. *)
Theorem proximal_operators_unknown_kind_returns_none
  (F : Type)
  (construct : string -> LinearAltMaxVar.kwargs (F := F)
               -> result (LinearAltMaxVar.ProxOp (F := F)))
  (s : string) (filter_params : bool) (params : LinearAltMaxVar.kwargs) :
  LinearAltMaxVar.mem s LinearAltMaxVar.PROXIMAL_OPERATORS = false ->
  LinearAltMaxVar._proximal_operators construct (LinearAltMaxVar.PName s)
    filter_params params = Ok None /\
  LinearAltMaxVar._proximal_operators construct LinearAltMaxVar.POther
    filter_params params = Ok None.
Proof.
  intros Hmem. unfold LinearAltMaxVar._proximal_operators.
  now rewrite Hmem.
Qed.

Lemma proximal_operators_unknown_kind_returns_none_witness :
  LinearAltMaxVar._proximal_operators Examples.construct_L1
    (LinearAltMaxVar.PName "TV") true
    [("sigma"%string, LinearAltMaxVar.KFloat 0%Q);
     ("positive"%string, LinearAltMaxVar.KBool false)]
  = Ok None.
Proof.
  exact (proj1 (@proximal_operators_unknown_kind_returns_none
                  Q Examples.construct_L1 "TV" true
                  [("sigma"%string, LinearAltMaxVar.KFloat 0%Q);
                   ("positive"%string, LinearAltMaxVar.KBool false)]
                  eq_refl)).
Defined.

(** The [None] sits in [self.proximal_operators] until the first sub-step
    of that view asks it for [prox]. *)
Lemma unknown_kind_fails_only_in_training :
  LinearAltMaxVar._check_params Examples.construct_L1 Examples.estimator_TV
  = Ok [None; Some (LinearAltMaxVar.L1 0)] /\
  (r <- LinearAltMaxVar.training_step Examples.svd_zero
          Examples.loop_TV Examples.two_views ;;
   Ok (LinearAltMaxVar.weight_values r))
  = Raise AttributeError.
Proof. split; vm_compute; reflexivity. Qed.

(* ================================================================== *)
(** ** Initialisation *)

Section InitFacts.
Context {F : Type} `{NF : Num F}.
Variable rng : Type.
Variable normal : rng -> nat -> Vector F * rng.
Hypothesis normal_length : forall rs n, length (fst (normal rs n)) = n.

Lemma random_scores_length (rs : rng) (views : list (Matrix F)) :
  length (fst (ModelsAltMaxVar.random_scores normal rs views)) = length views.
Proof.
  revert rs. induction views as [|view rest IH]; intros rs; [reflexivity|].
  cbn [ModelsAltMaxVar.random_scores].
  destruct (normal rs (nrows view)) as [x rs1].
  specialize (IH rs1).
  destruct (ModelsAltMaxVar.random_scores normal rs1 rest) as [xs rs2].
  cbn in *. now rewrite IH.
Qed.

(** With any generator, the scheme ["random"] yields one vector of
    length [n] per view: an array of shape [(n_views, n)]. *)
Lemma random_initialization_shape
  (rcca : nat -> option F -> list (Matrix F) -> list (Matrix F))
  (view : Matrix F) (rest : list (Matrix F)) (rs : rng) (latent_dims : nat) :
  exists a rs',
    ModelsAltMaxVar._initialization normal rcca (view :: rest)
      (ModelsAltMaxVar.InitName "random") rs latent_dims = Ok (a, rs') /\
    shape a = [S (length rest); nrows view].
Proof.
  unfold ModelsAltMaxVar._initialization.
  change (String.eqb "random" "random") with true. cbv iota.
  pose proof (random_scores_length rs (view :: rest)) as Hlen.
  cbn [ModelsAltMaxVar.random_scores] in *.
  pose proof (normal_length rs (nrows view)) as Hx.
  destruct (normal rs (nrows view)) as [x rs1].
  destruct (ModelsAltMaxVar.random_scores normal rs1 rest) as [xs rs2].
  cbn in Hlen, Hx. eexists. eexists. split; [reflexivity|].
  cbn. rewrite !length_map. rewrite Hx, (Nat.succ_inj _ _ Hlen).
  destruct x; reflexivity.
Qed.

End InitFacts.

(** C8.  For two views of three samples and [latent_dims = 2] the scheme
    ["random"] returns an array of shape [(2, 3)]: per view a vector of
    length 3, not a [(3, 2)] array as ["uniform"] returns.  For the
    unknown scheme ["svd"] the error message is the unformatted template:
    it does not contain the offending value. *)
Theorem random_initialization_is_one_dimensional :
  (r <- ModelsAltMaxVar._initialization Examples.counter_normal
          Examples.rcca_views Examples.views32
          (ModelsAltMaxVar.InitName "random") 0 2 ;;
   Ok (shape (fst r))) = Ok [2; 3] /\
  (r <- ModelsAltMaxVar._initialization Examples.counter_normal
          Examples.rcca_views Examples.views32
          (ModelsAltMaxVar.InitName "uniform") 0 2 ;;
   Ok (shape (fst r))) = Ok [2; 3; 2] /\
  ModelsAltMaxVar._initialization Examples.counter_normal
    Examples.rcca_views Examples.views32
    (ModelsAltMaxVar.InitName "svd") 0 2
  = Raise (ValueError
             "Initialization {type} not supported. Pass a generator implementing this method") /\
  String.index 0 "svd" ModelsAltMaxVar.unsupported_message = None.
Proof. repeat split; vm_compute; reflexivity. Qed.

(* ================================================================== *)
(** ** [transform] before and after a fit *)

Section TransformFacts.
Context {F : Type} `{NF : Num F} `{FF : Frac F}.
Import Transform.

(** [KCCA.transform] checks for a fit first. *)
Lemma kcca_transform_before_fit
  (check_views : list (Matrix F) -> result (list (Matrix F)))
  (centre_scale : KCCA (F := F) -> list (Matrix F) -> result (list (Matrix F)))
  (get_kernel : KCCA (F := F) -> nat -> Matrix F -> Matrix F -> Matrix F)
  (self : KCCA (F := F)) (views : list (Matrix F)) :
  weights self = None ->
  KCCA_transform check_views centre_scale get_kernel self views
  = Raise NotFittedError.
Proof.
  intros Hw. unfold KCCA_transform, check_is_fitted. now rewrite Hw.
Qed.

(** [_CCA_Base.transform] on an estimator fresh from [__init__]: an
    [AttributeError] as soon as there is a view, and the empty list when
    there is none. *)
Lemma base_transform_before_fit (latent_dims : nat)
  (view : Matrix F) (views : list (Matrix F)) :
  transform (init latent_dims) (view :: views) None = Raise AttributeError /\
  transform (init latent_dims) [] None = Ok [].
Proof. split; reflexivity. Qed.

Lemma transform_views_from (self : _CCA_Base (F := F))
  (means : list (Vector F)) (ws : list (Matrix F))
  (views : list (Matrix F)) (k : nat) :
  view_means self = Some means ->
  weights_list self = Some ws ->
  k + length views <= length means ->
  k + length views <= length ws ->
  map_result (fun vi => transform_view self (fst vi) (snd vi))
             (combine views (map Z.of_nat (seq k (length views))))
  = Ok (map (fun vi => matmul (centre (fst vi) (nth (snd vi) means []))
                              (nth (snd vi) ws []))
            (combine views (seq k (length views)))).
Proof.
  intros Hm Hw. revert k.
  induction views as [|view rest IH]; intros k Hlm Hlw; [reflexivity|].
  cbn [length seq map combine map_result fst snd] in *.
  unfold transform_view at 1. rewrite Hm, Hw. cbn [bind].
  unfold py_index.
  replace (Z.of_nat k <? 0)%Z with false by (symmetry; apply Z.ltb_ge; lia).
  rewrite Nat2Z.id.
  rewrite (index_nth means [] (i := k)) by lia.
  rewrite (index_nth ws [] (i := k)) by lia. cbn [bind].
  rewrite IH by lia. reflexivity.
Qed.

(** After a fit, [transform] centres each view with the stored mean of
    its index and multiplies by the stored weights of that index. *)
Lemma base_transform_after_fit (self : _CCA_Base (F := F))
  (means : list (Vector F)) (ws : list (Matrix F))
  (views : list (Matrix F)) :
  view_means self = Some means ->
  weights_list self = Some ws ->
  length views <= length means ->
  length views <= length ws ->
  transform self views None
  = Ok (map (fun vi => matmul (centre (fst vi) (nth (snd vi) means []))
                              (nth (snd vi) ws []))
            (combine views (seq 0 (length views)))).
Proof.
  intros Hm Hw Hlm Hlw. unfold transform.
  now apply transform_views_from.
Qed.

End TransformFacts.

(** C9.  On a [_CCA_Base] estimator that has not been fitted, [transform]
    of one view raises [AttributeError] (the attribute [view_means] does
    not exist yet), not [NotFittedError], and [transform] of no views
    returns the empty list. *)
Theorem base_transform_before_fit_is_not_guarded :
  Transform.transform (Transform.init (F := Q) 1)
    [[[1; 2]; [3; 4]]%Q] None = Raise AttributeError /\
  Transform.transform (Transform.init (F := Q) 1) [] None = Ok [].
Proof. split; reflexivity. Qed.

(* ================================================================== *)
(** ** More on the sweep of linear/_iterative/_altmaxvar.py *)

Section SweepMore.
Context {F : Type} `{NF : Num F} `{FF : Frac F}.
Import LinearAltMaxVar.

Lemma sweep_app (pre post : list (Matrix F)) i g
  (self : AltMaxVarLoop (F := F)) c :
  sweep (pre ++ post) i g self c
  = (r <- sweep pre i g self c ;;
     sweep post (i + length pre) g (fst r) (snd r)).
Proof.
  revert i self c. induction pre as [|view pre IH]; intros i self c.
  - cbn. now rewrite Nat.add_0_r.
  - cbn [app sweep length].
    destruct (if c then Ok (self, true)
              else sub_loop (T self) i view g self None) as [r|e];
      cbn [bind]; [|reflexivity].
    rewrite IH. now replace (S i + length pre) with (i + S (length pre)) by lia.
Qed.

Lemma same_settings_refl (a : AltMaxVarLoop (F := F)) : same_settings a a.
Proof. unfold same_settings. repeat split; auto. Qed.

Lemma same_settings_trans (a b c : AltMaxVarLoop (F := F)) :
  same_settings a b -> same_settings b c -> same_settings a c.
Proof.
  unfold same_settings. intros H1 H2.
  destruct H1 as (?&?&?&?&?&?&?&?&?), H2 as (?&?&?&?&?&?&?&?&?).
  repeat split; try congruence; lia.
Qed.

Lemma sub_loop_same_settings fuel i view g (self : AltMaxVarLoop (F := F))
  prev r :
  sub_loop fuel i view g self prev = Ok r -> same_settings self (fst r).
Proof.
  revert self prev r. induction fuel as [|fuel IH]; intros self prev r H.
  - cbn in H. injection H as <-. apply same_settings_refl.
  - cbn [sub_loop] in H.
    destruct (index (weights self) i) as [w|e]; cbn [bind] in H;
      [|discriminate].
    destruct (index (proximal_operators self) i) as [[op|]|e];
      cbn [bind] in H; try discriminate.
    unfold alloc in H.
    set (self1 := with_arrays self _ _) in H.
    assert (H1 : same_settings self self1).
    { unfold same_settings, self1, with_arrays, gradient_step, store. cbn.
      repeat split; auto.
      - apply length_set_nth.
      - rewrite length_app, length_set_nth. lia. }
    destruct (match prev with
              | Some p => allclose _ _
              | None => false
              end).
    + injection H as <-. exact H1.
    + apply IH in H. eapply same_settings_trans; eauto.
Qed.

Lemma sweep_same_settings (views : list (Matrix F)) i g
  (self : AltMaxVarLoop (F := F)) c r :
  sweep views i g self c = Ok r -> same_settings self (fst r).
Proof.
  revert i self c r. induction views as [|view rest IH]; intros i self c r H.
  - cbn in H. injection H as <-. apply same_settings_refl.
  - cbn [sweep] in H.
    destruct c.
    + cbn [bind fst snd] in H. eapply IH; eauto.
    + destruct (sub_loop (T self) i view g self None) as [r1|e] eqn:E;
        cbn [bind] in H; [|discriminate].
      apply sub_loop_same_settings in E. apply IH in H.
      eapply same_settings_trans; eauto.
Qed.

End SweepMore.

(** X1.  In the sweep of [training_step], the first view whose sub-loop
    stops early ends the sweep: the views after it are not touched,
    however many there are and whatever they hold. *)
Theorem sweep_ends_at_first_early_stop
  (F : Type) (NF : Num F) (FF : Frac F)
  (pre post : list (Matrix F)) (view g : Matrix F)
  (self : LinearAltMaxVar.AltMaxVarLoop (F := F))
  (r1 r2 : LinearAltMaxVar.AltMaxVarLoop (F := F) * bool) :
  LinearAltMaxVar.sweep pre 0 g self false = Ok r1 ->
  snd r1 = false ->
  LinearAltMaxVar.sub_loop (LinearAltMaxVar.T (fst r1)) (length pre) view g
    (fst r1) None = Ok r2 ->
  snd r2 = true ->
  LinearAltMaxVar.sweep (pre ++ view :: post) 0 g self false
  = Ok (fst r2, true).
Proof.
  intros H1 Hc1 H2 Hc2.
  rewrite sweep_app, H1. cbn [bind LinearAltMaxVar.sweep Nat.add].
  rewrite Hc1, H2. cbn [bind].
  rewrite Hc2. apply sweep_after_convergence.
Qed.

Lemma sweep_ends_at_first_early_stop_witness :
  exists s,
    LinearAltMaxVar.sweep Examples2.three_views 0 [[1]]%Q
      (Examples2.loop_three_views 1) false = Ok (s, true) /\
    LinearAltMaxVar.weight_values s = [[[1]]; [[0]]; [[0]]]%Q.
Proof.
  destruct (LinearAltMaxVar.sub_loop 100 0 [[1]]%Q [[1]]%Q
              (Examples2.loop_three_views 1) None) as [r2|e] eqn:E.
  - pose proof (@sweep_ends_at_first_early_stop Q Num_Q Frac_Q
                  [] [[[1]]; [[1]]]%Q [[1]]%Q [[1]]%Q
                  (Examples2.loop_three_views 1)
                  (Examples2.loop_three_views 1, false) r2
                  eq_refl eq_refl E) as H.
    vm_compute in E. injection E as <-.
    exists (fst (LinearAltMaxVar.with_arrays (Examples2.loop_three_views 1)
                   [[[1]]; [[0]]; [[0]]; [[1]]; [[1]]]%Q [4; 1; 2], true)).
    split; [exact (H eq_refl) | reflexivity].
  - vm_compute in E. discriminate E.
Defined.

(** X2.  [training_step] returns only when tracking and convergence
    checking are both off (the call of [self.objective] with one argument
    raises otherwise).  When it returns, [self.G] is [U @ Vt] for the SVD
    of the aggregate of the scores at entry, and the number of weights,
    the operators, [T], the learning rate and [gamma] are as before. *)
Theorem training_step_returns_untracked_with_target
  (F : Type) (NF : Num F) (FF : Frac F) (svd : svd_routine F)
  (self self' : LinearAltMaxVar.AltMaxVarLoop (F := F))
  (views : list (Matrix F)) :
  LinearAltMaxVar.training_step svd self views = Ok self' ->
  LinearAltMaxVar.tracking self = false /\
  LinearAltMaxVar.convergence_checking self = false /\
  (exists U S Vt,
      svd (LinearAltMaxVar.target_aggregate self
             (LinearAltMaxVar.forward self views)) = Ok (U, S, Vt) /\
      LinearAltMaxVar.G self' = Some (matmul U Vt)) /\
  length (LinearAltMaxVar.weights self')
  = length (LinearAltMaxVar.weights self) /\
  LinearAltMaxVar.proximal_operators self'
  = LinearAltMaxVar.proximal_operators self /\
  LinearAltMaxVar.T self' = LinearAltMaxVar.T self /\
  LinearAltMaxVar.learning_rate self' = LinearAltMaxVar.learning_rate self /\
  LinearAltMaxVar.gamma self' = LinearAltMaxVar.gamma self.
Proof.
  intros H. unfold LinearAltMaxVar.training_step in H.
  destruct (LinearAltMaxVar.forward self views) as [|s0 ss] eqn:Hf;
    cbn [bind] in H; [discriminate|].
  unfold LinearAltMaxVar._get_target in H.
  destruct (svd (LinearAltMaxVar.target_aggregate self (s0 :: ss)))
    as [[[U S] Vt]|e] eqn:Hsvd; cbn [bind] in H; [|discriminate].
  destruct (LinearAltMaxVar.sweep views 0 (matmul U Vt)
              (LinearAltMaxVar.with_G self (matmul U Vt)) false)
    as [r|e] eqn:Hsw; cbn [bind] in H; [|discriminate].
  destruct (LinearAltMaxVar.tracking self) eqn:Ht; [discriminate|].
  destruct (LinearAltMaxVar.convergence_checking self) eqn:Hc; [discriminate|].
  cbn in H. injection H as <-.
  apply sweep_same_settings in Hsw.
  destruct Hsw as (HG & Hga & HT & Hlr & Hops & _ & _ & Hlen & _).
  cbn in HG, Hga, HT, Hlr, Hops, Hlen.
  repeat split; auto.
  exists U, S, Vt. split; [reflexivity|exact HG].
Qed.

Lemma training_step_returns_untracked_with_target_witness :
  exists self',
    LinearAltMaxVar.training_step Examples.svd_zero
      (Examples.loop_two_views 1) Examples.two_views = Ok self' /\
    LinearAltMaxVar.G self' = Some (matmul [[1]] [[1]])%Q /\
    length (LinearAltMaxVar.weights self') = 2.
Proof.
  destruct (LinearAltMaxVar.training_step Examples.svd_zero
              (Examples.loop_two_views 1) Examples.two_views)
    as [self'|e] eqn:E.
  - destruct (@training_step_returns_untracked_with_target
                Q Num_Q Frac_Q Examples.svd_zero
                (Examples.loop_two_views 1) self' Examples.two_views E)
      as (_ & _ & (U & S & Vt & Hsvd & HG) & Hlen & _).
    exists self'. split; [reflexivity|]. split; [|exact Hlen].
    unfold Examples.svd_zero in Hsvd. injection Hsvd as <- <- <-.
    exact HG.
  - vm_compute in E. discriminate E.
Defined.

(* ================================================================== *)
(** ** The early-stop test of the sub-loop *)

Lemma index_Ok_lt {A} (l : list A) i a : index l i = Ok a -> i < length l.
Proof.
  unfold index. destruct (nth_error l i) eqn:E; [|discriminate].
  intros _. apply nth_error_Some. congruence.
Qed.

Lemma index_set_nth_same {A} (l : list A) i v :
  i < length l -> index (set_nth l i v) i = Ok v.
Proof.
  intros Hi. rewrite (index_nth (set_nth l i v) v)
    by (now rewrite length_set_nth).
  now rewrite nth_set_nth_same.
Qed.

Lemma isclose_refl_Q (x : Q) : LinearAltMaxVar.isclose x x = true.
Proof.
  unfold LinearAltMaxVar.isclose, LinearAltMaxVar.atol, LinearAltMaxVar.rtol.
  cbn [leb abs sub add mul div one of_int Num_Q Frac_Q].
  apply Qle_bool_iff.
  assert (E : (Qabs (x - x) == 0)%Q).
  { setoid_replace (x - x)%Q with 0%Q by ring. reflexivity. }
  rewrite E.
  apply Qle_trans with (0 + 0)%Q; [discriminate|].
  apply Qplus_le_compat; [discriminate|].
  apply Qmult_le_0_compat; [discriminate|apply Qabs_nonneg].
Qed.

Lemma allclose_refl_Q (A : Matrix Q) : LinearAltMaxVar.allclose A A = true.
Proof.
  unfold LinearAltMaxVar.allclose.
  induction A as [|row A IH]; [reflexivity|].
  cbn [zip_with forallb]. rewrite IH, andb_true_r.
  induction row as [|x row IHr]; [reflexivity|].
  cbn [zip_with forallb]. now rewrite isclose_refl_Q, IHr.
Qed.

(** X3.  On finite arrays (exact rationals: no NaN, no inf, no
    rounding), when the operator of view [i] returns its argument (no
    penalty), the sub-loop of view [i] stops at its second sub-step
    whatever [T >= 2], the view and the target are: [prev_weights] names
    the array the gradient step has just rewritten, so the test compares
    the new weights with themselves.  The weights of view [i] are then
    two gradient steps from where they started.  (On arrays that hold
    NaN [np.allclose] is [False] even against the array itself, and the
    statement does not apply.) *)
Theorem sub_loop_without_penalty_stops_at_second_step
  (fuel i : nat) (view g : Matrix Q)
  (self : LinearAltMaxVar.AltMaxVarLoop (F := Q))
  (w : LinearAltMaxVar.loc) (op : LinearAltMaxVar.ProxOp (F := Q)) :
  index (LinearAltMaxVar.weights self) i = Ok w ->
  index (LinearAltMaxVar.proximal_operators self) i = Ok (Some op) ->
  w < length (LinearAltMaxVar.arrays self) ->
  (forall x, LinearAltMaxVar.prox op x (LinearAltMaxVar.learning_rate self) = x) ->
  let step := fun x =>
    msub x (mscale (LinearAltMaxVar.learning_rate self)
                   (matmul (transpose view) (msub (matmul view x) g))) in
  exists self',
    LinearAltMaxVar.sub_loop (S (S fuel)) i view g self None
    = Ok (self', true) /\
    nth i (LinearAltMaxVar.weight_values self') []
    = step (step (LinearAltMaxVar.load (LinearAltMaxVar.arrays self) w)).
Proof.
  intros Hw Hop Hlt Hid step.
  pose proof (index_Ok_lt _ _ Hw) as Hi.
  set (h := LinearAltMaxVar.arrays self).
  set (gs1 := step (LinearAltMaxVar.load h w)).
  set (h1 := LinearAltMaxVar.store h w gs1).
  set (self1 := LinearAltMaxVar.with_arrays self (h1 ++ [gs1])
                  (set_nth (LinearAltMaxVar.weights self) i (length h1))).
  assert (Hh1 : length h1 = length h)
    by (unfold h1, LinearAltMaxVar.store; apply length_set_nth).
  assert (Hfirst :
    LinearAltMaxVar.sub_loop (S (S fuel)) i view g self None
    = LinearAltMaxVar.sub_loop (S fuel) i view g self1 (Some (length h1))).
  { cbn [LinearAltMaxVar.sub_loop]. rewrite Hw. cbn [bind].
    rewrite Hop. cbn [bind].
    unfold LinearAltMaxVar.gradient_step. fold h. fold (step (LinearAltMaxVar.load h w)).
    fold gs1. fold h1.
    assert (Hl : LinearAltMaxVar.load h1 w = gs1)
      by (apply load_store_same; exact Hlt).
    rewrite Hl, Hid. unfold LinearAltMaxVar.alloc. reflexivity. }
  assert (Hw1 : index (LinearAltMaxVar.weights self1) i = Ok (length h1))
    by (apply index_set_nth_same; exact Hi).
  assert (Hop1 : index (LinearAltMaxVar.proximal_operators self1) i
                 = Ok (Some op)) by exact Hop.
  assert (Hlt1 : length h1 < length (LinearAltMaxVar.arrays self1))
    by (cbn; rewrite length_app; cbn; lia).
  pose proof (sub_loop_test_is_aliased fuel i view g self1 Hw1 Hop1 Hlt1)
    as Hsecond.
  cbv zeta in Hsecond.
  assert (Hload1 : LinearAltMaxVar.load (LinearAltMaxVar.arrays self1)
                     (length h1) = gs1).
  { unfold LinearAltMaxVar.load. cbn. apply nth_middle. }
  rewrite Hload1 in Hsecond.
  change (LinearAltMaxVar.learning_rate self1)
    with (LinearAltMaxVar.learning_rate self) in Hsecond.
  fold (step gs1) in Hsecond.
  rewrite (Hid (step gs1)), allclose_refl_Q in Hsecond.
  rewrite Hfirst.
  eexists. split; [exact Hsecond|].
  unfold LinearAltMaxVar.weight_values. cbn [LinearAltMaxVar.weights
    LinearAltMaxVar.arrays LinearAltMaxVar.with_arrays].
  set (h2 := LinearAltMaxVar.store (LinearAltMaxVar.arrays self1)
               (length h1) (step gs1)).
  rewrite (nth_indep _ [] (LinearAltMaxVar.load (h2 ++ [step gs1]) 0))
    by (rewrite length_map, length_set_nth; cbn; rewrite length_set_nth;
        exact Hi).
  rewrite (map_nth (LinearAltMaxVar.load (h2 ++ [step gs1]))).
  rewrite nth_set_nth_same by (cbn; rewrite length_set_nth; exact Hi).
  unfold LinearAltMaxVar.load. apply nth_middle.
Qed.

Lemma sub_loop_without_penalty_stops_at_second_step_witness :
  exists self',
    LinearAltMaxVar.sub_loop 100 1 [[1]]%Q [[1]]%Q
      (Examples2.loop_three_views (1 # 10)) None = Ok (self', true).
Proof.
  destruct (@sub_loop_without_penalty_stops_at_second_step
              98 1 [[1]]%Q [[1]]%Q (Examples2.loop_three_views (1 # 10))
              1 Examples2.no_penalty eq_refl eq_refl
              (le_S _ _ (le_n 2)) (fun x => eq_refl))
    as [self' [H _]].
  exists self'. exact H.
Defined.

(* ================================================================== *)
(** ** What the registry passes on *)

Lemma mem_In (s : string) (l : list string) :
  LinearAltMaxVar.mem s l = true -> In s l.
Proof.
  unfold LinearAltMaxVar.mem. intros H.
  apply existsb_exists in H. destruct H as [x [Hin Heq]].
  apply String.eqb_eq in Heq. now subst.
Qed.

(** X4.  For a registered proximal name [_get_proximal] hands the
    constructor at most the view's [sigma]: [positive[view]] is always
    filtered out, and a kind whose parameter list has no [sigma] gets no
    parameter at all.  The registered name ["EuclideanBall"] has no entry
    in [PROXIMAL_PARAMS], so for it the filter raises [KeyError]. *)
Theorem get_proximal_passes_sigma_at_most
  (F : Type)
  (construct : string -> LinearAltMaxVar.kwargs (F := F)
               -> result (LinearAltMaxVar.ProxOp (F := F)))
  (self : LinearAltMaxVar.AltMaxVar (F := F)) (view : nat)
  (s : string) (sg : F) (b : bool) :
  nth_error (LinearAltMaxVar.proximal self) view
  = Some (LinearAltMaxVar.PName s) ->
  nth_error (LinearAltMaxVar.sigma self) view = Some sg ->
  nth_error (LinearAltMaxVar.positive self) view = Some b ->
  LinearAltMaxVar.mem s LinearAltMaxVar.PROXIMAL_OPERATORS = true ->
  (s = "EuclideanBall"%string /\
   LinearAltMaxVar._get_proximal construct self view = Raise KeyError) \/
  (s <> "EuclideanBall"%string /\
   exists params,
     (params = [("sigma"%string, LinearAltMaxVar.KFloat sg)] \/ params = []) /\
     LinearAltMaxVar._get_proximal construct self view
     = (op <- construct s params ;; Ok (Some op))).
Proof.
  intros Hp Hs Hb Hmem.
  unfold LinearAltMaxVar._get_proximal, index. rewrite Hp. cbn [bind].
  rewrite Hs. cbn [bind]. rewrite Hb. cbn [bind].
  apply mem_In in Hmem. cbn in Hmem.
  repeat (destruct Hmem as [<-|Hmem];
          [first
             [ left; split; [reflexivity|]; vm_compute; reflexivity
             | right; split; [discriminate|];
               exists [("sigma"%string, LinearAltMaxVar.KFloat sg)];
               split; [left; reflexivity|]; vm_compute; reflexivity
             | right; split; [discriminate|];
               exists []; split; [right; reflexivity|];
               vm_compute; reflexivity ]|]).
  contradiction.
Qed.

Lemma get_proximal_passes_sigma_at_most_witness :
  LinearAltMaxVar._get_proximal Examples.construct_L1 Examples.estimator_TV 1
  = (op <- Examples.construct_L1 "L1"
             [("sigma"%string, LinearAltMaxVar.KFloat 0%Q)] ;;
     Ok (Some op)).
Proof.
  destruct (@get_proximal_passes_sigma_at_most Q Examples.construct_L1
              Examples.estimator_TV 1 "L1" 0%Q false
              eq_refl eq_refl eq_refl eq_refl) as [[E _]|[_ [params [Hp H]]]].
  - discriminate E.
  - destruct Hp as [-> | ->]; [exact H|].
    exfalso. vm_compute in H. discriminate H.
Defined.

Lemma map_result_nth {A B} (f : A -> result B) (l : list A) (r : list B) :
  map_result f l = Ok r ->
  length r = length l /\
  forall k a, nth_error l k = Some a ->
              exists b, nth_error r k = Some b /\ f a = Ok b.
Proof.
  revert r. induction l as [|x l IH]; intros r H.
  - cbn in H. injection H as <-. split; [reflexivity|].
    intros [|k] a Hk; discriminate Hk.
  - cbn [map_result] in H.
    destruct (f x) as [b|e] eqn:Hx; cbn [bind] in H; [|discriminate].
    destruct (map_result f l) as [bs|e]; cbn [bind] in H; [|discriminate].
    injection H as <-. destruct (IH bs eq_refl) as [Hlen Hnth].
    split; [cbn; now rewrite Hlen|].
    intros [|k] a Hk.
    + injection Hk as <-. exists b. now split.
    + cbn in Hk. cbn. now apply Hnth.
Qed.

(** X5.  When [_check_params] succeeds, [self.proximal_operators] has one
    entry per view, and the entry of a view is [None] exactly when the
    view's [proximal] is a name missing from [PROXIMAL_OPERATORS], an
    object that is neither a name nor callable, or a callable that itself
    returned [None] when called with [proximal_params[view] or {}]. *)
Theorem check_params_one_entry_per_view
  (F : Type)
  (construct : string -> LinearAltMaxVar.kwargs (F := F)
               -> result (LinearAltMaxVar.ProxOp (F := F)))
  (self : LinearAltMaxVar.AltMaxVar (F := F))
  (ops : list (option (LinearAltMaxVar.ProxOp (F := F)))) :
  LinearAltMaxVar._check_params construct self = Ok ops ->
  length ops = LinearAltMaxVar.n_views_ self /\
  forall view p,
    view < LinearAltMaxVar.n_views_ self ->
    nth_error (LinearAltMaxVar.proximal self) view = Some p ->
    exists o,
      nth_error ops view = Some o /\
      (o = None <->
       p = LinearAltMaxVar.POther \/
       (exists s, p = LinearAltMaxVar.PName s /\
                  LinearAltMaxVar.mem s LinearAltMaxVar.PROXIMAL_OPERATORS
                  = false) \/
       (exists f pp d,
           p = LinearAltMaxVar.PCallable f /\
           LinearAltMaxVar.proximal_params self = Some pp /\
           nth_error pp view = Some d /\
           f (match d with Some k => k | None => [] end) = Ok None)).
Proof.
  intros H. unfold LinearAltMaxVar._check_params in H.
  apply map_result_nth in H. destruct H as [Hlen Hnth].
  rewrite length_seq in Hlen. split; [exact Hlen|].
  intros view p Hview Hp.
  assert (Hseq : nth_error (seq 0 (LinearAltMaxVar.n_views_ self)) view
                 = Some view).
  { rewrite (nth_error_nth' _ 0) by (now rewrite length_seq).
    now rewrite seq_nth. }
  destruct (Hnth view view Hseq) as [o [Ho Hget]].
  exists o. split; [exact Ho|].
  unfold LinearAltMaxVar._get_proximal, index in Hget.
  rewrite Hp in Hget. cbn [bind] in Hget.
  destruct p as [s|f|].
  - destruct (nth_error (LinearAltMaxVar.sigma self) view);
      cbn [bind] in Hget; [|discriminate].
    destruct (nth_error (LinearAltMaxVar.positive self) view);
      cbn [bind] in Hget; [|discriminate].
    unfold LinearAltMaxVar._proximal_operators in Hget.
    destruct (LinearAltMaxVar.mem s LinearAltMaxVar.PROXIMAL_OPERATORS) eqn:Hm.
    + destruct (LinearAltMaxVar.filter_kwargs s _) as [params|e];
        cbn [bind] in Hget; [|discriminate].
      destruct (construct s params) as [op|e]; cbn [bind] in Hget;
        [|discriminate].
      injection Hget as <-. split; [discriminate|].
      intros [E|[[s' [E Hm']]|[f0 [pp [d [E _]]]]]]; try discriminate.
      injection E as <-. congruence.
    + injection Hget as <-. split; [|reflexivity].
      intros _. right. left. exists s. now split.
  - destruct (LinearAltMaxVar.proximal_params self) as [pp|] eqn:Hpp;
      cbn [bind] in Hget; [|discriminate].
    destruct (nth_error pp view) as [d|] eqn:Hd; cbn [bind] in Hget;
      [|discriminate].
    unfold LinearAltMaxVar._proximal_operators in Hget.
    split.
    + intros ->. right. right. exists f, pp, d. repeat split; assumption.
    + intros [E|[[s' [E _]]|[f' [pp' [d' [E [Epp [Ed Hf]]]]]]]];
        try discriminate.
      injection E as <-. injection Epp as <-.
      rewrite Hd in Ed. injection Ed as <-. congruence.
  - destruct (nth_error (LinearAltMaxVar.sigma self) view);
      cbn [bind] in Hget; [|discriminate].
    destruct (nth_error (LinearAltMaxVar.positive self) view);
      cbn [bind] in Hget; [|discriminate].
    cbn in Hget. injection Hget as <-. split; [|reflexivity].
    intros _. now left.
Qed.

Lemma check_params_one_entry_per_view_witness :
  exists ops,
    LinearAltMaxVar._check_params Examples.construct_L1 Examples.estimator_TV
    = Ok ops /\ length ops = 2 /\ nth_error ops 0 = Some None.
Proof.
  destruct (LinearAltMaxVar._check_params Examples.construct_L1
              Examples.estimator_TV) as [ops|e] eqn:E.
  - destruct (@check_params_one_entry_per_view Q Examples.construct_L1
                Examples.estimator_TV ops E) as [Hlen Hnth].
    exists ops. split; [reflexivity|]. split; [exact Hlen|].
    destruct (Hnth 0 (LinearAltMaxVar.PName "TV")
                (le_S _ _ (le_n 1)) eq_refl) as [o [Ho Hiff]].
    rewrite Ho. f_equal. apply Hiff. right. left.
    exists "TV"%string. split; reflexivity.
  - vm_compute in E. discriminate E.
Defined.

(* ================================================================== *)
(** ** The inner loop of models/_iterative/_altmaxvar.py *)

Section ModelsLoopFacts.
Context {F : Type} `{NF : Num F}.
Import ModelsAltMaxVar.

(** What an update of the views leaves alone. *)
Lemma update_view_frame (self self' : _AltMaxVarLoop (F := F)) views i :
  _update_view self views i = Ok self' ->
  scores self' = scores self /\ G self' = G self /\
  view_regs self' = view_regs self /\ tol self' = tol self /\
  track_objective self' = track_objective self /\
  length (weights self') = length (weights self).
Proof.
  unfold _update_view. intros H.
  destruct (index (view_regs self) i) as [reg|]; cbn [bind] in H; [|discriminate].
  destruct (index views i) as [view|]; cbn [bind] in H; [|discriminate].
  destruct (G self) as [g|] eqn:HG; cbn [bind] in H; [|discriminate].
  destruct (index (weights self) i) as [w|]; cbn [bind] in H; [|discriminate].
  destruct (reg view g w) as [w'|]; cbn [bind] in H; [|discriminate].
  injection H as <-. cbn. rewrite length_set_nth. now rewrite HG.
Qed.

Lemma update_views_frame views idxs :
  forall self self' : _AltMaxVarLoop (F := F),
  update_views self views idxs = Ok self' ->
  scores self' = scores self /\ G self' = G self /\
  view_regs self' = view_regs self /\ tol self' = tol self /\
  track_objective self' = track_objective self /\
  length (weights self') = length (weights self).
Proof.
  induction idxs as [|i rest IH]; intros self self' H.
  - injection H as <-. repeat split.
  - cbn [update_views] in H.
    destruct (count_nan (scores self) =? 0).
    + destruct (_update_view self views i) as [s1|] eqn:E; cbn [bind] in H;
        [|discriminate].
      apply update_view_frame in E. apply IH in H.
      destruct E as (E1 & E2 & E3 & E4 & E5 & E6).
      destruct H as (H1 & H2 & H3 & H4 & H5 & H6).
      repeat split; congruence.
    + cbn [bind] in H. now apply IH.
Qed.

End ModelsLoopFacts.

(** X6.  An inner iteration of models/_iterative/_altmaxvar.py never
    writes [self.scores]: after it the scores are the ones it started
    from, the target is [U @ Vt] of their sum, and a second iteration
    computes the very same target again. *)
Theorem models_inner_iteration_recomputes_same_target
  (F : Type) (NF : Num F) (svd : svd_routine F)
  (self s1 s2 : ModelsAltMaxVar._AltMaxVarLoop (F := F))
  (views : list (Matrix F)) :
  ModelsAltMaxVar._inner_iteration svd self views = Ok s1 ->
  ModelsAltMaxVar._inner_iteration svd s1 views = Ok s2 ->
  ModelsAltMaxVar.scores s1 = ModelsAltMaxVar.scores self /\
  (exists U S Vt,
      svd (sum_axis0 (ModelsAltMaxVar.scores self)) = Ok (U, S, Vt) /\
      ModelsAltMaxVar.G s1 = Some (matmul U Vt)) /\
  ModelsAltMaxVar.scores s2 = ModelsAltMaxVar.scores self /\
  ModelsAltMaxVar.G s2 = ModelsAltMaxVar.G s1 /\
  length (ModelsAltMaxVar.weights s2)
  = length (ModelsAltMaxVar.weights self).
Proof.
  unfold ModelsAltMaxVar._inner_iteration, ModelsAltMaxVar._update_target.
  intros H1 H2.
  destruct (svd (sum_axis0 (ModelsAltMaxVar.scores self)))
    as [[[U S] Vt]|] eqn:Hsvd; cbn [bind] in H1; [|discriminate].
  apply update_views_frame in H1. cbn in H1.
  destruct H1 as (Hs1 & HG1 & _ & _ & _ & Hw1).
  rewrite Hs1, Hsvd in H2. cbn [bind] in H2.
  apply update_views_frame in H2. cbn in H2.
  destruct H2 as (Hs2 & HG2 & _ & _ & _ & Hw2).
  split; [exact Hs1|]. split; [exists U, S, Vt; now split|].
  split; [congruence|]. split; congruence.
Qed.

Lemma models_inner_iteration_recomputes_same_target_witness :
  exists s1 s2,
    ModelsAltMaxVar._inner_iteration Examples.svd34_np Examples.finite_loop
      Examples.np_views = Ok s1 /\
    ModelsAltMaxVar._inner_iteration Examples.svd34_np s1
      Examples.np_views = Ok s2 /\
    ModelsAltMaxVar.scores s2
    = ModelsAltMaxVar.scores Examples.finite_loop /\
    ModelsAltMaxVar.G s2 = ModelsAltMaxVar.G s1.
Proof.
  pose proof (@models_inner_iteration_recomputes_same_target
                npfloat _ Examples.svd34_np Examples.finite_loop _ _
                Examples.np_views eq_refl eq_refl) as H.
  eexists. eexists.
  split; [reflexivity|]. split; [reflexivity|].
  destruct H as (_ & _ & H3 & H4 & _). split; [exact H3 | exact H4].
Defined.

(** X7.  [_AltMaxVarLoop._early_stop] tests the signed decrease: for
    objectives that are finite numbers (no NaN, no inf), as soon as the
    objective has not gone down ([a <= b] for the last two entries [a],
    [b]), it returns [True], whatever [tol] is. *)
Theorem models_early_stop_when_objective_rises
  (F : Type) (self : ModelsAltMaxVar._AltMaxVarLoop (F := F))
  (l : list R) (a b : R) :
  ModelsAltMaxVar.track_objective self = l ++ [a; b] ->
  (a <= b)%R ->
  ModelsAltMaxVar._early_stop self = Ok true.
Proof.
  intros Htrack Hab.
  apply (altmaxvar_early_stop_iff self l a b Htrack). lra.
Qed.

Lemma models_early_stop_when_objective_rises_witness :
  ModelsAltMaxVar._early_stop Examples2.rising_loop = Ok true.
Proof.
  apply (@models_early_stop_when_objective_rises Q Examples2.rising_loop
           [] 1%R 2%R eq_refl).
  lra.
Defined.

(** X8.  [_ElasticInnerLoop._early_stop] compares an absolute value with
    [tol] strictly: with [tol <= 0] it returns [False] on every trace of
    two or more objectives, also when the objective has stopped moving. *)
Theorem elastic_early_stop_never_with_nonpositive_tol
  (regressor : Type) (self : Elastic._ElasticInnerLoop regressor)
  (l : list R) (a b : R) :
  Elastic.track_objective self = l ++ [a; b] ->
  (Elastic.tol self <= 0)%R ->
  Elastic._early_stop self = Ok false.
Proof.
  intros Htrack Htol.
  destruct (Elastic._early_stop self) as [[|]|e] eqn:E.
  - apply (elastic_early_stop_iff self l a b Htrack) in E.
    pose proof (Rabs_pos (a - b)). lra.
  - reflexivity.
  - unfold Elastic._early_stop in E. rewrite Htrack in E.
    destruct (py_index_last_two l a b) as [Ha Hb].
    rewrite Ha, Hb in E. discriminate E.
Qed.

Lemma elastic_early_stop_never_with_nonpositive_tol_witness :
  Elastic._early_stop Examples2.still_loop = Ok false.
Proof.
  apply (@elastic_early_stop_never_with_nonpositive_tol unit
           Examples2.still_loop [] 1%R 1%R eq_refl).
  cbn. lra.
Defined.

Lemma py_index_minus_two_short {A} (l : list A) :
  length l < 2 -> py_index l (-2) = Raise IndexError.
Proof.
  intros H. unfold py_index. cbn [Z.ltb Z.compare].
  destruct l as [|x [|y l]]; cbn in *; try reflexivity. lia.
Qed.

(** X9.  Both [_early_stop] methods subscript the objective trace with
    [-2]: on a trace of fewer than two objectives (after the first
    iteration) they raise [IndexError]. *)
Theorem early_stop_on_short_trace_raises
  (F regressor : Type)
  (loop : ModelsAltMaxVar._AltMaxVarLoop (F := F))
  (eloop : Elastic._ElasticInnerLoop regressor) :
  length (ModelsAltMaxVar.track_objective loop) < 2 ->
  length (Elastic.track_objective eloop) < 2 ->
  ModelsAltMaxVar._early_stop loop = Raise IndexError /\
  Elastic._early_stop eloop = Raise IndexError.
Proof.
  intros H1 H2.
  unfold ModelsAltMaxVar._early_stop, Elastic._early_stop.
  now rewrite !py_index_minus_two_short.
Qed.

Lemma early_stop_on_short_trace_raises_witness :
  ModelsAltMaxVar._early_stop Examples.models_loop34 = Raise IndexError /\
  Elastic._early_stop Examples2.first_iteration_loop = Raise IndexError.
Proof.
  apply (@early_stop_on_short_trace_raises R unit Examples.models_loop34
           Examples2.first_iteration_loop); cbn; lia.
Defined.

(* ================================================================== *)
(** ** The updates of the elastic loop *)

Section ElasticUpdateFacts.
Local Open Scope R_scope.
Import Elastic.

Variable regressor : Type.
Variable fit : regressor -> Matrix R -> Vector R -> regressor * Vector R.

(** An update that returned finite arrays wrote entry [view_index] of
    the scores, the weights and the regressors, and nothing else. *)
Lemma elastic_update_view_result (self self' : _ElasticInnerLoop regressor)
  (views : list (Matrix R)) (i : nat) :
  _update_view fit self views i = Ok (Finite self') ->
  exists X w r,
    nth_error views i = Some X /\
    (i < length (scores self))%nat /\ (i < length (weights self))%nat /\
    self' = {| maxvar := maxvar self; n := n self;
               scores := set_nth (scores self) i (matvec X w);
               weights := set_nth (weights self) i w;
               regressors := set_nth (regressors self) i r;
               tol := tol self;
               track_objective := track_objective self |}.
Proof.
  unfold _update_view. intros H.
  destruct (select_target self i) as [[t| |]|]; cbn [bind] in H;
    try discriminate H;
    try (destruct (index views i); cbn [bind] in H; [|discriminate H];
         destruct (index (regressors self) i); cbn [bind] in H;
         discriminate H).
  unfold solve_and_store, _elastic_solver in H.
  unfold index at 1 in H.
  destruct (nth_error views i) as [X|] eqn:HX; cbn [bind] in H;
    [|discriminate].
  destruct (index (regressors self) i) as [r|]; cbn [bind] in H;
    [|discriminate].
  destruct (fit r X t) as [r' coef]. cbn [bind] in H.
  destruct (index (weights self) i) as [w0|] eqn:Hw; cbn [bind] in H;
    [|discriminate].
  apply index_Ok_lt in Hw.
  assert (Hstore : forall w s,
             store_view self (set_nth (regressors self) i r') X i w = Ok s ->
             (i < length (scores self))%nat /\
             s = {| maxvar := maxvar self; n := n self;
                    scores := set_nth (scores self) i (matvec X w);
                    weights := set_nth (weights self) i w;
                    regressors := set_nth (regressors self) i r';
                    tol := tol self;
                    track_objective := track_objective self |}).
  { intros w s Hs. unfold store_view in Hs.
    destruct (index (scores self) i) as [s0|] eqn:Hsc; cbn [bind] in Hs;
      [|discriminate].
    apply index_Ok_lt in Hsc. injection Hs as <-. now split. }
  destruct (maxvar self).
  - destruct (store_view self _ X i coef) as [s|] eqn:Hs; cbn [bind] in H;
      [|discriminate].
    injection H as <-. destruct (Hstore _ _ Hs) as [Hlt ->].
    exists X, coef, r'. repeat split; assumption.
  - destruct (_check_converged_weights coef i); cbn [bind] in H;
      [|discriminate].
    destruct (rescale coef _ _) as [w'| |];
      try (unfold store_non_finite in H;
           destruct (index (scores self) i); discriminate H).
    destruct (store_view self _ X i w') as [s|] eqn:Hs; cbn [bind] in H;
      [|discriminate].
    injection H as <-. destruct (Hstore _ _ Hs) as [Hlt ->].
    exists X, w', r'. repeat split; assumption.
Qed.

End ElasticUpdateFacts.

(** X10.  In MAXVAR mode (exact real arithmetic, [n >= 1]), when the
    mean [m] of the scores is not the zero vector, the regression target
    is [m / d] with [d = ||m|| / sqrt n > 0], for every view index: the
    mean score rescaled to the norm [sqrt n]. *)
Theorem maxvar_target_is_mean_rescaled_to_sqrt_n
  (regressor : Type) (self : Elastic._ElasticInnerLoop regressor) (i : nat) :
  Elastic.maxvar self = true ->
  0 < Elastic.n self ->
  Elastic.norm (Elastic.vmean (Elastic.scores self)) <> 0%R ->
  let m := Elastic.vmean (Elastic.scores self) in
  let d := (Elastic.norm m / sqrt (INR (Elastic.n self)))%R in
  (0 < d)%R /\
  Elastic.select_target self i
  = Ok (Elastic.Finite (map (fun x => (x / d)%R) m)) /\
  Elastic.norm (map (fun x => (x / d)%R) m) = sqrt (INR (Elastic.n self)).
Proof.
  intros Hmv Hn Hnorm m d.
  assert (Hsq : (0 < sqrt (INR (Elastic.n self)))%R)
    by (apply sqrt_lt_R0; now apply lt_0_INR).
  assert (Hpos : (0 < Elastic.norm m)%R).
  { pose proof (norm_nonneg m). unfold m in *. lra. }
  assert (Hd : (0 < d)%R) by (now apply Rdiv_lt_0_compat).
  split; [exact Hd|]. split.
  - unfold Elastic.select_target. rewrite Hmv. fold m.
    now rewrite rescale_positive by assumption.
  - rewrite norm_scale by exact Hd. unfold d. field. lra.
Qed.

Lemma maxvar_mean2_norm_nonzero :
  Elastic.norm (Elastic.vmean (Elastic.scores Examples2.maxvar_loop2)) <> 0%R.
Proof.
  apply Rgt_not_eq, sqrt_lt_R0. cbn. lra.
Defined.

(** The mean score [[2; -2]] has norm [2 * sqrt 2]; the target has norm
    [sqrt 2]. *)
Lemma maxvar_target_is_mean_rescaled_to_sqrt_n_witness :
  exists t,
    Elastic.select_target Examples2.maxvar_loop2 0
    = Ok (Elastic.Finite t) /\
    Elastic.norm t = sqrt (INR 2) /\
    t = map (fun x =>
               (x / (Elastic.norm
                       (Elastic.vmean (Elastic.scores Examples2.maxvar_loop2))
                     / sqrt (INR 2)))%R)
            (Elastic.vmean (Elastic.scores Examples2.maxvar_loop2)).
Proof.
  pose proof (@maxvar_target_is_mean_rescaled_to_sqrt_n unit
                Examples2.maxvar_loop2 0
                eq_refl (le_S _ _ (le_n 1)) maxvar_mean2_norm_nonzero) as H.
  cbv zeta in H. destruct H as [_ [H1 H2]].
  eexists. split; [exact H1|]. split; [exact H2|reflexivity].
Defined.

(** X11.  In MAXVAR mode, when the scores (of at least one sample)
    average to the zero vector, the rescaling divides by zero: the
    regression target that the update hands to the solver is not finite,
    for every view index and every [n]. *)
Theorem maxvar_target_with_zero_mean_is_non_finite
  (regressor : Type) (self : Elastic._ElasticInnerLoop regressor) (i : nat) :
  Elastic.maxvar self = true ->
  Elastic.vmean (Elastic.scores self) <> [] ->
  Elastic.norm (Elastic.vmean (Elastic.scores self)) = 0%R ->
  Elastic.select_target self i = Ok Elastic.NonFinite.
Proof.
  intros Hmv Hne Hnorm.
  unfold Elastic.select_target. rewrite Hmv, Hnorm.
  now rewrite rescale_zero_norm.
Qed.

Lemma cancelling_mean_norm_zero :
  Elastic.norm (Elastic.vmean (Elastic.scores Examples2.cancelling_loop))
  = 0%R.
Proof.
  unfold Elastic.norm. rewrite <- sqrt_0. f_equal. cbn. lra.
Defined.

Lemma maxvar_target_with_zero_mean_is_non_finite_witness :
  Elastic.select_target Examples2.cancelling_loop 0 = Ok Elastic.NonFinite.
Proof.
  apply (@maxvar_target_with_zero_mean_is_non_finite unit
           Examples2.cancelling_loop 0 eq_refl).
  - cbn. discriminate.
  - exact cancelling_mean_norm_zero.
Defined.

(** X12.  An update of view [i] that returns finite arrays changes entry
    [i] of the scores and of the weights and no other entry, keeps the
    number of entries and the settings, and leaves the stored score of
    view [i] equal to [views[i] @ weights[i]]. *)
Theorem elastic_update_touches_one_view
  (regressor : Type)
  (fit : regressor -> Matrix R -> Vector R -> regressor * Vector R)
  (self self' : Elastic._ElasticInnerLoop regressor)
  (views : list (Matrix R)) (i : nat) :
  Elastic._update_view fit self views i = Ok (Elastic.Finite self') ->
  Elastic.maxvar self' = Elastic.maxvar self /\
  Elastic.n self' = Elastic.n self /\
  Elastic.tol self' = Elastic.tol self /\
  Elastic.track_objective self' = Elastic.track_objective self /\
  length (Elastic.scores self') = length (Elastic.scores self) /\
  length (Elastic.weights self') = length (Elastic.weights self) /\
  length (Elastic.regressors self') = length (Elastic.regressors self) /\
  (forall j, j <> i ->
     nth j (Elastic.scores self') [] = nth j (Elastic.scores self) [] /\
     nth j (Elastic.weights self') [] = nth j (Elastic.weights self) [] /\
     nth_error (Elastic.regressors self') j
     = nth_error (Elastic.regressors self) j) /\
  exists X,
    nth_error views i = Some X /\
    nth i (Elastic.scores self') []
    = matvec X (nth i (Elastic.weights self') []).
Proof.
  intros H. apply elastic_update_view_result in H.
  destruct H as (X & w & r & HX & Hs & Hw & ->). cbn.
  rewrite !length_set_nth.
  repeat split; try reflexivity.
  - apply nth_set_nth_other. congruence.
  - apply nth_set_nth_other. congruence.
  - clear -H. revert i j H.
    induction (Elastic.regressors self) as [|x l IH]; intros [|i] [|j] Hij;
      cbn; try reflexivity; try congruence.
    apply IH. congruence.
  - exists X. split; [exact HX|].
    now rewrite !nth_set_nth_same.
Qed.

Lemma elastic_update_touches_one_view_witness :
  exists self',
    Elastic._update_view Examples.fit00 Examples.maxvar_loop
      [Examples.full_view; Examples.full_view] 0
    = Ok (Elastic.Finite self') /\
    nth 1 (Elastic.scores self') [] = [1; -1]%R /\
    nth 0 (Elastic.scores self') []
    = matvec Examples.full_view (nth 0 (Elastic.weights self') []).
Proof.
  destruct (Elastic._update_view Examples.fit00 Examples.maxvar_loop
              [Examples.full_view; Examples.full_view] 0)
    as [[self'| |]|e] eqn:E.
  - destruct (@elastic_update_touches_one_view unit Examples.fit00
                Examples.maxvar_loop self'
                [Examples.full_view; Examples.full_view] 0 E)
      as (_ & _ & _ & _ & _ & _ & _ & Hother & X & HX & Hscore).
    exists self'. split; [reflexivity|]. split.
    + exact (proj1 (Hother 1 (fun E1 : 1 = 0 => O_S 0 (eq_sym E1)))).
    + injection HX as <-. exact Hscore.
  - exfalso. unfold Elastic._update_view in E.
    rewrite maxvar_target_selected in E. discriminate E.
  - exfalso. unfold Elastic._update_view in E.
    rewrite maxvar_target_selected in E. discriminate E.
  - exfalso. unfold Elastic._update_view in E.
    rewrite maxvar_target_selected in E. discriminate E.
Defined.

(** X13.  In SUMCOR mode the views are updated one after the other on
    fresh scores: after a finite update of view [i], the target of view
    [i + 1] is the score [views[i] @ weights[i]] that the update has
    just stored. *)
Theorem sumcor_next_target_is_fresh_score
  (regressor : Type)
  (fit : regressor -> Matrix R -> Vector R -> regressor * Vector R)
  (self self' : Elastic._ElasticInnerLoop regressor)
  (views : list (Matrix R)) (i : nat) :
  Elastic.maxvar self = false ->
  Elastic._update_view fit self views i = Ok (Elastic.Finite self') ->
  exists X,
    nth_error views i = Some X /\
    Elastic.select_target self' (S i)
    = Ok (Elastic.Finite (matvec X (nth i (Elastic.weights self') []))).
Proof.
  intros Hmv H. apply elastic_update_view_result in H.
  destruct H as (X & w & r & HX & Hs & Hw & ->).
  exists X. split; [exact HX|].
  unfold Elastic.select_target. cbn [Elastic.maxvar Elastic.scores
                                     Elastic.weights].
  rewrite Hmv. unfold py_index.
  replace (Z.of_nat (S i) - 1)%Z with (Z.of_nat i) by lia.
  replace (Z.of_nat i <? 0)%Z with false by (symmetry; apply Z.ltb_ge; lia).
  rewrite Nat2Z.id.
  rewrite index_set_nth_same by exact Hs. cbn [bind].
  now rewrite nth_set_nth_same.
Qed.

Lemma sumcor_example_update_is_finite :
  exists self',
    Elastic._update_view Examples.fit11 Examples.sumcor_loop
      [Examples.full_view; Examples.full_view; Examples.full_view] 0
    = Ok (Elastic.Finite self').
Proof.
  rewrite (@sumcor_update_unfold unit Examples.fit11 Examples.sumcor_loop
             [Examples.full_view; Examples.full_view; Examples.full_view]
             0 Examples.full_view tt tt [1; 1]%R
             eq_refl (le_S _ _ (le_S _ _ (le_n 1)))
             (le_S _ _ (le_S _ _ (le_n 1))) eq_refl eq_refl eq_refl).
  unfold Elastic._check_converged_weights. rewrite all_zero_11. cbn [bind].
  assert (Hsq : (0 < sqrt (INR (Elastic.n Examples.sumcor_loop)))%R)
    by (apply sqrt_lt_R0; cbn; lra).
  assert (Hn : (0 < Elastic.norm (matvec Examples.full_view [1; 1]))%R).
  { pose proof (norm_nonneg (matvec Examples.full_view [1; 1]%R)).
    pose proof sqrt2_projection_nonzero. lra. }
  rewrite rescale_positive by assumption.
  eexists. reflexivity.
Defined.

Lemma sumcor_next_target_is_fresh_score_witness :
  exists self',
    Elastic._update_view Examples.fit11 Examples.sumcor_loop
      [Examples.full_view; Examples.full_view; Examples.full_view] 0
    = Ok (Elastic.Finite self') /\
    Elastic.select_target self' 1
    = Ok (Elastic.Finite
            (matvec Examples.full_view (nth 0 (Elastic.weights self') []))).
Proof.
  destruct sumcor_example_update_is_finite as [self' H1].
  exists self'. split; [exact H1|].
  destruct (@sumcor_next_target_is_fresh_score unit Examples.fit11
              Examples.sumcor_loop self'
              [Examples.full_view; Examples.full_view; Examples.full_view]
              0 eq_refl H1) as [X [HX Hsel]].
  injection HX as <-. exact Hsel.
Defined.

(* ================================================================== *)
(** ** Centring and [transform] *)

Section CentreFacts.
Local Open Scope R_scope.
Import Transform.

Lemma nth_zip_with_sub (row mean : Vector R) j :
  (j < length row)%nat -> (j < length mean)%nat ->
  nth j (zip_with Rminus row mean) 0 = nth j row 0 - nth j mean 0.
Proof.
  revert mean j. induction row as [|a row IH]; intros [|b mean] [|j];
    cbn; intros H1 H2; try lia; try reflexivity.
  apply IH; lia.
Qed.

Lemma length_zip_with {A B C} (f : A -> B -> C) l l' :
  length (zip_with f l l') = Nat.min (length l) (length l').
Proof.
  revert l'. induction l as [|a l IH]; intros [|b l']; cbn; auto.
Qed.

Lemma shape_centre m n (view : Matrix R) (mean : Vector R) :
  shape_is m n view -> length mean = n -> shape_is m n (centre view mean).
Proof.
  intros [Hlen Hrows] Hmean. unfold centre. split.
  - now rewrite length_map.
  - apply Forall_forall. intros r Hr. apply in_map_iff in Hr.
    destruct Hr as [row [<- Hin]].
    rewrite Forall_forall in Hrows. cbn [sub Num_R].
    rewrite length_zip_with, (Hrows _ Hin), Hmean. apply Nat.min_id.
Qed.

Lemma get_centre m n (view : Matrix R) (mean : Vector R) i j :
  shape_is m n view -> length mean = n -> (i < m)%nat -> (j < n)%nat ->
  get (centre view mean) i j = get view i j - nth j mean 0.
Proof.
  intros [Hlen Hrows] Hmean Hi Hj. unfold get, centre.
  cbn [sub Num_R zero].
  replace (nth i (map (fun row => zip_with Rminus row mean) view) [])
    with (zip_with Rminus (nth i view []) mean)
    by (symmetry;
        apply (map_nth (fun row => zip_with Rminus row mean) view [] i)).
  assert (Hrow : length (nth i view []) = n).
  { rewrite Forall_forall in Hrows. apply Hrows, nth_In. lia. }
  apply nth_zip_with_sub; lia.
Qed.

Lemma Rsum_const m (c : R) : sumn m (fun _ => c) = INR m * c.
Proof.
  induction m as [|m IH]; [cbn; lra|].
  rewrite Rsum_S, IH, S_INR. lra.
Qed.

Lemma map_seq_const {A} (f : nat -> A) (c : A) n :
  (forall j, (j < n)%nat -> f j = c) -> map f (seq 0 n) = repeat c n.
Proof.
  induction n as [|n IH]; intros H; [reflexivity|].
  rewrite seq_S, map_app, IH by (intros; apply H; lia).
  cbn [map Nat.add]. rewrite H by lia.
  now rewrite <- repeat_cons.
Qed.

Lemma length_column_means (view : Matrix R) :
  length (column_means view) = ncols view.
Proof. unfold column_means. now rewrite length_map, length_seq. Qed.

Lemma nth_column_means (view : Matrix R) j :
  (j < ncols view)%nat ->
  nth j (column_means view) 0
  = sumn (nrows view) (fun i => get view i j) / INR (nrows view).
Proof.
  intros Hj. unfold column_means. cbn [div of_int Frac_R].
  rewrite <- INR_IZR_INZ.
  set (g := fun j0 => sumn (nrows view) (fun i => get view i j0)
                      / INR (nrows view)).
  rewrite (nth_indep _ 0 (g 0%nat)) by (now rewrite length_map, length_seq).
  rewrite (map_nth g (seq 0 (ncols view)) 0%nat j).
  now rewrite seq_nth.
Qed.

(** A centred view has zero column means. *)
Lemma column_means_centre m n (view : Matrix R) :
  (0 < m)%nat -> shape_is m n view ->
  column_means (centre view (column_means view)) = repeat 0 n.
Proof.
  intros Hm Hshape.
  pose proof (ncols_shape Hshape Hm) as Hn.
  assert (Hmean : length (column_means view) = n)
    by (now rewrite length_column_means).
  pose proof (@shape_centre m n view _ Hshape Hmean) as Hc.
  unfold column_means at 1.
  rewrite (ncols_shape Hc Hm). unfold nrows at 1 2.
  destruct Hc as [Hclen Hcrows]. rewrite Hclen.
  apply map_seq_const. intros j Hj.
  cbn [div of_int Frac_R]. rewrite <- INR_IZR_INZ.
  rewrite (sumn_ext _ (fun i => get view i j
                               + - nth j (column_means view) 0)).
  2:{ intros i Hi. rewrite (@get_centre m n view _ i j Hshape Hmean Hi Hj). lra. }
  rewrite Rsum_plus, Rsum_const.
  rewrite nth_column_means by (now rewrite Hn).
  unfold nrows. destruct Hshape as [-> _].
  assert (INR m <> 0) by (apply not_0_INR; lia).
  field. assumption.
Qed.

End CentreFacts.

(** X14.  [demean_data] returns one training view per view, of the same
    shape, whose columns all have mean zero, and stores the column means
    it removed. *)
Theorem demean_data_centres_every_column
  (self : Transform._CCA_Base (F := R)) (views : list (Matrix R))
  (k : nat) (view : Matrix R) :
  nth_error views k = Some view ->
  0 < nrows view ->
  shape_is (nrows view) (ncols view) view ->
  exists train_view,
    nth_error (fst (Transform.demean_data self views)) k = Some train_view /\
    shape_is (nrows view) (ncols view) train_view /\
    Transform.column_means train_view = repeat 0%R (ncols view) /\
    (mean <- match Transform.view_means
                     (snd (Transform.demean_data self views)) with
             | Some m => index m k
             | None => Raise AttributeError
             end ;;
     Ok (Transform.centre view mean)) = Ok train_view.
Proof.
  intros Hk Hm Hshape.
  exists (Transform.centre view (Transform.column_means view)).
  cbn [Transform.demean_data fst snd Transform.view_means].
  split; [now rewrite nth_error_map, Hk|].
  split; [apply shape_centre; [exact Hshape|apply length_column_means]|].
  split; [now apply (@column_means_centre (nrows view) (ncols view) view Hm Hshape)|].
  unfold index. now rewrite nth_error_map, Hk.
Qed.

Lemma demean_data_centres_every_column_witness :
  exists train_view,
    nth_error (fst (Transform.demean_data (Transform.init 1)
                      [[[1; 2]; [3; 4]]%R])) 0 = Some train_view /\
    Transform.column_means train_view = [0; 0]%R.
Proof.
  destruct (@demean_data_centres_every_column (Transform.init 1)
              [[[1; 2]; [3; 4]]%R] 0 [[1; 2]; [3; 4]]%R eq_refl
              (le_S _ _ (le_n 1))
              (conj eq_refl
                 (Forall_cons [1; 2]%R eq_refl
                    (Forall_cons [3; 4]%R eq_refl (Forall_nil _)))))
    as [tv [H1 [_ [H3 _]]]].
  exists tv. split; [exact H1 | exact H3].
Defined.

Section TransformMore.
Context {F : Type} `{NF : Num F} `{FF : Frac F}.
Import Transform.

Lemma transform_of_centred_from (M0 : list (Vector F)) (W0 : list (Matrix F)) :
  forall (views : list (Matrix F)) (ws : list (Matrix F)),
  length M0 = length W0 -> length views <= length ws ->
  map (fun vi => matmul (centre (fst vi)
                           (nth (snd vi) (M0 ++ map column_means views) []))
                        (nth (snd vi) (W0 ++ ws) []))
      (combine views (seq (length M0) (length views)))
  = zip_with matmul (map (fun view => centre view (column_means view)) views)
             ws.
Proof.
  intros views. revert M0 W0.
  induction views as [|v rest IH]; intros M0 W0 ws HMW Hlen; [reflexivity|].
  destruct ws as [|w ws]; [cbn in Hlen; lia|].
  cbn [length seq combine map zip_with fst snd].
  rewrite nth_middle. rewrite HMW at 1. rewrite nth_middle.
  f_equal.
  replace (M0 ++ column_means v :: map column_means rest)
    with ((M0 ++ [column_means v]) ++ map column_means rest)
    by (now rewrite <- app_assoc).
  replace (W0 ++ w :: ws) with ((W0 ++ [w]) ++ ws)
    by (now rewrite <- app_assoc).
  replace (S (length M0)) with (length (M0 ++ [column_means v]))
    by (rewrite length_app; cbn; lia).
  apply IH.
  - rewrite !length_app. cbn. lia.
  - cbn in Hlen. lia.
Qed.

End TransformMore.

(** X15.  After [demean_data] on the training views and a fit that
    stores one weight matrix per view, [transform] of the same views
    returns the centred training views times the weights: the means
    removed at transform time are the ones removed before the fit. *)
Theorem transform_of_training_views_is_centred_product
  (F : Type) (NF : Num F) (FF : Frac F)
  (self : Transform._CCA_Base (F := F))
  (views ws : list (Matrix F)) :
  length views <= length ws ->
  Transform.transform
    {| Transform.weights_list := Some ws;
       Transform.view_means :=
         Transform.view_means (snd (Transform.demean_data self views));
       Transform.latent_dims := Transform.latent_dims self |}
    views None
  = Ok (zip_with matmul (fst (Transform.demean_data self views)) ws).
Proof.
  intros Hlen.
  cbn [Transform.demean_data fst snd Transform.view_means].
  rewrite (@base_transform_after_fit F NF
             {| Transform.weights_list := Some ws;
                Transform.view_means :=
                  Some (map Transform.column_means views);
                Transform.latent_dims := Transform.latent_dims self |}
             (map Transform.column_means views) ws views eq_refl eq_refl)
    by (rewrite ?length_map; lia).
  f_equal.
  exact (@transform_of_centred_from F NF FF [] [] views ws eq_refl Hlen).
Qed.

Lemma transform_of_training_views_is_centred_product_witness :
  Transform.transform
    {| Transform.weights_list := Some [[[1]; [1]]%Q];
       Transform.view_means :=
         Transform.view_means
           (snd (Transform.demean_data (Transform.init 1)
                   [[[1; 2]; [3; 4]]%Q]));
       Transform.latent_dims := 1 |}
    [[[1; 2]; [3; 4]]%Q] None
  = Ok (zip_with matmul
          (fst (Transform.demean_data (Transform.init 1)
                  [[[1; 2]; [3; 4]]%Q]))
          [[[1]; [1]]%Q]).
Proof.
  apply (@transform_of_training_views_is_centred_product Q _ _
           (Transform.init 1) [[[1; 2]; [3; 4]]%Q] [[[1]; [1]]%Q]).
  cbn. lia.
Defined.

Lemma length_map_result {A B} (f : A -> result B) (l : list A) (r : list B) :
  map_result f l = Ok r -> length r = length l.
Proof. intros H. now destruct (map_result_nth f l H). Qed.

(** X16.  [transform] pairs the views with [view_indices] by [zip]: when
    it returns, it returns as many arrays as the shorter of the two, so
    views beyond the given indices are dropped without an error. *)
Theorem transform_returns_one_array_per_paired_view
  (F : Type) (NF : Num F) (FF : Frac F)
  (self : Transform._CCA_Base (F := F))
  (views : list (Matrix F)) (view_indices : list Z)
  (out : list (Matrix F)) :
  Transform.transform self views (Some view_indices) = Ok out ->
  length out = Nat.min (length views) (length view_indices).
Proof.
  unfold Transform.transform. intros H.
  apply length_map_result in H. now rewrite length_combine in H.
Qed.

Lemma transform_returns_one_array_per_paired_view_witness :
  exists out,
    Transform.transform
      {| Transform.weights_list := Some [[[1]; [1]]%Q];
         Transform.view_means := Some [[0; 0]%Q];
         Transform.latent_dims := 1 |}
      [[[1; 2]]; [[3; 4]]]%Q (Some [0%Z]) = Ok out /\
    length out = 1.
Proof.
  eexists. split; [reflexivity|].
  apply (@transform_returns_one_array_per_paired_view Q _ _
           {| Transform.weights_list := Some [[[1]; [1]]%Q];
              Transform.view_means := Some [[0; 0]%Q];
              Transform.latent_dims := 1 |}
           [[[1; 2]]; [[3; 4]]]%Q [0%Z]).
  reflexivity.
Defined.

(* ================================================================== *)
(** ** SCCA_PMD: accepted parameters, candidates and targets *)

Section PMDFacts.
Local Open Scope R_scope.

Lemma any_out_of_range_false (taus : list PMDParams.tau_value) :
  PMDParams.any_out_of_range taus = false ->
  Forall (fun tau => tau = PMDParams.NotANumber \/
                     exists x, tau = PMDParams.Number x /\ 0 <= x <= 1) taus.
Proof.
  unfold PMDParams.any_out_of_range.
  induction taus as [|tau taus IH]; cbn [existsb]; intros H; [constructor|].
  apply orb_false_iff in H. destruct H as [H1 H2].
  apply orb_false_iff in H1. destruct H1 as [Hlo Hhi].
  constructor; [|now apply IH].
  destruct tau as [x|]; [right|now left].
  cbn in Hlo, Hhi. unfold Rltb in Hlo, Hhi.
  destruct (Rlt_dec x 0); [discriminate|].
  destruct (Rlt_dec 1 x); [discriminate|].
  exists x. split; [reflexivity|lra].
Qed.

Lemma drop_nth_set_nth {A} (l : list A) i x :
  drop_nth (set_nth l i x) i = drop_nth l i.
Proof.
  revert i. induction l as [|a l IH]; intros [|i]; cbn; try reflexivity.
  now rewrite IH.
Qed.

Lemma sqrt_INR_ge_1 p : (1 <= p)%nat -> 1 <= sqrt (INR p).
Proof.
  intros Hp. rewrite <- sqrt_1 at 1. apply sqrt_le_1_alt.
  change 1 with (INR 1). now apply le_INR.
Qed.

End PMDFacts.

(** X17.  [_check_params] raises [ValueError] as soon as a processed
    [tau] is below 0 or above 1: a [tau] it lets through is a number in
    [0, 1] or NaN (both comparisons are [False] for NaN).  For an
    estimator that passed it, the L1 bound that the first
    [_update_weights] computes for a view with a numeric [tau] and
    [p >= 1] features lies between 1 and [sqrt p]. *)
Theorem pmd_checked_tau_bounds_l1_between_one_and_sqrt_p
  (param : Type -> Type)
  (_process_parameter :
     forall A : Type, string -> param A -> A -> nat -> result (list A))
  (str : list PMDParams.tau_value -> string)
  (args : PMDParams.SCCA_PMD param)
  (taus : list PMDParams.tau_value) (positives : list bool)
  (self : PMD.SCCA_PMD) (i : nat) (tau_i : R) (w_i : Matrix R) :
  PMDParams._check_params _process_parameter str args
  = Ok (taus, positives) ->
  nth_error taus i = Some (PMDParams.Number tau_i) ->
  nth_error (PMD.tau self) i = Some tau_i ->
  PMD.t self = None ->
  nth_error (PMD.weights self) i = Some w_i ->
  1 <= nrows w_i ->
  (forall k tau_k,
      nth_error taus k = Some tau_k ->
      tau_k = PMDParams.NotANumber \/
      exists x, tau_k = PMDParams.Number x /\ (0 <= x <= 1)%R) /\
  (0 <= tau_i <= 1)%R /\
  exists c,
    PMD.bound self i = Ok c /\
    (1 <= c <= sqrt (INR (nrows w_i)))%R.
Proof.
  intros Hcheck Hi Htau Ht Hw Hp.
  assert (Hall : Forall (fun tau => tau = PMDParams.NotANumber \/
                                    exists x, tau = PMDParams.Number x /\
                                              (0 <= x <= 1)%R) taus).
  { unfold PMDParams._check_params in Hcheck.
    destruct (_process_parameter PMDParams.tau_value _ _ _ _) as [ts|];
      cbn [bind] in Hcheck; [|discriminate].
    destruct (PMDParams.any_out_of_range ts) eqn:Hany; [discriminate|].
    destruct (_process_parameter bool _ _ _ _) as [ps|]; cbn [bind] in Hcheck;
      [|discriminate].
    injection Hcheck as -> _.
    now apply any_out_of_range_false. }
  rewrite Forall_forall in Hall.
  assert (Hrange : (0 <= tau_i <= 1)%R).
  { destruct (Hall _ (nth_error_In _ _ Hi)) as [E|[x [E Hx]]];
      [discriminate E|].
    now injection E as ->. }
  split; [|split; [exact Hrange|]].
  - intros k tau_k Hk. apply Hall. now apply nth_error_In with k.
  - exists (Rmax 1 (tau_i * sqrt (INR (nrows w_i)))). split.
    + unfold PMD.bound. rewrite (pmd_ensure_t self (or_introl Ht)).
      unfold PMD.l1_bounds.
      apply (index_zip_with (fun x y => Rmax 1 (x * y))%R _ _ _ Htau).
      rewrite nth_error_map, Hw. reflexivity.
    + pose proof (sqrt_INR_ge_1 Hp) as Hsq.
      split; [apply Rmax_l|].
      apply Rmax_lub; [exact Hsq|]. nra.
Qed.

Lemma pmd_half_is_checked :
  PMDParams._check_params Examples2.process_scalar Examples2.str_unused
    Examples2.pmd_half
  = Ok ([PMDParams.Number (1 / 2); PMDParams.Number (1 / 2)]%R,
        [false; false]).
Proof.
  unfold PMDParams._check_params, Examples2.process_scalar. cbn [bind].
  cbn [Examples2.pmd_half PMDParams.tau PMDParams.positive
       PMDParams.n_views_ repeat].
  unfold PMDParams.any_out_of_range.
  cbn [existsb PMDParams.below_zero PMDParams.above_one]. unfold Rltb.
  destruct (Rlt_dec (1 / 2) 0) as [H|_]; [exfalso; lra|].
  destruct (Rlt_dec 1 (1 / 2)) as [H|_]; [exfalso; lra|].
  reflexivity.
Defined.

(** A NaN [tau] passes the check. *)
Lemma pmd_nan_is_checked :
  PMDParams._check_params Examples2.process_scalar Examples2.str_unused
    Examples2.pmd_nan
  = Ok ([PMDParams.NotANumber; PMDParams.NotANumber], [false; false]).
Proof. reflexivity. Qed.

Lemma pmd_checked_tau_bounds_l1_between_one_and_sqrt_p_witness :
  exists c,
    PMD.bound Examples2.pmd_half_fitted 0 = Ok c /\
    (1 <= c <= sqrt (INR 4))%R.
Proof.
  exact (proj2 (proj2
           (@pmd_checked_tau_bounds_l1_between_one_and_sqrt_p
              option Examples2.process_scalar Examples2.str_unused
              Examples2.pmd_half
              [PMDParams.Number (1 / 2); PMDParams.Number (1 / 2)]%R
              [false; false]
              Examples2.pmd_half_fitted 0 (1 / 2)%R
              [[0]; [0]; [0]; [0]]%R
              pmd_half_is_checked eq_refl eq_refl eq_refl eq_refl
              (le_S _ _ (le_S _ _ (le_S _ _ (le_n 1))))))).
Defined.

(** X18.  With [positive[i]] set, the candidate that [_update_weights]
    hands to the delta search has no negative entry. *)
Theorem pmd_positive_candidate_has_no_negative_entry
  (transform : PMD.SCCA_PMD -> list (Matrix R) -> list (Matrix R))
  (self : PMD.SCCA_PMD) (views : list (Matrix R)) (i : nat)
  (new_weights : Matrix R) :
  nth_error (PMD.positive self) i = Some true ->
  PMD.candidate transform self views i = Ok new_weights ->
  Forall (Forall (fun x => 0 <= x)%R) new_weights.
Proof.
  intros Hpos H. unfold PMD.candidate in H.
  destruct (index views i) as [view|]; cbn [bind] in H; [|discriminate].
  unfold index in H. rewrite Hpos in H. cbn [bind] in H.
  injection H as <-. unfold PMD.clip_negative.
  apply Forall_forall. intros row Hrow.
  apply in_map_iff in Hrow. destruct Hrow as [r [<- _]].
  apply Forall_forall. intros x Hx.
  apply in_map_iff in Hx. destruct Hx as [y [<- _]].
  destruct (Rlt_dec y 0); lra.
Qed.

Lemma pmd_positive_candidate_has_no_negative_entry_witness :
  exists new_weights,
    PMD.candidate Examples.pmd_transform Examples2.pmd_positive
      [[[1; 0]; [0; 1]]; [[1; 0]; [0; 1]]]%R 0 = Ok new_weights /\
    Forall (Forall (fun x => 0 <= x)%R) new_weights.
Proof.
  eexists. split; [reflexivity|].
  apply (@pmd_positive_candidate_has_no_negative_entry
           Examples.pmd_transform Examples2.pmd_positive
           [[[1; 0]; [0; 1]]; [[1; 0]; [0; 1]]]%R 0);
    reflexivity.
Defined.



(* ================================================================== *)
(** ** MCCA: the weights are the blocks of the eigenvectors *)

Section ChunkFacts.
Context {A : Type}.

Lemma length_chunks (ns : list nat) (l : list A) :
  length (chunks ns l) = length ns.
Proof.
  revert l. induction ns as [|n t IH]; intros l; cbn; [reflexivity|].
  now rewrite IH.
Qed.

Lemma concat_chunks (ns : list nat) (l : list A) :
  length l = list_sum ns -> concat (chunks ns l) = l.
Proof.
  revert l. induction ns as [|n t IH]; intros l Hlen.
  - destruct l; [reflexivity|discriminate].
  - change (list_sum (n :: t)) with (n + list_sum t) in Hlen.
    cbn [chunks concat].
    rewrite IH by (rewrite length_skipn; lia).
    apply firstn_skipn.
Qed.

Lemma nth_error_chunks (ns : list nat) (l : list A) i n w :
  list_sum ns <= length l ->
  nth_error ns i = Some n -> nth_error (chunks ns l) i = Some w ->
  length w = n.
Proof.
  revert l i. induction ns as [|m t IH]; intros l [|i] Hlen Hn Hw;
    try discriminate;
    change (list_sum (m :: t)) with (m + list_sum t) in Hlen;
    cbn [chunks nth_error] in *.
  - injection Hn as <-. injection Hw as <-.
    rewrite length_firstn. lia.
  - apply (IH (skipn m l) i); try assumption.
    rewrite length_skipn. lia.
Qed.

End ChunkFacts.

Section MCCAFacts.
Context {F : Type} `{NF : Num F}.
Import MCCA.

Lemma split_from (E : Matrix F) :
  forall (ns : list nat) (pre : list nat) (a : nat),
  map_result
    (fun ks => hi <- index (pre ++ a :: cumsum_from a ns) (fst ks + 1) ;;
               Ok (slice E (snd ks) hi))
    (combine (seq (length pre) (length ns))
             (removelast (a :: cumsum_from a ns)))
  = Ok (chunks ns (skipn a E)).
Proof.
  induction ns as [|n t IH]; intros pre a; [reflexivity|].
  specialize (IH (pre ++ [a]) (a + n)).
  rewrite <- app_assoc, length_app in IH. cbn [app length] in IH.
  replace (length pre + 1) with (S (length pre)) in IH by lia.
  cbn [cumsum_from length seq].
  change (removelast (a :: a + n :: cumsum_from (a + n) t))
    with (a :: removelast (a + n :: cumsum_from (a + n) t)).
  cbn [combine map_result fst snd].
  unfold index at 1.
  rewrite nth_error_app2 by lia.
  replace (length pre + 1 - length pre) with 1 by lia.
  cbn [nth_error bind].
  rewrite IH. cbn [bind chunks].
  unfold slice. replace (a + n - a) with n by lia.
  now rewrite skipn_skipn, (Nat.add_comm n a).
Qed.

End MCCAFacts.

(** X20.  [_solve_evp] cuts the kept eigenvectors at [self.splits]: when
    they have one row per feature of the concatenated views, it returns
    one weight block per view, the block of a view has as many rows as
    the view has features, and the blocks stacked in order give the
    eigenvectors back. *)
Theorem mcca_weights_are_the_blocks_of_the_eigenvectors
  (F : Type) (NF : Num F)
  (eigh : Matrix F -> Matrix F -> Z -> Z -> Vector F * Matrix F)
  (argsort : Vector F -> list nat)
  (views : list (Matrix F)) (latent_dims : nat) (C D : Matrix F) :
  nrows (MCCA.sorted_eigvecs eigh argsort latent_dims C D)
  = list_sum (map ncols views) ->
  exists ws,
    MCCA._solve_evp eigh argsort (MCCA.splits views) latent_dims C D = Ok ws /\
    length ws = length views /\
    (forall i view w,
        nth_error views i = Some view -> nth_error ws i = Some w ->
        nrows w = ncols view) /\
    concat ws = MCCA.sorted_eigvecs eigh argsort latent_dims C D.
Proof.
  intros Hrows.
  set (E := MCCA.sorted_eigvecs eigh argsort latent_dims C D) in *.
  exists (chunks (map ncols views) E).
  split; [|split; [|split]].
  - unfold MCCA._solve_evp, MCCA.splits, MCCA.cumsum. fold E.
    cbn [MCCA.cumsum_from Nat.add].
    pose proof (split_from E (map ncols views) [] 0) as H.
    cbn [app length skipn] in H.
    assert (Hlen : length (removelast (0 :: MCCA.cumsum_from 0 (map ncols views)))
                   = length (map ncols views)).
    { clear. generalize 0 at 2. generalize 0.
      induction (map ncols views) as [|n t IH]; intros a b; [reflexivity|].
      cbn [MCCA.cumsum_from].
      change (removelast (a :: b + n :: MCCA.cumsum_from (b + n) t))
        with (a :: removelast (b + n :: MCCA.cumsum_from (b + n) t)).
      cbn [length]. now rewrite IH. }
    rewrite Hlen. exact H.
  - etransitivity; [apply length_chunks|apply length_map].
  - intros i view w Hview Hw.
    apply (nth_error_chunks (map ncols views) E i).
    + unfold nrows in Hrows. lia.
    + now rewrite nth_error_map, Hview.
    + exact Hw.
  - now apply concat_chunks.
Qed.

Lemma mcca_weights_are_the_blocks_of_the_eigenvectors_witness :
  MCCA._solve_evp Examples2.eigh3 Examples2.argsort1
    (MCCA.splits Examples2.views21) 1 [] []
  = Ok [[[1]; [2]]; [[3]]]%Q.
Proof.
  destruct (@mcca_weights_are_the_blocks_of_the_eigenvectors
              Q _ Examples2.eigh3 Examples2.argsort1 Examples2.views21
              1 [] [] eq_refl) as [ws [H _]].
  rewrite H. vm_compute in H. exact (eq_sym H).
Defined.

(* ================================================================== *)
(** ** Initialising the loops *)

Lemma map_result_ext {A B} (f g : A -> result B) (l : list A) :
  (forall a, f a = g a) -> map_result f l = map_result g l.
Proof.
  intros H. induction l as [|a l IH]; [reflexivity|].
  cbn [map_result]. now rewrite H, IH.
Qed.

Lemma map_result_Ok {A B} (g : A -> B) (l : list A) :
  map_result (fun a => Ok (g a)) l = Ok (map g l).
Proof.
  induction l as [|a l IH]; [reflexivity|].
  cbn [map_result map bind]. now rewrite IH.
Qed.

Lemma shape_of_matrix_ones {F} `{NF : Num F} (n k : nat) :
  0 < n -> shape (of_matrix (ones n k)) = [n; k].
Proof.
  intros Hn. destruct n as [|n]; [lia|].
  unfold of_matrix, ones, of_vector. cbn [repeat map shape length].
  rewrite !length_map, !repeat_length.
  destruct k; reflexivity.
Qed.

(** X21.  [_AltMaxVarLoop._initialize] reads the number of latent
    dimensions off [self.scores[0].shape[1]].  Run on the scores that
    [_initialization] returns, it raises [IndexError] for the scheme
    ["random"] (whose scores have one axis per view), and for the scheme
    ["uniform"] it gives every view zero weights of shape
    [(features, latent_dims)]. *)
Theorem models_initialize_needs_two_dimensional_scores
  (F : Type) (NF : Num F) (rng : Type)
  (normal : rng -> nat -> Vector F * rng)
  (rcca : nat -> option F -> list (Matrix F) -> list (Matrix F))
  (view : Matrix F) (rest : list (Matrix F)) (rs : rng) (latent_dims : nat) :
  0 < nrows view ->
  (exists a rs',
      ModelsAltMaxVar._initialization normal rcca (view :: rest)
        (ModelsAltMaxVar.InitName "random") rs latent_dims = Ok (a, rs') /\
      ModelsInitialize._initialize a (view :: rest) = Raise IndexError) /\
  (exists a rs',
      ModelsAltMaxVar._initialization normal rcca (view :: rest)
        (ModelsAltMaxVar.InitName "uniform") rs latent_dims = Ok (a, rs') /\
      ModelsInitialize._initialize a (view :: rest)
      = Ok (map (fun v => zeros (ncols v) latent_dims) (view :: rest))).
Proof.
  intros Hn. split.
  - unfold ModelsAltMaxVar._initialization.
    change (String.eqb "random" "random") with true. cbv iota.
    cbn [ModelsAltMaxVar.random_scores].
    destruct (normal rs (nrows view)) as [x rs1].
    destruct (ModelsAltMaxVar.random_scores normal rs1 rest) as [xs rs2].
    eexists. eexists. split; [reflexivity|].
    unfold ModelsInitialize._initialize.
    cbn [map_result ModelsInitialize.first_item map index nth_error bind].
    unfold of_vector. destruct x; reflexivity.
  - unfold ModelsAltMaxVar._initialization.
    change (String.eqb "uniform" "random") with false.
    change (String.eqb "uniform" "uniform") with true. cbv iota.
    eexists. eexists. split; [reflexivity|].
    unfold ModelsInitialize._initialize.
    rewrite (map_result_ext _
               (fun v => Ok (zeros (ncols v) latent_dims))).
    + apply map_result_Ok.
    + intros v.
      cbn [ModelsInitialize.first_item map index nth_error bind].
      now rewrite (shape_of_matrix_ones latent_dims Hn).
Qed.

Lemma models_initialize_needs_two_dimensional_scores_witness :
  (exists a rs',
      ModelsAltMaxVar._initialization Examples.counter_normal
        Examples.rcca_views Examples.views32
        (ModelsAltMaxVar.InitName "random") 0 2 = Ok (a, rs') /\
      ModelsInitialize._initialize a Examples.views32 = Raise IndexError) /\
  (exists a rs',
      ModelsAltMaxVar._initialization Examples.counter_normal
        Examples.rcca_views Examples.views32
        (ModelsAltMaxVar.InitName "uniform") 0 2 = Ok (a, rs') /\
      ModelsInitialize._initialize a Examples.views32
      = Ok (map (fun v => zeros (ncols v) 2) Examples.views32)).
Proof.
  apply (@models_initialize_needs_two_dimensional_scores Q _ nat
           Examples.counter_normal Examples.rcca_views
           [[1; 2]; [3; 4]; [5; 6]]%Q [[[6; 5]; [4; 3]; [2; 1]]%Q] 0 2).
  cbn. lia.
Defined.

Section ElasticConfigFacts.
Local Open Scope R_scope.
Import ElasticConfig.
Variable rng : Type.

Lemma length_zip3 {A B C} (l1 : list A) (l2 : list B) (l3 : list C) :
  length (zip3 l1 l2 l3)
  = Nat.min (length l1) (Nat.min (length l2) (length l3)).
Proof.
  revert l2 l3. induction l1 as [|a l1 IH]; intros [|b l2] [|c l3];
    cbn [zip3 length]; try rewrite IH; lia.
Qed.

Lemma nth_error_zip3 {A B C} (l1 : list A) (l2 : list B) (l3 : list C) i x :
  nth_error (zip3 l1 l2 l3) i = Some x ->
  nth_error l1 i = Some (fst (fst x)) /\
  nth_error l2 i = Some (snd (fst x)) /\
  nth_error l3 i = Some (snd x).
Proof.
  revert l2 l3 i. induction l1 as [|a l1 IH]; intros [|b l2] [|c l3] [|i];
    cbn [zip3 nth_error]; try discriminate.
  - intros [= <-]. repeat split.
  - apply IH.
Qed.

End ElasticConfigFacts.

(** X22.  Giving [positive] to [ElasticCCA] (any value but [None])
    switches the stochastic solver off: whatever [stochastic] was, and
    whatever lists [_check_params] then stores, [_initialize] builds no
    [SGDRegressor].  It builds one regressor per entry of the shortest
    of [c], [l1_ratio] and [positive]: [Ridge(alpha=tol)] where [c] is
    0, [ElasticNet(alpha=c)] elsewhere. *)
Theorem elastic_positive_switches_stochastic_off
  (rng : Type) (max_iter : nat) (tol : R)
  (c l1_ratio : ElasticConfig.arg R) (maxvar stochastic : bool)
  (positive : ElasticConfig.arg bool) (random_state : rng)
  (cs ls : list R) (ps : list bool)
  (regressors : list (ElasticConfig.regressor rng)) :
  positive <> ElasticConfig.ArgNone ->
  ElasticConfig._initialize
    (ElasticConfig._set_loop_params
       (ElasticConfig.with_params
          (ElasticConfig.__init__ max_iter tol c l1_ratio maxvar stochastic
             positive random_state)
          (ElasticConfig.ArgList cs) (ElasticConfig.ArgList ls)
          (ElasticConfig.ArgList ps)))
  = Ok regressors ->
  Forall (fun r => ElasticConfig.is_sgd r = false) regressors /\
  length regressors
  = Nat.min (length cs) (Nat.min (length ls) (length ps)) /\
  forall i r,
    nth_error regressors i = Some r ->
    exists alpha l p,
      nth_error cs i = Some alpha /\ nth_error ls i = Some l /\
      nth_error ps i = Some p /\
      (alpha = 0%R -> r = ElasticConfig.Ridge rng tol p) /\
      (alpha <> 0%R -> r = ElasticConfig.ElasticNet alpha l p random_state).
Proof.
  intros Hpos H.
  unfold ElasticConfig._initialize, ElasticConfig._set_loop_params,
    ElasticConfig.with_params, ElasticConfig.__init__ in H.
  cbn [ElasticConfig.loop_c ElasticConfig.loop_l1_ratio
       ElasticConfig.loop_positive ElasticConfig.c ElasticConfig.l1_ratio
       ElasticConfig.positive ElasticConfig.iter bind] in H.
  injection H as <-.
  assert (Hst : (if negb (ElasticConfig.is_none positive) && stochastic
                 then false else stochastic) = false).
  { destruct positive; [contradiction| |]; destruct stochastic; reflexivity. }
  assert (Hmake : forall x : R * R * bool,
             ElasticConfig.make_regressor
               {| ElasticConfig.loop_max_iter := max_iter;
                  ElasticConfig.loop_tol := tol;
                  ElasticConfig.loop_c := ElasticConfig.ArgList cs;
                  ElasticConfig.loop_l1_ratio := ElasticConfig.ArgList ls;
                  ElasticConfig.loop_maxvar := maxvar;
                  ElasticConfig.loop_stochastic :=
                    if negb (ElasticConfig.is_none positive) && stochastic
                    then false else stochastic;
                  ElasticConfig.loop_positive := ElasticConfig.ArgList ps;
                  ElasticConfig.loop_random_state := random_state |} x
             = if Reqb (fst (fst x)) 0
               then ElasticConfig.Ridge rng tol (snd x)
               else ElasticConfig.ElasticNet (fst (fst x)) (snd (fst x))
                      (snd x) random_state).
  { intros [[alpha l] p]. unfold ElasticConfig.make_regressor.
    cbn [ElasticConfig.stochastic ElasticConfig.tol
         ElasticConfig.random_state ElasticConfig.max_iter
         ElasticConfig.maxvar ElasticConfig.loop_stochastic
         ElasticConfig.loop_tol ElasticConfig.loop_random_state fst snd].
    now rewrite Hst. }
  cbn [ElasticConfig.stochastic ElasticConfig.tol ElasticConfig.random_state
       ElasticConfig.max_iter ElasticConfig.maxvar].
  split; [|split].
  - apply Forall_forall. intros r Hr. apply in_map_iff in Hr.
    destruct Hr as [x [<- _]]. rewrite Hmake.
    destruct (Reqb (fst (fst x)) 0); reflexivity.
  - rewrite length_map. apply length_zip3.
  - intros i r Hr. rewrite nth_error_map in Hr.
    destruct (nth_error (ElasticConfig.zip3 cs ls ps) i) as [x|] eqn:Hx;
      [|discriminate].
    cbn [option_map] in Hr. injection Hr as <-.
    apply nth_error_zip3 in Hx. destruct Hx as (H1 & H2 & H3).
    exists (fst (fst x)), (snd (fst x)), (snd x).
    repeat split; try assumption; intros Ha; rewrite Hmake; unfold Reqb;
      destruct (Req_dec_T (fst (fst x)) 0); try reflexivity; contradiction.
Qed.

Lemma elastic_positive_switches_stochastic_off_witness :
  exists regressors,
    ElasticConfig._initialize
      (ElasticConfig._set_loop_params Examples2.elastic_estimator)
    = Ok regressors /\
    Forall (fun r => ElasticConfig.is_sgd r = false) regressors /\
    length regressors = 2.
Proof.
  eexists. split; [reflexivity|].
  destruct (@elastic_positive_switches_stochastic_off unit 100
              (1 / 1000000000)%R
              (ElasticConfig.ArgList [0; 1 / 10]%R)
              (ElasticConfig.ArgOne (1 / 2)%R) true true
              (ElasticConfig.ArgOne false) tt
              [0; 1 / 10]%R [1 / 2; 1 / 2]%R [false; false] _
              (fun E => eq_ind (ElasticConfig.ArgOne false)
                          (fun a => match a with
                                    | ElasticConfig.ArgOne _ => True
                                    | _ => False
                                    end) I _ E)
              eq_refl) as [H1 [H2 _]].
  split; [exact H1 | exact H2].
Defined.

(* ================================================================== *)
(** ** The grid search *)

Section GridFacts.
Import GridSearch.
Variable value : Type.
Variable world : Type.
Variable cv_score : world -> params value -> result (Q * Q * world).

Lemma length_flat_map_const {A B} (f : A -> list B) (l : list A) n :
  (forall x, length (f x) = n) -> length (flat_map f l) = length l * n.
Proof.
  intros H. induction l as [|a l IH]; [reflexivity|].
  cbn [flat_map length]. rewrite length_app, H, IH. lia.
Qed.

Lemma length_product (ls : list (list value)) :
  length (product ls) = fold_right Nat.mul 1 (map (@length value) ls).
Proof.
  induction ls as [|l rest IH]; [reflexivity|].
  cbn [product map fold_right].
  rewrite (length_flat_map_const _ l (n := length (product rest)))
    by (intros; apply length_map).
  now rewrite IH.
Qed.

Lemma product_item_length (ls : list (list value)) (s : list value) :
  In s (product ls) -> length s = length ls.
Proof.
  revert s. induction ls as [|l rest IH]; intros s Hs.
  - destruct Hs as [<-|[]]. reflexivity.
  - cbn [product] in Hs. apply in_flat_map in Hs.
    destruct Hs as [x [_ Hs]]. apply in_map_iff in Hs.
    destruct Hs as [s' [<- Hs']]. cbn [length]. now rewrite (IH s').
Qed.

Lemma map_fst_combine {A B} (l : list A) (l' : list B) :
  length l = length l' -> map fst (combine l l') = l.
Proof.
  revert l'. induction l as [|a l IH]; intros [|b l'] H; cbn in *;
    try reflexivity; try discriminate.
  f_equal. apply IH. lia.
Qed.

Lemma nth_error_combine {A B} (l : list A) (l' : list B) k a b :
  nth_error l k = Some a -> nth_error l' k = Some b ->
  nth_error (combine l l') k = Some (a, b).
Proof.
  revert l' k. induction l as [|x l IH]; intros [|y l'] [|k]; cbn;
    try discriminate.
  - now intros [= ->] [= ->].
  - apply IH.
Qed.

Lemma nth_error_combine_inv {A B} (l : list A) (l' : list B) k a b :
  nth_error (combine l l') k = Some (a, b) ->
  nth_error l k = Some a /\ nth_error l' k = Some b.
Proof.
  revert l' k. induction l as [|x l IH]; intros [|y l'] [|k]; cbn;
    try discriminate.
  - intros [= -> ->]. now split.
  - apply IH.
Qed.

Lemma score_all_length (sets : list (params value)) :
  forall w rs w', score_all cv_score w sets = Ok (rs, w') ->
                  length rs = length sets.
Proof.
  induction sets as [|ps rest IH]; intros w rs w' H.
  - injection H as <- _. reflexivity.
  - cbn [score_all] in H.
    destruct (cv_score w ps) as [[[metric std] w1]|]; cbn [bind] in H;
      [|discriminate].
    destruct (score_all cv_score w1 rest) as [[rs1 w2]|] eqn:E;
      cbn [bind] in H; [|discriminate].
    injection H as <- _. cbn. f_equal. now apply (IH w1 rs1 w2).
Qed.

Lemma max_from_upper (l : list Q) :
  forall m, (m <= max_from m l)%Q /\
            Forall (fun x => (x <= max_from m l)%Q) l.
Proof.
  induction l as [|x t IH]; intros m; cbn [max_from].
  - split; [apply Qle_refl|constructor].
  - destruct (IH (if Qle_bool x m then m else x)) as [H1 H2].
    destruct (Qle_bool x m) eqn:E.
    + apply Qle_bool_iff in E. split; [exact H1|].
      constructor; [|exact H2]. now apply Qle_trans with m.
    + assert (Hlt : (m < x)%Q).
      { apply Qnot_le_lt. intros Hle. apply Qle_bool_iff in Hle.
        congruence. }
      split; [apply Qle_trans with x; [now apply Qlt_le_weak|exact H1]|].
      constructor; assumption.
Qed.

Lemma list_index_first (m : Q) (l : list Q) :
  forall k, list_index m l = Ok k ->
  (exists x, nth_error l k = Some x /\ (x == m)%Q) /\
  (forall j x, j < k -> nth_error l j = Some x -> ~ (x == m)%Q).
Proof.
  induction l as [|y t IH]; intros k H; [discriminate|].
  cbn [list_index] in H. destruct (Qeq_bool y m) eqn:E.
  - injection H as <-. apply Qeq_bool_iff in E. split.
    + exists y. now split.
    + intros j x Hj. lia.
  - destruct (list_index m t) as [k'|] eqn:Ek; cbn [bind] in H;
      [|discriminate].
    injection H as <-. destruct (IH k' eq_refl) as [Hfound Hbefore].
    split; [exact Hfound|].
    intros [|j] x Hj Hx.
    + injection Hx as <-. intros Heq. apply Qeq_bool_iff in Heq. congruence.
    + apply (Hbefore j x); [lia|exact Hx].
Qed.

(** The calls of [cv_score] in order: [worlds] holds the world before
    the first call and the world after each call. *)
Lemma score_all_chain (sets : list (params value)) :
  forall w rs w', score_all cv_score w sets = Ok (rs, w') ->
  exists worlds,
    length worlds = S (length sets) /\
    nth_error worlds 0 = Some w /\
    nth_error worlds (length sets) = Some w' /\
    forall j p r,
      nth_error sets j = Some p -> nth_error rs j = Some r ->
      exists wj wj',
        nth_error worlds j = Some wj /\
        nth_error worlds (S j) = Some wj' /\
        cv_score wj p = Ok (fst r, snd r, wj').
Proof.
  induction sets as [|ps rest IH]; intros w rs w' H.
  - injection H as <- <-. exists [w]. repeat split.
    intros [|j] p r Hp; discriminate Hp.
  - cbn [score_all] in H.
    destruct (cv_score w ps) as [[[metric std] w1]|] eqn:Hcall;
      cbn [bind] in H; [|discriminate].
    destruct (score_all cv_score w1 rest) as [[rs1 w2]|] eqn:E;
      cbn [bind] in H; [|discriminate].
    injection H as <- <-. cbn [fst snd].
    destruct (IH w1 rs1 w2 E) as (worlds & Hlen & H0 & Hlast & Hcalls).
    exists (w :: worlds). cbn [length nth_error].
    split; [now rewrite Hlen|]. split; [reflexivity|].
    split; [exact Hlast|].
    intros [|j] p r Hp Hr; cbn [nth_error] in *.
    + injection Hp as <-. injection Hr as <-.
      exists w, w1. repeat split; assumption.
    + exact (Hcalls j p r Hp Hr).
Qed.

End GridFacts.

(** X23.  A grid search that returns has called [cv.score] on every
    combination of the candidate values, once each and in the order of
    [itertools.product] (row [j] of the results table holds combination
    [j] and the score that call returned; the number of rows is the
    product of the numbers of candidates), and has then refitted the
    estimator, returning the refitted model, with the first combination
    whose score is the largest: every score is at most its score and
    every earlier score is strictly smaller.  The chosen combination
    names every hyperparameter of the grid. *)
Theorem gridsearch_refits_first_best_combination
  (value world : Type)
  (cv_score : world -> GridSearch.params value -> result (Q * Q * world))
  (refit : world -> GridSearch.params value -> result world)
  (w : world) (param_candidates : list (string * list value))
  (f : GridSearch.fitted value world) :
  GridSearch.gridsearch_fit cv_score refit w param_candidates
  = GridSearch.Passed (Ok f) ->
  map fst (GridSearch.cv_results_table f)
  = GridSearch.param_sets param_candidates /\
  length (GridSearch.cv_results_table f)
  = fold_right Nat.mul 1
      (map (fun c => length (snd c)) param_candidates) /\
  map fst (GridSearch.best_params f) = map fst param_candidates /\
  (exists worlds,
      length worlds = S (length (GridSearch.cv_results_table f)) /\
      nth_error worlds 0 = Some w /\
      (forall j p s sd,
          nth_error (GridSearch.cv_results_table f) j = Some (p, (s, sd)) ->
          exists wj wj',
            nth_error worlds j = Some wj /\
            nth_error worlds (S j) = Some wj' /\
            cv_score wj p = Ok (s, sd, wj')) /\
      exists wlast,
        nth_error worlds (length (GridSearch.cv_results_table f))
        = Some wlast /\
        refit wlast (GridSearch.best_params f)
        = Ok (GridSearch.model f)) /\
  exists k s sd,
    nth_error (GridSearch.cv_results_table f) k
    = Some (GridSearch.best_params f, (s, sd)) /\
    forall j p s' sd',
      nth_error (GridSearch.cv_results_table f) j = Some (p, (s', sd')) ->
      (s' <= s)%Q /\ (j < k -> (s' < s)%Q).
Proof.
  unfold GridSearch.gridsearch_fit. intros H.
  destruct (length param_candidates =? 0); [discriminate|].
  injection H as H.
  set (sets := GridSearch.param_sets param_candidates) in *.
  destruct (GridSearch.score_all cv_score w sets) as [[rs w1]|] eqn:Hout;
    cbn [bind] in H; [|discriminate].
  pose proof (score_all_length cv_score sets w Hout) as Hlen.
  destruct (score_all_chain cv_score sets w Hout)
    as (worlds & Hwlen & Hw0 & Hwlast & Hcalls).
  destruct rs as [|r0 rs']; [discriminate|].
  set (rs := r0 :: rs') in *.
  change (map fst rs) with (fst r0 :: map fst rs') in H.
  cbn [GridSearch.py_max bind] in H.
  set (m := GridSearch.max_from (fst r0) (map fst rs')) in *.
  destruct (GridSearch.list_index m (fst r0 :: map fst rs')) as [k|] eqn:Hk;
    cbn [bind] in H; [|discriminate].
  unfold index in H.
  destruct (nth_error sets k) as [best|] eqn:Hbest; cbn [bind] in H;
    [|discriminate].
  destruct (refit w1 best) as [w2|] eqn:Hrefit; cbn [bind] in H;
    [|discriminate].
  injection H as <-.
  cbn [GridSearch.cv_results_table GridSearch.best_params GridSearch.model].
  destruct (list_index_first m _ Hk) as [[x [Hx Hxm]] Hbefore].
  destruct (max_from_upper (map fst rs') (fst r0)) as [Hm0 Hmall].
  fold m in Hm0, Hmall.
  assert (Hupper : forall y, In y (fst r0 :: map fst rs') -> (y <= m)%Q).
  { intros y [<-|Hy]; [exact Hm0|].
    rewrite Forall_forall in Hmall. now apply Hmall. }
  assert (Htable : length (combine sets rs) = length sets)
    by (rewrite length_combine, Hlen; apply Nat.min_id).
  split; [|split; [|split; [|split]]].
  - apply map_fst_combine. now rewrite Hlen.
  - rewrite Htable. unfold sets, GridSearch.param_sets.
    rewrite length_map, length_product, map_map. reflexivity.
  - apply nth_error_In in Hbest. unfold sets, GridSearch.param_sets in Hbest.
    apply in_map_iff in Hbest. destruct Hbest as [s [<- Hs]].
    apply map_fst_combine. apply product_item_length in Hs.
    now rewrite Hs, !length_map.
  - exists worlds. rewrite Htable.
    split; [exact Hwlen|]. split; [exact Hw0|]. split.
    + intros j p s sd Hj. apply nth_error_combine_inv in Hj.
      destruct Hj as [Hp Hr].
      exact (Hcalls j p (s, sd) Hp Hr).
    + exists w1. split; [exact Hwlast|exact Hrefit].
  - change (fst r0 :: map fst rs') with (map fst rs) in Hx.
    rewrite nth_error_map in Hx.
    destruct (nth_error rs k) as [[s sd]|] eqn:Hrk; [|discriminate].
    cbn [option_map fst] in Hx. injection Hx as <-.
    exists k, s, sd. split; [now apply nth_error_combine|].
    intros j p s' sd' Hj. apply nth_error_combine_inv in Hj.
    destruct Hj as [_ Hj].
    assert (Hjs : nth_error (fst r0 :: map fst rs') j = Some s').
    { change (fst r0 :: map fst rs') with (map fst rs).
      now rewrite nth_error_map, Hj. }
    assert (Hle : (s' <= m)%Q) by (apply Hupper; now apply nth_error_In with j).
    split.
    + rewrite Hxm. exact Hle.
    + intros Hlt. rewrite Hxm.
      apply Qle_lteq in Hle. destruct Hle as [Hl|He]; [exact Hl|].
      exfalso. exact (Hbefore j s' Hlt Hjs He).
Qed.

(** On a grid of two by two candidates the four combinations are scored
    in order and the estimator is refitted with the second one, the
    first to reach the largest score. *)
Lemma gridsearch_refits_first_best_combination_witness :
  exists f,
    GridSearch.gridsearch_fit Examples2.logged_score Examples2.logged_refit
      [] Examples2.grid = GridSearch.Passed (Ok f) /\
    length (GridSearch.cv_results_table f) = 4 /\
    GridSearch.best_params f
    = [("c"%string, 1%Z); ("l1_ratio"%string, 4%Z)] /\
    GridSearch.model f
    = [[("c"%string, 1%Z); ("l1_ratio"%string, 3%Z)];
       [("c"%string, 1%Z); ("l1_ratio"%string, 4%Z)];
       [("c"%string, 2%Z); ("l1_ratio"%string, 3%Z)];
       [("c"%string, 2%Z); ("l1_ratio"%string, 4%Z)];
       [("c"%string, 1%Z); ("l1_ratio"%string, 4%Z)]].
Proof.
  eexists. split; [vm_compute; reflexivity|].
  split; [|split; reflexivity].
  apply (@gridsearch_refits_first_best_combination Z
           (list (GridSearch.params Z))
           Examples2.logged_score Examples2.logged_refit [] Examples2.grid).
  vm_compute. reflexivity.
Defined.

Lemma product_with_empty_list {value : Type} (ls : list (list value)) :
  In [] ls -> GridSearch.product ls = [].
Proof.
  induction ls as [|l rest IH]; intros H; [contradiction|].
  cbn [GridSearch.product]. destruct H as [->|H]; [reflexivity|].
  rewrite (IH H). clear. induction l as [|x l IHl]; [reflexivity|].
  cbn [flat_map map app]. exact IHl.
Qed.

(** X24.  A grid in which some hyperparameter has no candidate passes
    the opening [assert] (the grid itself is not empty), scores nothing,
    and fails when the empty list of results is unpacked into
    [cv_scores, cv_stds]: a [ValueError] that does not name the
    hyperparameter. *)
Theorem gridsearch_without_candidates_fails_at_unpacking
  (value world : Type)
  (cv_score : world -> GridSearch.params value -> result (Q * Q * world))
  (refit : world -> GridSearch.params value -> result world)
  (w : world) (param_candidates : list (string * list value)) :
  In [] (map snd param_candidates) ->
  GridSearch.gridsearch_fit cv_score refit w param_candidates
  = GridSearch.Passed
      (Raise (ValueError "not enough values to unpack (expected 2, got 0)")).
Proof.
  intros H. unfold GridSearch.gridsearch_fit.
  destruct param_candidates as [|c0 cs]; [contradiction|].
  cbn [length Nat.eqb]. unfold GridSearch.param_sets.
  now rewrite (product_with_empty_list _ H).
Qed.

Lemma gridsearch_without_candidates_fails_at_unpacking_witness :
  GridSearch.gridsearch_fit Examples2.capped_score Examples2.refit_unit tt
    [("c"%string, [1; 2]%Z); ("l1_ratio"%string, [])]
  = GridSearch.Passed
      (Raise (ValueError "not enough values to unpack (expected 2, got 0)")).
Proof.
  apply (@gridsearch_without_candidates_fails_at_unpacking Z unit
           Examples2.capped_score Examples2.refit_unit tt
           [("c"%string, [1; 2]%Z); ("l1_ratio"%string, [])]).
  right. left. reflexivity.
Defined.
